(** * Crop-box geometry of the scan-crop application

    A shallow embedding of the region estimators, the coordinate mappers and
    the two gesture machines (camera overlay and preview screen), followed by
    the properties stated about them.

    The program is read twice.  The first part reads the arithmetic of the
    source over the rationals ([Q]): [+], [-], [*] and [/] are the field
    operations, comparisons are the rational order and numeric equality is
    [Qeq] ([==]).  It serves the properties that do not depend on rounding:
    the order of the events, the bookkeeping of the gesture machines, errors
    and fallbacks, values computed on integers, and bounds that hold with
    room to spare.  A division by zero, which the statements exclude by
    asking for positive dimensions, yields [0] there.  The second part,
    _Evaluation in binary64_, rounds every operation to the nearest double
    and serves the properties that hold only up to rounding, or fail by it:
    the far edge of a clamped box and the end points of the smoother.
    [NaN] and the infinities are outside both. *)

From Stdlib Require Import QArith Qminmax Qround Qabs Qpower ZArith.
From Stdlib Require Import Lia Lqa List Bool.
Import ListNotations.
Open Scope Q_scope.

Abbreviation number := Q (only parsing).

(** ** The [Math] object *)

Module Math.

Definition max (a b : number) : number := Qmax a b.
Definition min (a b : number) : number := Qmin a b.
Definition abs (a : number) : number := Qabs a.
(** Where the source floors a grid index, the index is kept as an integer
    and [Qfloor] is used directly. *)
Definition floor (a : number) : number := inject_Z (Qfloor a).

(** [Math.round] returns the nearest integer, a tie going to the larger
    one: [floor (a + 0.5)]. *)
Definition round (a : number) : number := inject_Z (Qfloor (a + 0.5)).

End Math.

(** [a >= b], [a > b], [a <= b], [a < b] as the booleans JavaScript
    computes. *)
Definition geb (a b : number) : bool := Qle_bool b a.
Definition leb (a b : number) : bool := Qle_bool a b.
Definition gtb (a b : number) : bool := negb (Qle_bool a b).
Definition ltb (a b : number) : bool := negb (Qle_bool b a).

(** [a || b] on numbers: [0] is falsy. *)
Definition or_else (a b : number) : number := if Qeq_bool a 0 then b else a.

(** A destructured option field with a default value:
    [const { field = d } = options]. *)
Definition default {A : Type} (d : A) (o : option A) : A :=
  match o with Some v => v | None => d end.

(** ** Rectangles *)

(** [type Rect = { x; y; width; height }] (also exported as
    [DetectionRect]). *)
Record Rect : Type := mkRect
  { x : number; y : number; width : number; height : number }.

(** The rectangle handed to the image manipulator:
    [{ originX; originY; width; height }]. *)
Module Crop.
Record t : Type := mk
  { originX : number; originY : number; width : number; height : number }.

(** Reading a crop rectangle back as a [Rect] (origin as position). *)
Definition toRect (c : t) : Rect :=
  mkRect (originX c) (originY c) (width c) (height c).
End Crop.

(** Field-wise numeric equality of rectangles. *)
Definition Rect_eq (a b : Rect) : Prop :=
  x a == x b /\ y a == y b /\ width a == width b /\ height a == height b.

Infix "=r=" := Rect_eq (at level 70, no associativity).

(** [inside r w h]: [r] lies fully inside [[0,w] x [0,h]]. *)
Definition inside (r : Rect) (w h : number) : Prop :=
  0 <= x r /\ 0 <= y r /\ x r + width r <= w /\ y r + height r <= h.

(** ** utils/realtimeDetection.ts *)

Module RealtimeDetection.

(** The optional [options] argument of [detectQuestionAreaFast]; every field
    is itself optional. *)
Record Options : Type := mkOptions
  { verticalBias : option number;
    widthRatio : option number;
    heightRatio : option number }.

Definition detectQuestionAreaFast
    (previewWidth previewHeight : number) (options : option Options) : Rect :=
  let o := match options with
           | Some o => o
           | None => mkOptions None None None
           end in
  let verticalBias := default 0.18 (verticalBias o) in
  let widthRatio := default 0.65 (widthRatio o) in
  let heightRatio := default 0.10 (heightRatio o) in
  let boxWidth := previewWidth * widthRatio in
  let boxHeight := Math.min (previewHeight * heightRatio) 100 in
  let boxX := (previewWidth - boxWidth) / 2 in
  let boxY := (previewHeight * verticalBias) - (boxHeight / 2) in
  let clampedX := Math.max 0 (Math.min boxX (previewWidth - boxWidth)) in
  let clampedY := Math.max 0 (Math.min boxY (previewHeight - boxHeight)) in
  mkRect clampedX clampedY boxWidth boxHeight.

(** [currentBox] is [null] when there is no history. *)
Definition smoothBoxTransition
    (currentBox : option Rect) (newBox : Rect) (smoothingFactor : number)
    : Rect :=
  match currentBox with
  | None => newBox
  | Some currentBox =>
      mkRect
        (x currentBox + (x newBox - x currentBox) * smoothingFactor)
        (y currentBox + (y newBox - y currentBox) * smoothingFactor)
        (width currentBox
         + (width newBox - width currentBox) * smoothingFactor)
        (height currentBox
         + (height newBox - height currentBox) * smoothingFactor)
  end.

Definition mapPreviewBoxToImageCoords
    (previewBox : Rect)
    (previewWidth previewHeight imageWidth imageHeight : number) : Crop.t :=
  let scaleX := imageWidth / previewWidth in
  let scaleY := imageHeight / previewHeight in
  Crop.mk (Math.round (x previewBox * scaleX))
          (Math.round (y previewBox * scaleY))
          (Math.round (width previewBox * scaleX))
          (Math.round (height previewBox * scaleY)).

Definition isValidBox
    (box : Rect) (containerWidth containerHeight : number) : bool :=
  geb (x box) 0 && geb (y box) 0
  && gtb (width box) 0 && gtb (height box) 0
  && leb (x box + width box) containerWidth
  && leb (y box + height box) containerHeight.

End RealtimeDetection.

(** ** Exceptions

    A computation either returns a value or throws; [try_catch] is
    [try { ... } catch (error) { ... }]. *)

Inductive result (A : Type) : Type :=
| Ok (a : A)
| Thrown.
Arguments Ok {A} a.
Arguments Thrown {A}.

Definition bind {A B : Type} (m : result A) (k : A -> result B) : result B :=
  match m with
  | Ok a => k a
  | Thrown => Thrown
  end.

Definition try_catch {A : Type} (body handler : result A) : result A :=
  match body with
  | Ok a => Ok a
  | Thrown => handler
  end.

Notation "x <- m ;; k" := (bind m (fun x => k))
  (at level 61, m at next level, right associativity).

(** ** The image manipulator (expo-image-manipulator)

    An external collaborator: the development is parametric in it. *)

Inductive Action : Type :=
| Resize (width height : number)
| CropTo (rect : Crop.t)
| FlipVertical.

(** [for (i = lo; i < hi; i++)] visits [range lo hi] in order. *)
Definition range (lo hi : Z) : list Z :=
  map (fun i => (lo + Z.of_nat i)%Z) (seq 0 (Z.to_nat (hi - lo))).

(** ** utils/imageUtils.ts *)

Module ImageUtils.

Definition mapScreenRectToImage
    (rect : Rect) (screenW screenH imageW imageH : number) : Crop.t :=
  let scaleX := imageW / screenW in
  let scaleY := imageH / screenH in
  Crop.mk (Math.round (x rect * scaleX))
          (Math.round (y rect * scaleY))
          (Math.round (width rect * scaleX))
          (Math.round (height rect * scaleY)).

Inductive VerticalPosition : Type := top | center | upper_center.

Record Options : Type := mkOptions
  { topOffset : option number;
    bottomOffset : option number;
    widthRatio : option number;
    heightRatio : option number;
    verticalPosition : option VerticalPosition }.

Definition detectTextArea
    (screenWidth screenHeight : number) (options : option Options) : Rect :=
  let o := match options with
           | Some o => o
           | None => mkOptions None None None None None
           end in
  let topOffset := default 120 (topOffset o) in
  let bottomOffset := default 120 (bottomOffset o) in
  let widthRatio := default 0.85 (widthRatio o) in
  let heightRatio := default 0.4 (heightRatio o) in
  let verticalPosition := default upper_center (verticalPosition o) in
  let documentTop := topOffset in
  let documentBottom := screenHeight - bottomOffset in
  let documentHeight := documentBottom - documentTop in
  let cropWidth := screenWidth * widthRatio in
  let cropHeight :=
    Math.min (documentHeight * heightRatio) (screenWidth * 0.5) in
  let cropX := (screenWidth - cropWidth) / 2 in
  let cropY :=
    match verticalPosition with
    | top => documentTop + (documentHeight * 0.05)
    | center => documentTop + (documentHeight - cropHeight) / 2
    | upper_center => documentTop + (documentHeight * 0.15)
    end in
  mkRect cropX cropY cropWidth cropHeight.

(** *** The density grid of [analyzeTextDensity]

    The grid is 40 rows by 30 columns; a cell's score is computed from its
    row and column index. *)

Definition gridRows : Z := 40.
Definition gridCols : Z := 30.

Definition cellDensity (row col : Z) : number :=
  let verticalPos := inject_Z row / inject_Z gridRows in
  let horizontalPos := inject_Z col / inject_Z gridCols in
  let vDensity :=
    if geb verticalPos 0.22 && leb verticalPos 0.42 then
      let distanceFromOptimal := Math.abs (0.32 - verticalPos) in
      Math.max 0 (1.0 - (distanceFromOptimal * 15.0))
    else 0 in
  let hDensity :=
    if geb horizontalPos 0.10 && leb horizontalPos 0.90
    then 1.0 - Math.abs (0.5 - horizontalPos) * 1.2
    else 0 in
  Math.max 0 (vDensity * hDensity).

Definition densityMap : list (list number) :=
  map (fun row => map (fun col => cellDensity row col) (range 0 gridCols))
      (range 0 gridRows).

(** [Math.max(...xs)]; the grid is never empty, so the [-Infinity] of an
    empty argument list does not arise. *)
Definition maxOf (xs : list number) : number :=
  match xs with
  | [] => 0
  | d :: ds => fold_left Math.max ds d
  end.

Definition maxDensity : number := maxOf (concat densityMap).
Definition densityThreshold : number := maxDensity * 0.20.

(** [densityMap[row].reduce((sum, val) => sum + val, 0) / gridCols] *)
Definition rowDensity (row : Z) : number :=
  fold_left (fun sum val => sum + val) (nth (Z.to_nat row) densityMap []) 0
  / inject_Z gridCols.

(** [densityMap.reduce((sum, row) => sum + row[col], 0) / gridRows] *)
Definition colDensity (col : Z) : number :=
  fold_left (fun sum row => sum + nth (Z.to_nat col) row 0) densityMap 0
  / inject_Z gridRows.

(** The loop that finds the top boundary; [break] on the first dense row. *)
Fixpoint topLoop (rows : list Z) (topBoundary : Z) : Z :=
  match rows with
  | [] => topBoundary
  | row :: rows' =>
      if gtb (rowDensity row) densityThreshold
      then Z.max 0 row
      else topLoop rows' topBoundary
  end.

Definition topBoundary : Z :=
  let topBoundary := Qfloor (inject_Z gridRows * 0.15) in
  topLoop (range topBoundary (Qfloor (inject_Z gridRows * 0.6))) topBoundary.

(** The loop that extends the bottom boundary while rows stay dense. *)
Fixpoint bottomLoop (rows : list Z) (bottomBoundary : Z) : Z :=
  match rows with
  | [] => bottomBoundary
  | row :: rows' =>
      if gtb (rowDensity row) densityThreshold
      then bottomLoop rows' row
      else if (row >? topBoundary + 2)%Z
           then bottomBoundary
           else bottomLoop rows' bottomBoundary
  end.

Definition bottomBoundary1 : Z :=
  bottomLoop
    (range (topBoundary + 1)
           (Z.min (topBoundary + Qfloor (inject_Z gridRows * 0.15))
                  (gridRows - 1) + 1))
    (topBoundary + Qfloor (inject_Z gridRows * 0.10)).

Fixpoint leftLoop (cols : list Z) (leftBoundary : Z) : Z :=
  match cols with
  | [] => leftBoundary
  | col :: cols' =>
      if gtb (colDensity col) densityThreshold
      then Z.max 0 (col - 1)
      else leftLoop cols' leftBoundary
  end.

Definition leftBoundary1 : Z := leftLoop (range 0 gridCols) 0.

Fixpoint rightLoop (cols : list Z) (rightBoundary : Z) : Z :=
  match cols with
  | [] => rightBoundary
  | col :: cols' =>
      if gtb (colDensity col) densityThreshold
      then Z.min (gridCols - 1) (col + 1)
      else rightLoop cols' rightBoundary
  end.

(** [for (col = gridCols - 1; col >= leftBoundary; col--)] *)
Definition rightBoundary1 : Z :=
  rightLoop (rev (range leftBoundary1 gridCols)) (gridCols - 1).

(** Height limit: at most 12% of the rows. *)
Definition bottomBoundary : Z :=
  let detectedRows := (bottomBoundary1 - topBoundary + 1)%Z in
  if gtb (inject_Z detectedRows) (inject_Z gridRows * 0.12)
  then (topBoundary + Qfloor (inject_Z gridRows * 0.12))%Z
  else bottomBoundary1.

(** Width limit: at most 34% of the columns, re-centred. *)
Definition columnBoundaries : Z * Z :=
  let detectedCols := (rightBoundary1 - leftBoundary1 + 1)%Z in
  let maxAllowedCols := Qfloor (inject_Z gridCols * 0.34) in
  if (detectedCols >? maxAllowedCols)%Z then
    let center :=
      Qfloor (inject_Z (leftBoundary1 + rightBoundary1) / 2) in
    let halfWidth := Qfloor (inject_Z maxAllowedCols / 2) in
    let leftBoundary := Z.max 0 (center - halfWidth) in
    let rightBoundary :=
      Z.min (gridCols - 1) (leftBoundary + maxAllowedCols - 1) in
    if (rightBoundary >=? gridCols - 1)%Z
    then (Z.max 0 (gridCols - 1 - maxAllowedCols + 1), (gridCols - 1)%Z)
    else (leftBoundary, rightBoundary)
  else (leftBoundary1, rightBoundary1).

Definition leftBoundary : Z := fst columnBoundaries.
Definition rightBoundary : Z := snd columnBoundaries.

(** Everything after the resize of the source image: from the grid
    boundaries to the rectangle in screen coordinates. *)
Definition screenRect
    (imageWidth imageHeight screenWidth screenHeight : number) : Rect :=
  let analysisWidth := 200 in
  let analysisHeight :=
    Math.round ((imageHeight / imageWidth) * analysisWidth) in
  let cellWidth := analysisWidth / inject_Z gridCols in
  let cellHeight := analysisHeight / inject_Z gridRows in
  let detectedX := inject_Z leftBoundary * cellWidth in
  let detectedY := inject_Z topBoundary * cellHeight in
  let detectedWidth := inject_Z (rightBoundary - leftBoundary) * cellWidth in
  let detectedHeight :=
    inject_Z (bottomBoundary - topBoundary) * cellHeight in
  let scaleX := imageWidth / analysisWidth in
  let scaleY := imageHeight / analysisHeight in
  let imageX := detectedX * scaleX in
  let imageY := detectedY * scaleY in
  let imageW := detectedWidth * scaleX in
  let imageH := detectedHeight * scaleY in
  let screenScaleX := screenWidth / imageWidth in
  let screenScaleY := screenHeight / imageHeight in
  let paddingX := imageW * 0.02 in
  let paddingY := imageH * 0.02 in
  let tightX := Math.max 0 (imageX - paddingX) in
  let tightY := Math.max 0 (imageY - paddingY) in
  let tightW := Math.min (imageW + (paddingX * 2)) (imageWidth - tightX) in
  let tightH := Math.min (imageH + (paddingY * 2)) (imageHeight - tightY) in
  let finalX := Math.max 0 (Math.min tightX (imageWidth - tightW)) in
  let finalY := Math.max 0 (Math.min tightY (imageHeight - tightH)) in
  mkRect (finalX * screenScaleX) (finalY * screenScaleY)
         (tightW * screenScaleX) 35.

Section Analyze.

(** Image references and the manipulator's results are opaque. *)
Variables Uri ImageResult : Type.
Variable manipulateAsync : Uri -> Action -> result ImageResult.

(** [analyzeTextDensity]: the image is resized for analysis; the result of
    the resize ([processed]) is not read afterwards.  Any exception is
    caught and turned into [null]. *)
Definition analyzeTextDensity
    (imageUri : Uri)
    (imageWidth imageHeight screenWidth screenHeight : number)
    : result (option Rect) :=
  try_catch
    (let analysisWidth := 200 in
     let analysisHeight :=
       Math.round ((imageHeight / imageWidth) * analysisWidth) in
     processed <-
       manipulateAsync imageUri (Resize analysisWidth analysisHeight) ;;
     Ok (Some (screenRect imageWidth imageHeight screenWidth screenHeight)))
    (Ok None).

End Analyze.

Arguments analyzeTextDensity {Uri ImageResult} manipulateAsync imageUri
  imageWidth imageHeight screenWidth screenHeight.

End ImageUtils.

(** ** components/AutoDetectionBox.tsx

    The overlay of the camera screen.  The four shared values hold the box on
    screen; a gesture captures its start values, updates the box on every
    event from the cumulative translation, and reports the box to the parent
    when it ends. *)

Module AutoDetectionBox.

Definition MIN_BOX_SIZE : number := 80.
Definition MAX_BOX_WIDTH_RATIO : number := 0.95.
Definition MAX_BOX_HEIGHT_RATIO : number := 0.4.

Inductive Corner : Type := TL | TR | BL | BR.

(** The shared values and the [isInteracting] ref. *)
Record Shared : Type := mkShared
  { boxLeft : number; boxTop : number;
    boxWidth : number; boxHeight : number;
    startLeft : number; startTop : number;
    startWidth : number; startHeight : number;
    isInteracting : bool }.

(** What the component reports to its parent. *)
Inductive Callback : Type :=
| onInteractionStart
| onInteractionEnd
| onBoxChange (box : Rect).

Definition box (s : Shared) : Rect :=
  mkRect (boxLeft s) (boxTop s) (boxWidth s) (boxHeight s).

Section Component.

(** Props. *)
Variables containerWidth containerHeight : number.

Definition initial : Shared :=
  mkShared (containerWidth * 0.1) (containerHeight * 0.3)
           (containerWidth * 0.8) 100 0 0 0 0 false.

(** The effect that follows [detectedBox]: the four values spring to the
    detected rectangle (modelled by the value they settle at). *)
Definition onDetectedBox
    (detectedBox : option Rect) (isAutoDetecting isLocked : bool)
    (s : Shared) : Shared :=
  match detectedBox with
  | Some d =>
      if isAutoDetecting && negb isLocked && negb (isInteracting s)
      then mkShared (x d) (y d) (width d) (height d)
                    (startLeft s) (startTop s)
                    (startWidth s) (startHeight s) (isInteracting s)
      else s
  | None => s
  end.

Definition clampBox (x y w h : number) : Rect :=
  let maxWidth := containerWidth * MAX_BOX_WIDTH_RATIO in
  let maxHeight := containerHeight * MAX_BOX_HEIGHT_RATIO in
  let clampedW := Math.max MIN_BOX_SIZE (Math.min w maxWidth) in
  let clampedH := Math.max MIN_BOX_SIZE (Math.min h maxHeight) in
  let clampedX := Math.max 0 (Math.min x (containerWidth - clampedW)) in
  let clampedY := Math.max 0 (Math.min y (containerHeight - clampedH)) in
  mkRect clampedX clampedY clampedW clampedH.

(** *** [panGesture] *)

Definition pan_onStart (s : Shared) : Shared * list Callback :=
  (mkShared (boxLeft s) (boxTop s) (boxWidth s) (boxHeight s)
            (boxLeft s) (boxTop s) (startWidth s) (startHeight s) true,
   [onInteractionStart]).

Definition pan_onUpdate
    (translationX translationY : number) (s : Shared) : Shared :=
  let newX := startLeft s + translationX in
  let newY := startTop s + translationY in
  let clamped := clampBox newX newY (boxWidth s) (boxHeight s) in
  mkShared (x clamped) (y clamped) (boxWidth s) (boxHeight s)
           (startLeft s) (startTop s) (startWidth s) (startHeight s)
           (isInteracting s).

Definition gesture_onEnd (s : Shared) : Shared * list Callback :=
  (mkShared (boxLeft s) (boxTop s) (boxWidth s) (boxHeight s)
            (startLeft s) (startTop s) (startWidth s) (startHeight s)
            false,
   [onInteractionEnd; onBoxChange (box s)]).

(** *** [createCornerGesture] *)

Definition corner_onStart (s : Shared) : Shared * list Callback :=
  (mkShared (boxLeft s) (boxTop s) (boxWidth s) (boxHeight s)
            (boxLeft s) (boxTop s) (boxWidth s) (boxHeight s) true,
   [onInteractionStart]).

Definition corner_onUpdate
    (corner : Corner) (translationX translationY : number) (s : Shared)
    : Shared :=
  let '(newX, newY, newW, newH) :=
    match corner with
    | TL => (startLeft s + translationX, startTop s + translationY,
             startWidth s - translationX, startHeight s - translationY)
    | TR => (startLeft s, startTop s + translationY,
             startWidth s + translationX, startHeight s - translationY)
    | BL => (startLeft s + translationX, startTop s,
             startWidth s - translationX, startHeight s + translationY)
    | BR => (startLeft s, startTop s,
             startWidth s + translationX, startHeight s + translationY)
    end in
  let clamped := clampBox newX newY newW newH in
  mkShared (x clamped) (y clamped) (width clamped) (height clamped)
           (startLeft s) (startTop s) (startWidth s) (startHeight s)
           (isInteracting s).

(** *** Whole gestures

    A gesture is a start, the updates in order (each carrying the
    translation accumulated since the start) and an end. *)

Definition updates
    (onUpdate : number -> number -> Shared -> Shared)
    (events : list (number * number)) (s : Shared) : Shared :=
  fold_left (fun s e => onUpdate (fst e) (snd e) s) events s.

Definition panGesture
    (events : list (number * number)) (s : Shared)
    : Shared * list Callback :=
  let (s1, c1) := pan_onStart s in
  let (s2, c2) := gesture_onEnd (updates pan_onUpdate events s1) in
  (s2, c1 ++ c2).

Definition cornerGesture
    (corner : Corner) (events : list (number * number)) (s : Shared)
    : Shared * list Callback :=
  let (s1, c1) := corner_onStart s in
  let (s2, c2) :=
    gesture_onEnd (updates (corner_onUpdate corner) events s1) in
  (s2, c1 ++ c2).

End Component.

(** The corner diagonally opposite a handle. *)
Definition anchor (corner : Corner) (r : Rect) : number * number :=
  match corner with
  | TL => (x r + width r, y r + height r)
  | TR => (x r, y r + height r)
  | BL => (x r + width r, y r)
  | BR => (x r, y r)
  end.

End AutoDetectionBox.

(** ** Photos and layouts *)

Module Photo.
(** [{ uri; width; height }]: a captured photo and its pixel size. *)
Record t (Uri : Type) : Type := mk
  { uri : Uri; width : number; height : number }.
Arguments mk {Uri} uri width height.
Arguments uri {Uri} t.
Arguments width {Uri} t.
Arguments height {Uri} t.
End Photo.

Module Layout.
(** [event.nativeEvent.layout] of the image container. *)
Record t : Type := mk
  { width : number; height : number; x : number; y : number }.
End Layout.

(** ** screens/PreviewScreen.tsx

    The crop box over the still image.  The component keeps the committed
    rectangle in the [cropBox] state and the gesture bookkeeping in refs.  The
    [isDragging] and [isResizing] states mirror the two refs of the same name
    and only drive rendering and timers; they are left out.  The gesture
    handlers are memoised: they read the layout of the render in which they
    were built, which the model passes to them as an argument. *)

Module PreviewScreen.

Inductive Handle : Type := TL | TR | BL | BR.

Definition Handle_eqb (a b : Handle) : bool :=
  match a, b with
  | TL, TL | TR, TR | BL, BL | BR, BR => true
  | _, _ => false
  end.

(** What a scheduled animation frame will do when it fires: flush the
    pending box of a gesture, or commit the box of [updateCropBox]. *)
Inductive Frame : Type :=
| flushPending
| commit (constrainedBox : Rect).

Record State : Type := mkState
  { cropBox : Rect;
    imageLayout : Layout.t;
    dragStartRef : Rect;
    activeHandleRef : option Handle;
    isDraggingRef : bool;
    isResizingRef : bool;
    cropBoxRef : Rect;
    animationFrameRef : option Frame;
    pendingCropRef : option Rect }.

Definition set_cropBox v s :=
  mkState v (imageLayout s) (dragStartRef s) (activeHandleRef s)
          (isDraggingRef s) (isResizingRef s) (cropBoxRef s)
          (animationFrameRef s) (pendingCropRef s).
Definition set_imageLayout v s :=
  mkState (cropBox s) v (dragStartRef s) (activeHandleRef s)
          (isDraggingRef s) (isResizingRef s) (cropBoxRef s)
          (animationFrameRef s) (pendingCropRef s).
Definition set_dragStartRef v s :=
  mkState (cropBox s) (imageLayout s) v (activeHandleRef s)
          (isDraggingRef s) (isResizingRef s) (cropBoxRef s)
          (animationFrameRef s) (pendingCropRef s).
Definition set_activeHandleRef v s :=
  mkState (cropBox s) (imageLayout s) (dragStartRef s) v
          (isDraggingRef s) (isResizingRef s) (cropBoxRef s)
          (animationFrameRef s) (pendingCropRef s).
Definition set_isDraggingRef v s :=
  mkState (cropBox s) (imageLayout s) (dragStartRef s) (activeHandleRef s)
          v (isResizingRef s) (cropBoxRef s)
          (animationFrameRef s) (pendingCropRef s).
Definition set_isResizingRef v s :=
  mkState (cropBox s) (imageLayout s) (dragStartRef s) (activeHandleRef s)
          (isDraggingRef s) v (cropBoxRef s)
          (animationFrameRef s) (pendingCropRef s).
Definition set_cropBoxRef v s :=
  mkState (cropBox s) (imageLayout s) (dragStartRef s) (activeHandleRef s)
          (isDraggingRef s) (isResizingRef s) v
          (animationFrameRef s) (pendingCropRef s).
Definition set_animationFrameRef v s :=
  mkState (cropBox s) (imageLayout s) (dragStartRef s) (activeHandleRef s)
          (isDraggingRef s) (isResizingRef s) (cropBoxRef s)
          v (pendingCropRef s).
Definition set_pendingCropRef v s :=
  mkState (cropBox s) (imageLayout s) (dragStartRef s) (activeHandleRef s)
          (isDraggingRef s) (isResizingRef s) (cropBoxRef s)
          (animationFrameRef s) v.

Definition clamp (val min max : number) : number :=
  Math.max min (Math.min max val).

(** [!==] on the four fields of two boxes. *)
Definition differs (a b : Rect) : bool :=
  negb (Qeq_bool (x a) (x b)) || negb (Qeq_bool (y a) (y b))
  || negb (Qeq_bool (width a) (width b))
  || negb (Qeq_bool (height a) (height b)).

Section Component.

(** [Dimensions.get('window')]. *)
Variables SCREEN_WIDTH SCREEN_HEIGHT : number.

Definition containerWidth (imageLayout : Layout.t) : number :=
  or_else (Layout.width imageLayout) SCREEN_WIDTH.
Definition containerHeight (imageLayout : Layout.t) : number :=
  or_else (Layout.height imageLayout) (SCREEN_HEIGHT * 0.55).

(** [getInitialCropBox] *)
Definition getInitialCropBox (crop : option Rect) : Rect :=
  match crop with
  | Some crop => crop
  | None =>
      let containerWidth := SCREEN_WIDTH in
      let containerHeight := SCREEN_HEIGHT * 0.55 in
      mkRect (containerWidth * 0.1) (containerHeight * 0.15)
             (containerWidth * 0.8)
             (Math.min (containerHeight * 0.35) (containerWidth * 0.4))
  end.

Definition initial (crop : option Rect) : State :=
  let cropBox := getInitialCropBox crop in
  mkState cropBox (Layout.mk 0 0 0 0) (mkRect 0 0 0 0) None
          false false cropBox None None.

(** Constrain the crop box to the container; no minimum size. *)
Definition constrainCropBox (imageLayout : Layout.t) (box : Rect) : Rect :=
  let containerWidth := containerWidth imageLayout in
  let containerHeight := containerHeight imageLayout in
  let width := Math.min (width box) containerWidth in
  let height := Math.min (height box) containerHeight in
  let x := clamp (x box) 0 (containerWidth - width) in
  let y := clamp (y box) 0 (containerHeight - height) in
  mkRect x y width height.

(** [setCropBox], followed by the effect that keeps [cropBoxRef] in step
    with [cropBox] outside gestures. *)
Definition setCropBox (box : Rect) (s : State) : State :=
  let s := set_cropBox box s in
  if negb (isDraggingRef s) && negb (isResizingRef s)
  then set_cropBoxRef (cropBox s) s
  else s.

(** [onLayout], followed by the effect that re-constrains the crop box
    when the width or the height of the layout changed. *)
Definition onLayout (layout : Layout.t) (s : State) : State :=
  let old := imageLayout s in
  let s := set_imageLayout layout s in
  if negb (Qeq_bool (Layout.width old) (Layout.width layout))
     || negb (Qeq_bool (Layout.height old) (Layout.height layout))
  then
    if gtb (Layout.width layout) 0 && gtb (Layout.height layout) 0
    then
      let constrainedBox := constrainCropBox layout (cropBox s) in
      if differs constrainedBox (cropBox s)
      then setCropBox constrainedBox s
      else s
    else s
  else s.

(** [updateCropBox]: a pending frame is cancelled and replaced. *)
Definition updateCropBox (newBox : Rect) (s : State) : State :=
  let constrainedBox := constrainCropBox (imageLayout s) newBox in
  set_animationFrameRef (Some (commit constrainedBox)) s.

(** The callback of [requestAnimationFrame] fires. *)
Definition animationFrame (s : State) : State :=
  match animationFrameRef s with
  | None => s
  | Some flushPending =>
      let s :=
        match pendingCropRef s with
        | Some pending => set_pendingCropRef None (setCropBox pending s)
        | None => s
        end in
      set_animationFrameRef None s
  | Some (commit constrainedBox) =>
      let s := set_cropBoxRef constrainedBox s in
      let s := setCropBox constrainedBox s in
      set_animationFrameRef None s
  end.

(** The ending of [performAutoDetection] once the density estimator has
    answered: the detected rectangle is shifted by the letterbox offset
    and installed; on [null] the current crop box is kept. *)
Definition onAutoDetected
    (detectedRect : option Rect) (imageOffsetX imageOffsetY : number)
    (s : State) : State :=
  match detectedRect with
  | Some detectedRect =>
      let adjustedRect :=
        mkRect (x detectedRect + imageOffsetX)
               (y detectedRect + imageOffsetY)
               (width detectedRect) (height detectedRect) in
      updateCropBox adjustedRect s
  | None => s
  end.

(** The tail shared by the move handlers: publish the new box in the
    refs and schedule a frame unless one is pending. *)
Definition publish (newBox : Rect) (s : State) : State :=
  let s := set_cropBoxRef newBox s in
  let s := set_pendingCropRef (Some newBox) s in
  match animationFrameRef s with
  | None => set_animationFrameRef (Some flushPending) s
  | Some _ => s
  end.

(** The tail shared by the release and terminate handlers. *)
Definition flush (s : State) : State :=
  match pendingCropRef s with
  | Some pending => set_pendingCropRef None (setCropBox pending s)
  | None => s
  end.

(** *** [dragResponder]

    [dragResponder] is [useMemo(..., [imageLayout.height])] and
    [createResizeResponder] is [useCallback(..., [imageLayout.height])]:
    the handlers are those of the render in which the height of the layout
    last changed, and the [imageLayout] they read is the layout of that
    render.  It is the [imageLayout] argument of the move handlers; the
    refs are read from the state. *)

Definition drag_onStartShouldSetPanResponder (s : State) : bool :=
  negb (isResizingRef s).

Definition drag_onPanResponderGrant (s : State) : State :=
  let s := set_isDraggingRef true s in
  set_dragStartRef
    (mkRect (x (cropBoxRef s)) (y (cropBoxRef s))
            (width (cropBoxRef s)) (height (cropBoxRef s))) s.

Definition drag_onPanResponderMove
    (imageLayout : Layout.t) (dx dy : number) (s : State) : State :=
  if isResizingRef s then s else
  let width := width (dragStartRef s) in
  let height := height (dragStartRef s) in
  let containerWidth := containerWidth imageLayout in
  let containerHeight := containerHeight imageLayout in
  let newX := clamp (x (dragStartRef s) + dx) 0 (containerWidth - width) in
  let newY :=
    clamp (y (dragStartRef s) + dy) 0 (containerHeight - height) in
  publish (mkRect newX newY width height) s.

(** [onPanResponderRelease]; [onPanResponderTerminate] has the same
    body. *)
Definition drag_onPanResponderRelease (s : State) : State :=
  flush (set_isDraggingRef false s).

Definition drag_onPanResponderTerminate (s : State) : State :=
  flush (set_isDraggingRef false s).

(** *** [createResizeResponder] *)

Definition resize_onStartShouldSetPanResponder (s : State) : bool :=
  negb (isDraggingRef s).

Definition resize_onPanResponderGrant (handle : Handle) (s : State)
    : State :=
  let s := set_isResizingRef true s in
  let s := set_activeHandleRef (Some handle) s in
  set_dragStartRef
    (mkRect (x (cropBoxRef s)) (y (cropBoxRef s))
            (width (cropBoxRef s)) (height (cropBoxRef s))) s.

(** The rectangle a resize move computes from the start rectangle. *)
Definition resizedBox
    (handle : Handle) (imageLayout : Layout.t) (start : Rect)
    (dx dy : number) : Rect :=
  let minSize := 1 in
  let containerWidth := containerWidth imageLayout in
  let containerHeight := containerHeight imageLayout in
  let startX := x start in
  let startY := y start in
  let startWidth := width start in
  let startHeight := height start in
  match handle with
  | BR =>
      let newWidth :=
        clamp (startWidth + dx) minSize (containerWidth - startX) in
      let newHeight :=
        clamp (startHeight + dy) minSize (containerHeight - startY) in
      mkRect startX startY newWidth newHeight
  | TR =>
      let newWidth :=
        clamp (startWidth + dx) minSize (containerWidth - startX) in
      let potentialHeight := startHeight - dy in
      let potentialY := startY + dy in
      if geb potentialHeight minSize && geb potentialY 0
      then mkRect startX potentialY newWidth potentialHeight
      else mkRect startX startY newWidth startHeight
  | BL =>
      let potentialWidth := startWidth - dx in
      let potentialX := startX + dx in
      let newHeight :=
        clamp (startHeight + dy) minSize (containerHeight - startY) in
      if geb potentialWidth minSize && geb potentialX 0
      then mkRect potentialX startY potentialWidth newHeight
      else mkRect startX startY startWidth newHeight
  | TL =>
      let potentialWidth := startWidth - dx in
      let potentialX := startX + dx in
      let '(newWidth, newX) :=
        if geb potentialWidth minSize && geb potentialX 0
        then (potentialWidth, potentialX)
        else (startWidth, startX) in
      let potentialHeight := startHeight - dy in
      let potentialY := startY + dy in
      let '(newHeight, newY) :=
        if geb potentialHeight minSize && geb potentialY 0
        then (potentialHeight, potentialY)
        else (startHeight, startY) in
      mkRect newX newY newWidth newHeight
  end.

Definition resize_onPanResponderMove
    (imageLayout : Layout.t) (handle : Handle) (dx dy : number) (s : State)
    : State :=
  if isDraggingRef s || negb (isResizingRef s)
     || negb (match activeHandleRef s with
              | Some h => Handle_eqb h handle
              | None => false
              end)
  then s
  else publish (resizedBox handle imageLayout (dragStartRef s) dx dy) s.

(** [onPanResponderRelease]; [onPanResponderTerminate] has the same
    body. *)
Definition resize_onPanResponderRelease (s : State) : State :=
  flush (set_activeHandleRef None (set_isResizingRef false s)).

Definition resize_onPanResponderTerminate (s : State) : State :=
  flush (set_activeHandleRef None (set_isResizingRef false s)).

(** *** Whole gestures

    Between the grant and the release of a gesture the responder receives
    moves, each with the translation accumulated since the grant, and
    animation frames may fire in between. *)

Inductive GestureEvent : Type :=
| move (dx dy : number)
| frame.

Definition during
    (onMove : number -> number -> State -> State)
    (events : list GestureEvent) (s : State) : State :=
  fold_left
    (fun s e =>
       match e with
       | move dx dy => onMove dx dy s
       | frame => animationFrame s
       end)
    events s.

(** A drag, from the negotiation to the release, through the responder
    that read [imageLayout]; [terminated] tells whether the gesture is
    interrupted instead of released. *)
Definition dragGesture
    (imageLayout : Layout.t) (events : list GestureEvent)
    (terminated : bool) (s : State) : State :=
  if drag_onStartShouldSetPanResponder s then
    let s := drag_onPanResponderGrant s in
    let s := during (drag_onPanResponderMove imageLayout) events s in
    if terminated
    then drag_onPanResponderTerminate s
    else drag_onPanResponderRelease s
  else s.

Definition resizeGesture
    (imageLayout : Layout.t) (handle : Handle) (events : list GestureEvent)
    (terminated : bool) (s : State) : State :=
  if resize_onStartShouldSetPanResponder s then
    let s := resize_onPanResponderGrant handle s in
    let s :=
      during (resize_onPanResponderMove imageLayout handle) events s in
    if terminated
    then resize_onPanResponderTerminate s
    else resize_onPanResponderRelease s
  else s.

(** *** The screen between events

    The state of the component together with the layout its memoised
    responders read.  The responders are built at the first render, with the
    initial layout, and rebuilt by a layout event only when it changes the
    height. *)

Record Screen : Type := mkScreen
  { state : State;
    responderLayout : Layout.t }.

Definition mount (crop : option Rect) : Screen :=
  mkScreen (initial crop) (imageLayout (initial crop)).

Definition layoutEvent (layout : Layout.t) (sc : Screen) : Screen :=
  mkScreen
    (onLayout layout (state sc))
    (if Qeq_bool (Layout.height (imageLayout (state sc)))
                 (Layout.height layout)
     then responderLayout sc
     else layout).

Definition drag
    (events : list GestureEvent) (terminated : bool) (sc : Screen)
    : Screen :=
  mkScreen (dragGesture (responderLayout sc) events terminated (state sc))
           (responderLayout sc).

Definition resize
    (handle : Handle) (events : list GestureEvent) (terminated : bool)
    (sc : Screen) : Screen :=
  mkScreen
    (resizeGesture (responderLayout sc) handle events terminated (state sc))
    (responderLayout sc).

End Component.

(** The corner diagonally opposite a handle. *)
Definition anchor (handle : Handle) (r : Rect) : number * number :=
  match handle with
  | TL => (x r + width r, y r + height r)
  | TR => (x r, y r + height r)
  | BL => (x r + width r, y r)
  | BR => (x r, y r)
  end.

End PreviewScreen.

(** *** [cropAsync] of the preview screen *)

Module PreviewCrop.

(** The part of [cropAsync] inside [try] that precedes the call of the
    image manipulator: the crop box is projected into the pixel space of
    the photo (the image is letterboxed in its container), clamped and
    validated.  [Thrown] stands for the two [throw new Error(...)]. *)
Definition cropRect
    (cropBox : Rect) (imageLayout : Layout.t) (photoW photoH : number)
    : result Crop.t :=
  let photoAspect := photoW / photoH in
  let containerAspect := Layout.width imageLayout / Layout.height imageLayout in
  let '(displayedImageWidth, displayedImageHeight,
        imageOffsetX, imageOffsetY) :=
    if gtb photoAspect containerAspect then
      let displayedImageHeight := Layout.width imageLayout / photoAspect in
      (Layout.width imageLayout, displayedImageHeight,
       0, (Layout.height imageLayout - displayedImageHeight) / 2)
    else
      let displayedImageWidth := Layout.height imageLayout * photoAspect in
      (displayedImageWidth, Layout.height imageLayout,
       (Layout.width imageLayout - displayedImageWidth) / 2, 0) in
  let scaleX := photoW / displayedImageWidth in
  let scaleY := photoH / displayedImageHeight in
  let adjustedX := x cropBox - imageOffsetX in
  let adjustedY := y cropBox - imageOffsetY in
  let photoX := Math.round (adjustedX * scaleX) in
  let photoY := Math.round (adjustedY * scaleY) in
  let photoWidth := Math.round (width cropBox * scaleX) in
  let photoHeight := Math.round (height cropBox * scaleY) in
  let photoX := Math.max 0 photoX in
  let photoY := Math.max 0 photoY in
  let photoWidth := Math.min photoWidth (photoW - photoX) in
  let photoHeight := Math.min photoHeight (photoH - photoY) in
  let photoWidth := Math.max 1 photoWidth in
  let photoHeight := Math.max 1 photoHeight in
  let '(photoWidth, photoHeight) :=
    if gtb (photoX + photoWidth) photoW || gtb (photoY + photoHeight) photoH
    then (Math.min photoWidth (photoW - photoX - 1),
          Math.min photoHeight (photoH - photoY - 1))
    else (photoWidth, photoHeight) in
  let cropRect := Crop.mk photoX photoY photoWidth photoHeight in
  if leb (Crop.width cropRect) 0 || leb (Crop.height cropRect) 0
  then Thrown
  else if ltb (Crop.originX cropRect) 0 || ltb (Crop.originY cropRect) 0
  then Thrown
  else Ok cropRect.

Section Crop.

Variables Uri ImageResult : Type.
Variable manipulateAsync : Uri -> Action -> result ImageResult.
(** [res.uri], absent when the manipulator returns an invalid result. *)
Variable uriOf : ImageResult -> option Uri.

(** [cropAsync]: the new value of [croppedUri], or [None] when the
    function returns before the layout is known.  A failure of any kind
    falls back to the uncropped photo. *)
Definition cropAsync
    (cropBox : Rect) (imageLayout : Layout.t) (photo : Photo.t Uri)
    : option Uri :=
  if Qeq_bool (Layout.width imageLayout) 0
     || Qeq_bool (Layout.height imageLayout) 0
  then None
  else
    match
      try_catch
        (cropRect <- cropRect cropBox imageLayout
                       (Photo.width photo) (Photo.height photo) ;;
         res <- manipulateAsync (Photo.uri photo) (CropTo cropRect) ;;
         match uriOf res with
         | Some uri => Ok uri
         | None => Thrown
         end)
        (Ok (Photo.uri photo))
    with
    | Ok uri => Some uri
    | Thrown => None
    end.

End Crop.

End PreviewCrop.

(** ** screens/CameraScreen.tsx *)

Module CameraScreen.

Section Screen.

Variables SCREEN_WIDTH SCREEN_HEIGHT : number.

(** *** The detection loop *)

Record Detection : Type := mkDetection
  { detectedBox : option Rect;
    lastDetectedBoxRef : option Rect;
    manualBoxRef : option Rect }.

(** One tick of [runDetection]. *)
Definition runDetection (s : Detection) : Detection :=
  let previewTop := 120 in
  let previewBottom := 100 in
  let previewHeight := SCREEN_HEIGHT - previewTop - previewBottom in
  let previewWidth := SCREEN_WIDTH in
  let POSITION_THRESHOLD := 5 in
  let SIZE_THRESHOLD := 10 in
  match manualBoxRef s with
  | Some manual =>
      mkDetection (Some manual) (lastDetectedBoxRef s) (manualBoxRef s)
  | None =>
      let newBox :=
        RealtimeDetection.detectQuestionAreaFast previewWidth previewHeight
          (Some (RealtimeDetection.mkOptions
                   (Some 0.18) (Some 0.65) (Some 0.10))) in
      let adjustedBox :=
        mkRect (x newBox) (y newBox + previewTop)
               (width newBox) (height newBox) in
      let small :=
        match lastDetectedBoxRef s with
        | Some last =>
            let deltaX := Math.abs (x adjustedBox - x last) in
            let deltaY := Math.abs (y adjustedBox - y last) in
            let deltaW := Math.abs (width adjustedBox - width last) in
            let deltaH := Math.abs (height adjustedBox - height last) in
            ltb deltaX POSITION_THRESHOLD && ltb deltaY POSITION_THRESHOLD
            && ltb deltaW SIZE_THRESHOLD && ltb deltaH SIZE_THRESHOLD
        | None => false
        end in
      if small then s
      else
        let smoothedBox :=
          RealtimeDetection.smoothBoxTransition
            (lastDetectedBoxRef s) adjustedBox 0.4 in
        mkDetection (Some smoothedBox) (Some smoothedBox) (manualBoxRef s)
  end.

(** [handleBoxChange]: the overlay reports a manual adjustment. *)
Definition handleBoxChange (newBox : Rect) (s : Detection) : Detection :=
  mkDetection (Some newBox) (lastDetectedBoxRef s) (Some newBox).

(** *** [onCapture]: the crop rectangle *)

(** The value of [cropRect] after the mapping and clamping block;
    [None] is [null]. *)
Definition cropRect
    (boxToUse : option Rect) (isAutoDetecting : bool)
    (photoWidth photoHeight : number) : option Crop.t :=
  match boxToUse with
  | Some boxToUse =>
      if isAutoDetecting then
        let photoAspect := photoWidth / photoHeight in
        let previewAspect := SCREEN_WIDTH / SCREEN_HEIGHT in
        let '(scaleX, scaleY, offsetX, offsetY) :=
          if gtb photoAspect previewAspect then
            let scaleY := photoHeight / SCREEN_HEIGHT in
            let scaleX := scaleY in
            (scaleX, scaleY, (photoWidth - (SCREEN_WIDTH * scaleX)) / 2, 0)
          else
            let scaleX := photoWidth / SCREEN_WIDTH in
            let scaleY := scaleX in
            (scaleX, scaleY,
             0, (photoHeight - (SCREEN_HEIGHT * scaleY)) / 2) in
        let originX := Math.round ((x boxToUse * scaleX) + offsetX) in
        let originY := Math.round ((y boxToUse * scaleY) + offsetY) in
        let width := Math.round (width boxToUse * scaleX) in
        let height := Math.round (height boxToUse * scaleY) in
        let originX :=
          Math.max 0 (Math.min originX (photoWidth - width)) in
        let originY :=
          Math.max 0 (Math.min originY (photoHeight - height)) in
        let width := Math.min width (photoWidth - originX) in
        let height := Math.min height (photoHeight - originY) in
        Some (Crop.mk originX originY width height)
      else None
  | None => None
  end.

(** The rectangle [onCapture] passes to the image manipulator, if it
    crops at all: the guard is
    [cropRect && cropRect.width > 0 && cropRect.height > 0]. *)
Definition cropCall
    (boxToUse : option Rect) (isAutoDetecting : bool)
    (photoWidth photoHeight : number) : option Crop.t :=
  match cropRect boxToUse isAutoDetecting photoWidth photoHeight with
  | Some cropRect =>
      if gtb (Crop.width cropRect) 0 && gtb (Crop.height cropRect) 0
      then Some cropRect
      else None
  | None => None
  end.

Section Capture.

Variables Uri ImageResult Camera : Type.
Variable manipulateAsync : Uri -> Action -> result ImageResult.
Variable uriOf : ImageResult -> Uri.
Variable takePictureAsync : Camera -> result (Photo.t Uri).
(** [Platform.OS === 'android'] *)
Variable android : bool.

Inductive Outcome : Type :=
| returned
| navigated (photo : Photo.t Uri) (crop : option Rect)
| alerted.

Definition outcome (r : result Outcome) : Outcome :=
  match r with
  | Ok o => o
  | Thrown => alerted
  end.

(** The photo after the Android flip. *)
Definition capture (camera : Camera) : result (Photo.t Uri) :=
  photo <- takePictureAsync camera ;;
  if android then
    flippedPhoto <- manipulateAsync (Photo.uri photo) FlipVertical ;;
    Ok (Photo.mk (uriOf flippedPhoto)
                 (Photo.width photo) (Photo.height photo))
  else Ok photo.

(** [onCapture]: the photo is cropped to the box on screen; a failing
    crop continues with the uncropped photo. *)
Definition onCapture
    (cameraRef : option Camera) (s : Detection) (isAutoDetecting : bool)
    : Outcome :=
  match cameraRef with
  | None => returned
  | Some camera =>
      outcome
        (photo <- capture camera ;;
         let photoWidth := Photo.width photo in
         let photoHeight := Photo.height photo in
         let boxToUse :=
           match manualBoxRef s with
           | Some manual => Some manual
           | None => detectedBox s
           end in
         let finalPhotoUri :=
           match cropCall boxToUse isAutoDetecting
                          photoWidth photoHeight with
           | Some cropRect =>
               match manipulateAsync (Photo.uri photo)
                                     (CropTo cropRect) with
               | Ok croppedPhoto => uriOf croppedPhoto
               | Thrown => Photo.uri photo
               end
           | None => Photo.uri photo
           end in
         Ok (navigated (Photo.mk finalPhotoUri photoWidth photoHeight)
                       None))
  end.

(** *** [onCapture] of the still-analysis revision of the screen

    The captured photo is handed to the density estimator; when it
    answers [null] the heuristic [detectTextArea] supplies the crop. *)
Definition onCaptureAnalyze (cameraRef : option Camera) : Outcome :=
  match cameraRef with
  | None => returned
  | Some camera =>
      outcome
        (photo <- capture camera ;;
         let photoWidth := Photo.width photo in
         let photoHeight := Photo.height photo in
         textDensityResult <-
           ImageUtils.analyzeTextDensity manipulateAsync
             (Photo.uri photo) photoWidth photoHeight
             SCREEN_WIDTH SCREEN_HEIGHT ;;
         match textDensityResult with
         | Some textDensityResult =>
             Ok (navigated photo (Some textDensityResult))
         | None =>
             let autoCrop :=
               ImageUtils.detectTextArea SCREEN_WIDTH SCREEN_HEIGHT
                 (Some (ImageUtils.mkOptions
                          (Some 120) (Some 120) (Some 0.85) (Some 0.4)
                          (Some ImageUtils.upper_center))) in
             Ok (navigated photo (Some autoCrop))
         end)
  end.

End Capture.

End Screen.

End CameraScreen.

(** * Further parts of the program *)

(** ** utils/imageUtils.ts, continued *)

Module ImageUtilsRefine.

(** The [adjustment] argument of [refineTextArea]; every field is
    optional. *)
Record Adjustment : Type := mkAdjustment
  { shiftX : option number;
    shiftY : option number;
    scale : option number }.

Definition refineTextArea
    (currentRect : Rect) (screenWidth screenHeight : number)
    (adjustment : Adjustment) : Rect :=
  let shiftX := default 0 (shiftX adjustment) in
  let shiftY := default 0 (shiftY adjustment) in
  let scale := default 1 (scale adjustment) in
  let newWidth := width currentRect * scale in
  let newHeight := height currentRect * scale in
  let maxShiftX := (screenWidth - newWidth) / 2 in
  let maxShiftY := (screenHeight - newHeight) / 2 in
  mkRect
    (Math.max 0 (Math.min (screenWidth - newWidth)
                          (x currentRect + (shiftX * maxShiftX))))
    (Math.max 0 (Math.min (screenHeight - newHeight)
                          (y currentRect + (shiftY * maxShiftY))))
    newWidth newHeight.

End ImageUtilsRefine.

(** ** components/CropOverlay.tsx

    A draggable box: the position of a drag starts from the [box] prop, the
    size is that of the [currentBox] state; the release reports
    [currentBox]. *)

Module CropOverlay.

Definition clamp (val min max : number) : number :=
  Math.max min (Math.min max val).

Section Component.

Variables SCREEN_WIDTH SCREEN_HEIGHT : number.

(** Props: [box] and [boundsPadding] (0 when left out). *)
Variable box : Rect.
Variable boundsPadding : number.

(** [useState(box)] *)
Definition initial : Rect := box.

Definition onPanResponderMove (dx dy : number) (currentBox : Rect) : Rect :=
  let minX := boundsPadding in
  let minY := boundsPadding + 80 in
  let maxX := SCREEN_WIDTH - boundsPadding - width currentBox in
  let maxY := SCREEN_HEIGHT - boundsPadding - 140 - height currentBox in
  let newX := clamp (x box + dx) minX maxX in
  let newY := clamp (y box + dy) minY maxY in
  mkRect newX newY (width currentBox) (height currentBox).

(** [onPanResponderRelease]: the argument of [onChange]. *)
Definition onPanResponderRelease (currentBox : Rect) : Rect := currentBox.

(** A drag: the moves in order, then the release. *)
Definition gesture (moves : list (number * number)) (currentBox : Rect)
    : Rect :=
  onPanResponderRelease
    (fold_left (fun b e => onPanResponderMove (fst e) (snd e) b)
               moves currentBox).

End Component.

End CropOverlay.

(** ** components/AutoDetectionBox.tsx, continued

    A new [detectedBox] may reach the overlay while a gesture is in
    progress. *)

Module AutoDetectionEvents.

Inductive Event : Type :=
| update (translationX translationY : number)
| detected (detectedBox : option Rect) (isAutoDetecting isLocked : bool).

Section Component.

Variables containerWidth containerHeight : number.

(** The updates of a gesture with the detection effect running in
    between. *)
Definition updatesWith
    (onUpdate : number -> number
                -> AutoDetectionBox.Shared -> AutoDetectionBox.Shared)
    (events : list Event) (s : AutoDetectionBox.Shared)
    : AutoDetectionBox.Shared :=
  fold_left
    (fun s e =>
       match e with
       | update tx ty => onUpdate tx ty s
       | detected d a l => AutoDetectionBox.onDetectedBox d a l s
       end)
    events s.

Definition panGesture (events : list Event) (s : AutoDetectionBox.Shared)
    : AutoDetectionBox.Shared * list AutoDetectionBox.Callback :=
  let (s1, c1) := AutoDetectionBox.pan_onStart s in
  let (s2, c2) :=
    AutoDetectionBox.gesture_onEnd
      (updatesWith
         (AutoDetectionBox.pan_onUpdate containerWidth containerHeight)
         events s1) in
  (s2, c1 ++ c2).

Definition cornerGesture
    (corner : AutoDetectionBox.Corner) (events : list Event)
    (s : AutoDetectionBox.Shared)
    : AutoDetectionBox.Shared * list AutoDetectionBox.Callback :=
  let (s1, c1) := AutoDetectionBox.corner_onStart s in
  let (s2, c2) :=
    AutoDetectionBox.gesture_onEnd
      (updatesWith
         (AutoDetectionBox.corner_onUpdate containerWidth containerHeight
            corner)
         events s1) in
  (s2, c1 ++ c2).

End Component.

(** The translations among the events of a gesture. *)
Fixpoint translations (events : list Event) : list (number * number) :=
  match events with
  | [] => []
  | update tx ty :: events' => (tx, ty) :: translations events'
  | detected _ _ _ :: events' => translations events'
  end.

End AutoDetectionEvents.

(** ** screens/PreviewScreen.tsx, continued *)

Module PreviewDetection.

(** [clearGestureStates]: the recovery from a gesture that never ended. *)
Definition clearGestureStates (s : PreviewScreen.State) : PreviewScreen.State :=
  let s := PreviewScreen.set_isDraggingRef false s in
  let s := PreviewScreen.set_isResizingRef false s in
  let s := PreviewScreen.set_activeHandleRef None s in
  PreviewScreen.flush s.

(** The image as displayed with [resizeMode="contain"]: its size and its
    offset inside the container, as [performAutoDetection] and [cropAsync]
    compute them. *)
Record Displayed : Type := mkDisplayed
  { displayedImageWidth : number;
    displayedImageHeight : number;
    imageOffsetX : number;
    imageOffsetY : number }.

Definition displayed (imageLayout : Layout.t) (photoW photoH : number)
    : Displayed :=
  let photoAspect := photoW / photoH in
  let containerAspect :=
    Layout.width imageLayout / Layout.height imageLayout in
  if gtb photoAspect containerAspect then
    let displayedImageHeight := Layout.width imageLayout / photoAspect in
    mkDisplayed (Layout.width imageLayout) displayedImageHeight
                0 ((Layout.height imageLayout - displayedImageHeight) / 2)
  else
    let displayedImageWidth := Layout.height imageLayout * photoAspect in
    mkDisplayed displayedImageWidth (Layout.height imageLayout)
                ((Layout.width imageLayout - displayedImageWidth) / 2) 0.

Section Detection.

Variables SCREEN_WIDTH SCREEN_HEIGHT : number.
Variables Uri ImageResult : Type.
Variable manipulateAsync : Uri -> Action -> result ImageResult.

(** [performAutoDetection]: the new state and the new value of
    [autoDetectComplete].  [crop] is [params.crop]. *)
Definition performAutoDetection
    (photo : Photo.t Uri) (crop : option Rect) (autoDetectComplete : bool)
    (s : PreviewScreen.State) : PreviewScreen.State * bool :=
  let imageLayout := PreviewScreen.imageLayout s in
  if autoDetectComplete
     || Qeq_bool (Layout.width imageLayout) 0
     || Qeq_bool (Layout.height imageLayout) 0
     || match crop with Some _ => true | None => false end
  then (s, autoDetectComplete)
  else
    let d := displayed imageLayout (Photo.width photo) (Photo.height photo) in
    match
      ImageUtils.analyzeTextDensity manipulateAsync (Photo.uri photo)
        (Photo.width photo) (Photo.height photo)
        (displayedImageWidth d) (displayedImageHeight d)
    with
    | Ok detectedRect =>
        (PreviewScreen.onAutoDetected SCREEN_WIDTH SCREEN_HEIGHT detectedRect
           (imageOffsetX d) (imageOffsetY d) s,
         true)
    | Thrown => (s, true)
    end.

End Detection.

End PreviewDetection.

(** ** screens/CameraScreen.tsx, continued *)

Module CameraToggle.

(** The auto-detection toggle button: [isAutoDetecting] flips; turning it
    on clears the manual box and the detection history. *)
Definition onPress (isAutoDetecting : bool) (s : CameraScreen.Detection)
    : bool * CameraScreen.Detection :=
  let newState := negb isAutoDetecting in
  if newState
  then (newState,
        CameraScreen.mkDetection (CameraScreen.detectedBox s) None None)
  else (newState, s).

End CameraToggle.

(** * Evaluation in binary64

    The definitions above read the arithmetic of the source over the
    rationals.  A JavaScript number is a binary64 float, and every [+], [-],
    [*] and [/] returns the double nearest to the exact result, ties going
    to the even significand.  This part gives that rounding on the
    rationals and evaluates with it, operation by operation, the functions
    whose properties depend on it: the fast estimator, the smoother and the
    clamps of the two gesture machines.  [Math.max], [Math.min] and the
    comparisons are exact on doubles and stay as they are.

    [nearest] has no largest exponent: it is the result of an operation
    that does not overflow, and the statements are about such operations;
    [NaN] and the infinities are outside the model. *)

Module Binary64.

Definition pow2 (e : Z) : Q := 2 ^ e.

(** The binade of a positive number: [2^k <= q < 2^(k+1)]. *)
Definition ilog2 (q : Q) : Z :=
  if Qle_bool 1 q then Z.log2 (Qfloor q)
  else (- Z.log2_up (Qceiling (/ q)))%Z.

(** The nearest integer, a tie going to the even one. *)
Definition rne (q : Q) : Z :=
  let f := Qfloor q in
  match Qcompare (q - inject_Z f) (1 # 2) with
  | Lt => f
  | Gt => (f + 1)%Z
  | Eq => if Z.even f then f else (f + 1)%Z
  end.

(** The exponent of the last place: 53 significant bits, and [2^-1074] for
    the subnormal numbers. *)
Definition exponent (q : Q) : Z := Z.max (ilog2 q - 52) (-1074).

Definition nearestPos (q : Q) : Q :=
  inject_Z (rne (q / pow2 (exponent q))) * pow2 (exponent q).

(** The double nearest to [q]. *)
Definition nearest (q : Q) : Q :=
  if Qeq_bool q 0 then 0
  else if Qle_bool 0 q then nearestPos q else - nearestPos (- q).

(** A decimal literal of the source denotes the double nearest to it. *)
Definition literal (q : Q) : Q := nearest q.

Definition add (a b : Q) : Q := nearest (a + b).
Definition sub (a b : Q) : Q := nearest (a - b).
Definition mul (a b : Q) : Q := nearest (a * b).
Definition div (a b : Q) : Q := nearest (a / b).

(** The largest double, and the doubles. *)
Definition maxValue : Q := (pow2 53 - 1) * pow2 971.

Definition double (q : Q) : Prop := nearest q == q /\ Qabs q <= maxValue.

(** The bound on the error of one rounding: [2^-53] of the magnitude, or
    [2^-1075] below the normal range. *)
Definition ulpError (q : Q) : Q := pow2 (-53) * Qabs q + pow2 (-1075).

End Binary64.

Module F64.

(** ** utils/realtimeDetection.ts *)

Module RealtimeDetection.

Import Binary64.

Definition detectQuestionAreaFast
    (previewWidth previewHeight : number)
    (options : option RealtimeDetection.Options) : Rect :=
  let o := match options with
           | Some o => o
           | None => RealtimeDetection.mkOptions None None None
           end in
  let verticalBias :=
    default (literal 0.18) (RealtimeDetection.verticalBias o) in
  let widthRatio :=
    default (literal 0.65) (RealtimeDetection.widthRatio o) in
  let heightRatio :=
    default (literal 0.10) (RealtimeDetection.heightRatio o) in
  let boxWidth := mul previewWidth widthRatio in
  let boxHeight := Math.min (mul previewHeight heightRatio) 100 in
  let boxX := div (sub previewWidth boxWidth) 2 in
  let boxY := sub (mul previewHeight verticalBias) (div boxHeight 2) in
  let clampedX := Math.max 0 (Math.min boxX (sub previewWidth boxWidth)) in
  let clampedY :=
    Math.max 0 (Math.min boxY (sub previewHeight boxHeight)) in
  mkRect clampedX clampedY boxWidth boxHeight.

Definition smoothBoxTransition
    (currentBox : option Rect) (newBox : Rect) (smoothingFactor : number)
    : Rect :=
  match currentBox with
  | None => newBox
  | Some currentBox =>
      mkRect
        (add (x currentBox)
             (mul (sub (x newBox) (x currentBox)) smoothingFactor))
        (add (y currentBox)
             (mul (sub (y newBox) (y currentBox)) smoothingFactor))
        (add (width currentBox)
             (mul (sub (width newBox) (width currentBox)) smoothingFactor))
        (add (height currentBox)
             (mul (sub (height newBox) (height currentBox))
                  smoothingFactor))
  end.

Definition isValidBox
    (box : Rect) (containerWidth containerHeight : number) : bool :=
  geb (x box) 0 && geb (y box) 0
  && gtb (width box) 0 && gtb (height box) 0
  && leb (add (x box) (width box)) containerWidth
  && leb (add (y box) (height box)) containerHeight.

End RealtimeDetection.

(** ** components/AutoDetectionBox.tsx

    The shared values, the callbacks, the start and end handlers and the
    detection effect involve no arithmetic and are those of
    [AutoDetectionBox] above. *)

Module AutoDetectionBox.

Import Binary64.

Definition MIN_BOX_SIZE : number := 80.
Definition MAX_BOX_WIDTH_RATIO : number := literal 0.95.
Definition MAX_BOX_HEIGHT_RATIO : number := literal 0.4.

Section Component.

Variables containerWidth containerHeight : number.

Definition clampBox (x y w h : number) : Rect :=
  let maxWidth := mul containerWidth MAX_BOX_WIDTH_RATIO in
  let maxHeight := mul containerHeight MAX_BOX_HEIGHT_RATIO in
  let clampedW := Math.max MIN_BOX_SIZE (Math.min w maxWidth) in
  let clampedH := Math.max MIN_BOX_SIZE (Math.min h maxHeight) in
  let clampedX := Math.max 0 (Math.min x (sub containerWidth clampedW)) in
  let clampedY := Math.max 0 (Math.min y (sub containerHeight clampedH)) in
  mkRect clampedX clampedY clampedW clampedH.

Definition pan_onUpdate
    (translationX translationY : number) (s : AutoDetectionBox.Shared)
    : AutoDetectionBox.Shared :=
  let newX := add (AutoDetectionBox.startLeft s) translationX in
  let newY := add (AutoDetectionBox.startTop s) translationY in
  let clamped :=
    clampBox newX newY (AutoDetectionBox.boxWidth s)
             (AutoDetectionBox.boxHeight s) in
  AutoDetectionBox.mkShared
    (x clamped) (y clamped)
    (AutoDetectionBox.boxWidth s) (AutoDetectionBox.boxHeight s)
    (AutoDetectionBox.startLeft s) (AutoDetectionBox.startTop s)
    (AutoDetectionBox.startWidth s) (AutoDetectionBox.startHeight s)
    (AutoDetectionBox.isInteracting s).

Definition corner_onUpdate
    (corner : AutoDetectionBox.Corner) (translationX translationY : number)
    (s : AutoDetectionBox.Shared) : AutoDetectionBox.Shared :=
  let startLeft := AutoDetectionBox.startLeft s in
  let startTop := AutoDetectionBox.startTop s in
  let startWidth := AutoDetectionBox.startWidth s in
  let startHeight := AutoDetectionBox.startHeight s in
  let '(newX, newY, newW, newH) :=
    match corner with
    | AutoDetectionBox.TL =>
        (add startLeft translationX, add startTop translationY,
         sub startWidth translationX, sub startHeight translationY)
    | AutoDetectionBox.TR =>
        (startLeft, add startTop translationY,
         add startWidth translationX, sub startHeight translationY)
    | AutoDetectionBox.BL =>
        (add startLeft translationX, startTop,
         sub startWidth translationX, add startHeight translationY)
    | AutoDetectionBox.BR =>
        (startLeft, startTop,
         add startWidth translationX, add startHeight translationY)
    end in
  let clamped := clampBox newX newY newW newH in
  AutoDetectionBox.mkShared
    (x clamped) (y clamped) (width clamped) (height clamped)
    startLeft startTop startWidth startHeight
    (AutoDetectionBox.isInteracting s).

Definition panGesture
    (events : list (number * number)) (s : AutoDetectionBox.Shared)
    : AutoDetectionBox.Shared * list AutoDetectionBox.Callback :=
  let (s1, c1) := AutoDetectionBox.pan_onStart s in
  let (s2, c2) :=
    AutoDetectionBox.gesture_onEnd
      (AutoDetectionBox.updates pan_onUpdate events s1) in
  (s2, c1 ++ c2).

Definition cornerGesture
    (corner : AutoDetectionBox.Corner) (events : list (number * number))
    (s : AutoDetectionBox.Shared)
    : AutoDetectionBox.Shared * list AutoDetectionBox.Callback :=
  let (s1, c1) := AutoDetectionBox.corner_onStart s in
  let (s2, c2) :=
    AutoDetectionBox.gesture_onEnd
      (AutoDetectionBox.updates (corner_onUpdate corner) events s1) in
  (s2, c1 ++ c2).

End Component.

End AutoDetectionBox.

(** ** screens/PreviewScreen.tsx

    The re-clamp, the layout effect that applies it, and the move handlers
    of the two responders with the gestures built from them; the state, its
    setters and the handlers without arithmetic are those of
    [PreviewScreen] above. *)

Module PreviewScreen.

Import Binary64.

Section Component.

Variables SCREEN_WIDTH SCREEN_HEIGHT : number.

Definition containerWidth (imageLayout : Layout.t) : number :=
  or_else (Layout.width imageLayout) SCREEN_WIDTH.
Definition containerHeight (imageLayout : Layout.t) : number :=
  or_else (Layout.height imageLayout) (mul SCREEN_HEIGHT (literal 0.55)).

Definition constrainCropBox (imageLayout : Layout.t) (box : Rect) : Rect :=
  let containerWidth := containerWidth imageLayout in
  let containerHeight := containerHeight imageLayout in
  let width := Math.min (width box) containerWidth in
  let height := Math.min (height box) containerHeight in
  let x := PreviewScreen.clamp (x box) 0 (sub containerWidth width) in
  let y := PreviewScreen.clamp (y box) 0 (sub containerHeight height) in
  mkRect x y width height.

Definition onLayout (layout : Layout.t) (s : PreviewScreen.State)
    : PreviewScreen.State :=
  let old := PreviewScreen.imageLayout s in
  let s := PreviewScreen.set_imageLayout layout s in
  if negb (Qeq_bool (Layout.width old) (Layout.width layout))
     || negb (Qeq_bool (Layout.height old) (Layout.height layout))
  then
    if gtb (Layout.width layout) 0 && gtb (Layout.height layout) 0
    then
      let constrainedBox :=
        constrainCropBox layout (PreviewScreen.cropBox s) in
      if PreviewScreen.differs constrainedBox (PreviewScreen.cropBox s)
      then PreviewScreen.setCropBox constrainedBox s
      else s
    else s
  else s.

Definition drag_onPanResponderMove
    (imageLayout : Layout.t) (dx dy : number) (s : PreviewScreen.State)
    : PreviewScreen.State :=
  if PreviewScreen.isResizingRef s then s else
  let width := width (PreviewScreen.dragStartRef s) in
  let height := height (PreviewScreen.dragStartRef s) in
  let containerWidth := containerWidth imageLayout in
  let containerHeight := containerHeight imageLayout in
  let newX :=
    PreviewScreen.clamp (add (x (PreviewScreen.dragStartRef s)) dx) 0
      (sub containerWidth width) in
  let newY :=
    PreviewScreen.clamp (add (y (PreviewScreen.dragStartRef s)) dy) 0
      (sub containerHeight height) in
  PreviewScreen.publish (mkRect newX newY width height) s.

Definition resizedBox
    (handle : PreviewScreen.Handle) (imageLayout : Layout.t) (start : Rect)
    (dx dy : number) : Rect :=
  let minSize := 1 in
  let containerWidth := containerWidth imageLayout in
  let containerHeight := containerHeight imageLayout in
  let startX := x start in
  let startY := y start in
  let startWidth := width start in
  let startHeight := height start in
  match handle with
  | PreviewScreen.BR =>
      let newWidth :=
        PreviewScreen.clamp (add startWidth dx) minSize
          (sub containerWidth startX) in
      let newHeight :=
        PreviewScreen.clamp (add startHeight dy) minSize
          (sub containerHeight startY) in
      mkRect startX startY newWidth newHeight
  | PreviewScreen.TR =>
      let newWidth :=
        PreviewScreen.clamp (add startWidth dx) minSize
          (sub containerWidth startX) in
      let potentialHeight := sub startHeight dy in
      let potentialY := add startY dy in
      if geb potentialHeight minSize && geb potentialY 0
      then mkRect startX potentialY newWidth potentialHeight
      else mkRect startX startY newWidth startHeight
  | PreviewScreen.BL =>
      let potentialWidth := sub startWidth dx in
      let potentialX := add startX dx in
      let newHeight :=
        PreviewScreen.clamp (add startHeight dy) minSize
          (sub containerHeight startY) in
      if geb potentialWidth minSize && geb potentialX 0
      then mkRect potentialX startY potentialWidth newHeight
      else mkRect startX startY startWidth newHeight
  | PreviewScreen.TL =>
      let potentialWidth := sub startWidth dx in
      let potentialX := add startX dx in
      let '(newWidth, newX) :=
        if geb potentialWidth minSize && geb potentialX 0
        then (potentialWidth, potentialX)
        else (startWidth, startX) in
      let potentialHeight := sub startHeight dy in
      let potentialY := add startY dy in
      let '(newHeight, newY) :=
        if geb potentialHeight minSize && geb potentialY 0
        then (potentialHeight, potentialY)
        else (startHeight, startY) in
      mkRect newX newY newWidth newHeight
  end.

Definition resize_onPanResponderMove
    (imageLayout : Layout.t) (handle : PreviewScreen.Handle)
    (dx dy : number) (s : PreviewScreen.State) : PreviewScreen.State :=
  if PreviewScreen.isDraggingRef s || negb (PreviewScreen.isResizingRef s)
     || negb (match PreviewScreen.activeHandleRef s with
              | Some h => PreviewScreen.Handle_eqb h handle
              | None => false
              end)
  then s
  else
    PreviewScreen.publish
      (resizedBox handle imageLayout (PreviewScreen.dragStartRef s) dx dy) s.

Definition dragGesture
    (imageLayout : Layout.t) (events : list PreviewScreen.GestureEvent)
    (terminated : bool) (s : PreviewScreen.State) : PreviewScreen.State :=
  if PreviewScreen.drag_onStartShouldSetPanResponder s then
    let s := PreviewScreen.drag_onPanResponderGrant s in
    let s :=
      PreviewScreen.during (drag_onPanResponderMove imageLayout) events s in
    if terminated
    then PreviewScreen.drag_onPanResponderTerminate s
    else PreviewScreen.drag_onPanResponderRelease s
  else s.

Definition resizeGesture
    (imageLayout : Layout.t) (handle : PreviewScreen.Handle)
    (events : list PreviewScreen.GestureEvent) (terminated : bool)
    (s : PreviewScreen.State) : PreviewScreen.State :=
  if PreviewScreen.resize_onStartShouldSetPanResponder s then
    let s := PreviewScreen.resize_onPanResponderGrant handle s in
    let s :=
      PreviewScreen.during (resize_onPanResponderMove imageLayout handle)
        events s in
    if terminated
    then PreviewScreen.resize_onPanResponderTerminate s
    else PreviewScreen.resize_onPanResponderRelease s
  else s.

End Component.

End PreviewScreen.

End F64.

(** * Notions used in the statements *)

(** ** The fast region estimator *)

(** The ratios a configuration resolves to. *)
Definition widthRatioOf (o : option RealtimeDetection.Options) : number :=
  default 0.65
    (RealtimeDetection.widthRatio
       (default (RealtimeDetection.mkOptions None None None) o)).
Definition heightRatioOf (o : option RealtimeDetection.Options) : number :=
  default 0.10
    (RealtimeDetection.heightRatio
       (default (RealtimeDetection.mkOptions None None None) o)).

(** The ratios a configuration resolves to when the defaults are the
    doubles their literals denote. *)
Definition widthRatio64 (o : option RealtimeDetection.Options) : number :=
  default (Binary64.literal 0.65)
    (RealtimeDetection.widthRatio
       (default (RealtimeDetection.mkOptions None None None) o)).
Definition heightRatio64 (o : option RealtimeDetection.Options) : number :=
  default (Binary64.literal 0.10)
    (RealtimeDetection.heightRatio
       (default (RealtimeDetection.mkOptions None None None) o)).
Definition verticalBias64 (o : option RealtimeDetection.Options) : number :=
  default (Binary64.literal 0.18)
    (RealtimeDetection.verticalBias
       (default (RealtimeDetection.mkOptions None None None) o)).

(** [insideRounded r w h]: the origin of [r] is not negative and not above
    the differences [w - width r] and [h - height r] as binary64 computes
    them, so that the far edges exceed [w] and [h] by at most the error of
    that one rounding. *)
Definition insideRounded (r : Rect) (w h : number) : Prop :=
  0 <= x r /\ 0 <= y r
  /\ x r <= Binary64.sub w (width r) /\ y r <= Binary64.sub h (height r)
  /\ x r + width r <= w + Binary64.ulpError (w - width r)
  /\ y r + height r <= h + Binary64.ulpError (h - height r).

(** ** Doubles *)

(** A rectangle whose four fields are doubles. *)
Definition doubles (r : Rect) : Prop :=
  Binary64.double (x r) /\ Binary64.double (y r)
  /\ Binary64.double (width r) /\ Binary64.double (height r).

(** The differences between the fields of two rectangles are doubles
    themselves: the subtractions are exact. *)
Definition differencesExact (a b : Rect) : Prop :=
  Binary64.double (x b - x a) /\ Binary64.double (y b - y a)
  /\ Binary64.double (width b - width a)
  /\ Binary64.double (height b - height a).

(** The differences between the fields of two rectangles stay in the finite
    range. *)
Definition differencesFinite (a b : Rect) : Prop :=
  Qabs (x b - x a) <= Binary64.maxValue
  /\ Qabs (y b - y a) <= Binary64.maxValue
  /\ Qabs (width b - width a) <= Binary64.maxValue
  /\ Qabs (height b - height a) <= Binary64.maxValue.

(** The distance a field can be from [next] after smoothing by a factor of
    1 from [prev]: two roundings. *)
Definition smoothingError (prev next : number) : number :=
  Binary64.pow2 (-52) * (Qabs (next - prev) + Qabs next)
  + 3 * Binary64.pow2 (-1075).

(** ** The coordinate mapper *)

(** The type of the two mappers, [mapScreenRectToImage] and
    [mapPreviewBoxToImageCoords]. *)
Definition Mapper : Type :=
  Rect -> number -> number -> number -> number -> Crop.t.

Definition mappers : list Mapper :=
  [ImageUtils.mapScreenRectToImage;
   RealtimeDetection.mapPreviewBoxToImageCoords].

(** Mapping a rectangle from a space A to a space B and back. *)
Definition roundTrip (mapRect : Mapper)
    (r : Rect) (fromW fromH toW toH : number) : Rect :=
  Crop.toRect
    (mapRect (Crop.toRect (mapRect r fromW fromH toW toH))
             toW toH fromW fromH).

(** ** The capture handler *)

(** The options [onCapture] passes to [detectTextArea]. *)
Definition fallbackOptions : option ImageUtils.Options :=
  Some (ImageUtils.mkOptions (Some 120) (Some 120) (Some 0.85) (Some 0.4)
                             (Some ImageUtils.upper_center)).

(** ** The crop operation *)

Definition is_integer (q : number) : Prop := exists z : Z, q == inject_Z z.

(** What the crop operation requires of a rectangle for a photo of
    [photoW] x [photoH] pixels. *)
Definition validCrop (c : Crop.t) (photoW photoH : number) : Prop :=
  (is_integer (Crop.originX c) /\ is_integer (Crop.originY c)
   /\ is_integer (Crop.width c) /\ is_integer (Crop.height c))
  /\ 0 < Crop.width c /\ 0 < Crop.height c
  /\ 0 <= Crop.originX c /\ 0 <= Crop.originY c
  /\ Crop.originX c + Crop.width c <= photoW
  /\ Crop.originY c + Crop.height c <= photoH.

(** ** The camera overlay *)

(** The box a drag shows after the cumulative translation [(tx, ty)], in a
    container of [containerWidth] x [containerHeight], when the arithmetic
    is that of binary64. *)
Definition pannedBox64 (containerWidth containerHeight : number)
    (start : Rect) (tx ty : number) : Rect :=
  let clamped :=
    F64.AutoDetectionBox.clampBox containerWidth containerHeight
      (Binary64.add (x start) tx) (Binary64.add (y start) ty)
      (width start) (height start) in
  mkRect (x clamped) (y clamped) (width start) (height start).

(** A box no larger than the largest size the clamp of the overlay
    returns: the maximum, or the minimum where the maximum is below it. *)
Definition withinMaximum (W H : number) (r : Rect) : Prop :=
  width r
  <= Qmax F64.AutoDetectionBox.MIN_BOX_SIZE
          (Binary64.mul W F64.AutoDetectionBox.MAX_BOX_WIDTH_RATIO)
  /\ height r
     <= Qmax F64.AutoDetectionBox.MIN_BOX_SIZE
             (Binary64.mul H F64.AutoDetectionBox.MAX_BOX_HEIGHT_RATIO).

(** ** The preview screen *)

(** A box of at least 1 x 1 whose origin is not negative. *)
Definition atLeastUnit (r : Rect) : Prop :=
  1 <= width r /\ 1 <= height r /\ 0 <= x r /\ 0 <= y r.

(** The committed box, the box in the ref, the pending box and the box of
    a scheduled commit all satisfy [P]. *)
Definition Boxes (P : Rect -> Prop) (s : PreviewScreen.State) : Prop :=
  P (PreviewScreen.cropBox s)
  /\ P (PreviewScreen.cropBoxRef s)
  /\ (forall p, PreviewScreen.pendingCropRef s = Some p -> P p)
  /\ (forall b, PreviewScreen.animationFrameRef s
                = Some (PreviewScreen.commit b) -> P b).

(** During a gesture the start box satisfies [P] as well. *)
Definition GestureBoxes (P : Rect -> Prop) (s : PreviewScreen.State)
    : Prop :=
  Boxes P s /\ P (PreviewScreen.dragStartRef s).

Section PreviewNotions.

Variables SCREEN_WIDTH SCREEN_HEIGHT : number.

(** A box of at least 1 x 1 that lies inside the container. *)
Definition good (l : Layout.t) (r : Rect) : Prop :=
  1 <= width r /\ 1 <= height r
  /\ inside r (PreviewScreen.containerWidth SCREEN_WIDTH l)
              (PreviewScreen.containerHeight SCREEN_HEIGHT l).

(** The box a drag computes from the start box and the cumulative
    translation [(dx, dy)]. *)
Definition draggedBox (l : Layout.t) (start : Rect) (dx dy : number) : Rect :=
  mkRect
    (PreviewScreen.clamp (x start + dx) 0
       (PreviewScreen.containerWidth SCREEN_WIDTH l - width start))
    (PreviewScreen.clamp (y start + dy) 0
       (PreviewScreen.containerHeight SCREEN_HEIGHT l - height start))
    (width start) (height start).

(** The invariant of the machine between events: the committed box, the
    box in the ref, the pending box and the box of a scheduled commit are
    all at least 1 x 1 and inside the container. *)
Definition Inv (s : PreviewScreen.State) : Prop :=
  good (PreviewScreen.imageLayout s) (PreviewScreen.cropBox s)
  /\ good (PreviewScreen.imageLayout s) (PreviewScreen.cropBoxRef s)
  /\ (forall p, PreviewScreen.pendingCropRef s = Some p
                -> good (PreviewScreen.imageLayout s) p)
  /\ (forall b, PreviewScreen.animationFrameRef s
                = Some (PreviewScreen.commit b)
                -> good (PreviewScreen.imageLayout s) b).

(** During a gesture the start box is good as well. *)
Definition GestureInv (s : PreviewScreen.State) : Prop :=
  Inv s /\ good (PreviewScreen.imageLayout s) (PreviewScreen.dragStartRef s).

(** The translation carried by the last move among [events], starting
    from [last]. *)
Definition lastMove (events : list PreviewScreen.GestureEvent)
    (last : option (number * number)) : option (number * number) :=
  fold_left
    (fun last e =>
       match e with
       | PreviewScreen.move dx dy => Some (dx, dy)
       | PreviewScreen.frame => last
       end)
    events last.

(** What holds in the middle of a drag that started from [start], through
    the responder that read the layout [l], after a last move of
    translation [last]: the box of that move is pending, or it was flushed
    into [cropBox]. *)
Definition Dragging (l : Layout.t) (start : Rect)
    (last : option (number * number)) (s : PreviewScreen.State) : Prop :=
  PreviewScreen.dragStartRef s = start
  /\ PreviewScreen.isResizingRef s = false
  /\ match last with
     | None => True
     | Some (dx, dy) =>
         PreviewScreen.pendingCropRef s = Some (draggedBox l start dx dy)
         \/ (PreviewScreen.pendingCropRef s = None
             /\ PreviewScreen.cropBox s = draggedBox l start dx dy
             /\ forall b, PreviewScreen.animationFrameRef s
                          <> Some (PreviewScreen.commit b))
     end.

(** The box a drag computes when the arithmetic is that of binary64. *)
Definition draggedBox64 (l : Layout.t) (start : Rect) (dx dy : number)
    : Rect :=
  mkRect
    (PreviewScreen.clamp (Binary64.add (x start) dx) 0
       (Binary64.sub (F64.PreviewScreen.containerWidth SCREEN_WIDTH l)
          (width start)))
    (PreviewScreen.clamp (Binary64.add (y start) dy) 0
       (Binary64.sub (F64.PreviewScreen.containerHeight SCREEN_HEIGHT l)
          (height start)))
    (width start) (height start).

(** [Dragging] for the drag of binary64. *)
Definition Dragging64 (l : Layout.t) (start : Rect)
    (last : option (number * number)) (s : PreviewScreen.State) : Prop :=
  PreviewScreen.dragStartRef s = start
  /\ PreviewScreen.isResizingRef s = false
  /\ match last with
     | None => True
     | Some (dx, dy) =>
         PreviewScreen.pendingCropRef s = Some (draggedBox64 l start dx dy)
         \/ (PreviewScreen.pendingCropRef s = None
             /\ PreviewScreen.cropBox s = draggedBox64 l start dx dy
             /\ forall b, PreviewScreen.animationFrameRef s
                          <> Some (PreviewScreen.commit b))
     end.

End PreviewNotions.

(** ** The scenarios *)

(** The box [{x:100, y:200, width:300, height:150}] in a 1000 x 2000
    container, in the overlay and on the preview screen. *)
Definition scenarioBox : Rect := mkRect 100 200 300 150.

Definition overlayScenario : AutoDetectionBox.Shared :=
  AutoDetectionBox.mkShared 100 200 300 150 0 0 0 0 false.

Definition previewScenario : PreviewScreen.State :=
  PreviewScreen.mkState scenarioBox (Layout.mk 1000 2000 0 0) (mkRect 0 0 0 0)
    None false false scenarioBox None None.

(** ** Further notions *)

(** The values the options of [detectTextArea] resolve to. *)
Definition resolved (options : option ImageUtils.Options)
    : ImageUtils.Options :=
  default (ImageUtils.mkOptions None None None None None) options.
Definition topOffsetOf (o : option ImageUtils.Options) : number :=
  default 120 (ImageUtils.topOffset (resolved o)).
Definition bottomOffsetOf (o : option ImageUtils.Options) : number :=
  default 120 (ImageUtils.bottomOffset (resolved o)).
Definition areaWidthRatioOf (o : option ImageUtils.Options) : number :=
  default 0.85 (ImageUtils.widthRatio (resolved o)).
Definition areaHeightRatioOf (o : option ImageUtils.Options) : number :=
  default 0.4 (ImageUtils.heightRatio (resolved o)).

(** [a] is [b] up to a billionth of [scale]: the two agree whatever the
    rounding of the operations that compute them. *)
Definition near (a b scale : number) : Prop :=
  Qabs (a - b) <= (1 # 1000000000) * Qabs scale.

(** The box the detection loop of the camera screen aims at: the fast
    estimate for the preview area, shifted below the top bar. *)
Definition detectionTarget (SCREEN_WIDTH SCREEN_HEIGHT : number) : Rect :=
  let newBox :=
    RealtimeDetection.detectQuestionAreaFast
      SCREEN_WIDTH (SCREEN_HEIGHT - 120 - 100)
      (Some (RealtimeDetection.mkOptions
               (Some 0.18) (Some 0.65) (Some 0.10))) in
  mkRect (x newBox) (y newBox + 120) (width newBox) (height newBox).

(** The same box when the arithmetic is that of binary64. *)
Definition detectionTarget64 (SCREEN_WIDTH SCREEN_HEIGHT : number) : Rect :=
  let newBox :=
    F64.RealtimeDetection.detectQuestionAreaFast
      SCREEN_WIDTH (Binary64.sub (Binary64.sub SCREEN_HEIGHT 120) 100)
      (Some (RealtimeDetection.mkOptions
               (Some (Binary64.literal 0.18)) (Some (Binary64.literal 0.65))
               (Some (Binary64.literal 0.10)))) in
  mkRect (x newBox) (Binary64.add (y newBox) 120)
         (width newBox) (height newBox).

(** The dead band of the detection loop: every field of [a] is closer to
    that of [b] than its threshold. *)
Definition withinDeadBand (a b : Rect) : Prop :=
  Qabs (x a - x b) < 5 /\ Qabs (y a - y b) < 5
  /\ Qabs (width a - width b) < 10 /\ Qabs (height a - height b) < 10.

(** The rectangle a corner resize of the camera overlay asks for, before
    the clamp: [start] is the box at the start of the gesture. *)
Definition requestedBox (corner : AutoDetectionBox.Corner) (start : Rect)
    (tx ty : number) : Rect :=
  match corner with
  | AutoDetectionBox.TL =>
      mkRect (x start + tx) (y start + ty) (width start - tx)
             (height start - ty)
  | AutoDetectionBox.TR =>
      mkRect (x start) (y start + ty) (width start + tx) (height start - ty)
  | AutoDetectionBox.BL =>
      mkRect (x start + tx) (y start) (width start - tx) (height start + ty)
  | AutoDetectionBox.BR =>
      mkRect (x start) (y start) (width start + tx) (height start + ty)
  end.

(** A box the clamp of the camera overlay has nothing to correct. *)
Definition withinLimits (W H : number) (r : Rect) : Prop :=
  AutoDetectionBox.MIN_BOX_SIZE <= width r
  /\ width r <= W * AutoDetectionBox.MAX_BOX_WIDTH_RATIO
  /\ AutoDetectionBox.MIN_BOX_SIZE <= height r
  /\ height r <= H * AutoDetectionBox.MAX_BOX_HEIGHT_RATIO
  /\ inside r W H.

(** What holds in the middle of a resize by [handle] that started from
    [start], through the responder that read the layout [l], after a last
    move of translation [last]: the box of that move is pending, or it was
    flushed into [cropBox]. *)
Section ResizeNotions.

Variables SCREEN_WIDTH SCREEN_HEIGHT : number.

Definition Resizing (handle : PreviewScreen.Handle) (l : Layout.t)
    (start : Rect) (last : option (number * number))
    (s : PreviewScreen.State) : Prop :=
  PreviewScreen.dragStartRef s = start
  /\ PreviewScreen.isDraggingRef s = false
  /\ PreviewScreen.isResizingRef s = true
  /\ PreviewScreen.activeHandleRef s = Some handle
  /\ match last with
     | None => True
     | Some (dx, dy) =>
         PreviewScreen.pendingCropRef s
         = Some (PreviewScreen.resizedBox SCREEN_WIDTH SCREEN_HEIGHT handle l
                   start dx dy)
         \/ (PreviewScreen.pendingCropRef s = None
             /\ PreviewScreen.cropBox s
                = PreviewScreen.resizedBox SCREEN_WIDTH SCREEN_HEIGHT handle
                    l start dx dy
             /\ forall b, PreviewScreen.animationFrameRef s
                          <> Some (PreviewScreen.commit b))
     end.

(** [Resizing] for the resize of binary64. *)
Definition Resizing64 (handle : PreviewScreen.Handle) (l : Layout.t)
    (start : Rect) (last : option (number * number))
    (s : PreviewScreen.State) : Prop :=
  PreviewScreen.dragStartRef s = start
  /\ PreviewScreen.isDraggingRef s = false
  /\ PreviewScreen.isResizingRef s = true
  /\ PreviewScreen.activeHandleRef s = Some handle
  /\ match last with
     | None => True
     | Some (dx, dy) =>
         PreviewScreen.pendingCropRef s
         = Some (F64.PreviewScreen.resizedBox SCREEN_WIDTH SCREEN_HEIGHT
                   handle l start dx dy)
         \/ (PreviewScreen.pendingCropRef s = None
             /\ PreviewScreen.cropBox s
                = F64.PreviewScreen.resizedBox SCREEN_WIDTH SCREEN_HEIGHT
                    handle l start dx dy
             /\ forall b, PreviewScreen.animationFrameRef s
                          <> Some (PreviewScreen.commit b))
     end.

End ResizeNotions.

(** The far edge a resize can leave on one axis of a container of size
    [c], from a start box at [p] of size [size], after the translation
    [d]: the edge of the container for the handles that move the far edge,
    the far edge of the start box for the others, with the roundings of the
    operations involved. *)
Definition resizeEdge (c p size d : number) : number :=
  Qmax (c + Binary64.ulpError (c - p))
       (p + size + Binary64.ulpError (p + d)
        + Binary64.ulpError (size - d)).

(** A session on the preview screen: the screen is mounted and receives
    the layout of its image container; then whole gestures, animation
    frames and the timeout that clears a stuck gesture follow one
    another. *)
Module PreviewSession.

Inductive Event : Type :=
| drag (events : list PreviewScreen.GestureEvent) (terminated : bool)
| resize (handle : PreviewScreen.Handle)
    (events : list PreviewScreen.GestureEvent) (terminated : bool)
| animationFrame
| gestureTimeout.

Section Session.

Variables SCREEN_WIDTH SCREEN_HEIGHT : number.

Definition mounted (crop : option Rect) (layout : Layout.t)
    : PreviewScreen.Screen :=
  PreviewScreen.layoutEvent SCREEN_WIDTH SCREEN_HEIGHT layout
    (PreviewScreen.mount SCREEN_WIDTH SCREEN_HEIGHT crop).

Definition step (sc : PreviewScreen.Screen) (e : Event)
    : PreviewScreen.Screen :=
  match e with
  | drag events terminated =>
      PreviewScreen.drag SCREEN_WIDTH SCREEN_HEIGHT events terminated sc
  | resize handle events terminated =>
      PreviewScreen.resize SCREEN_WIDTH SCREEN_HEIGHT handle events
        terminated sc
  | animationFrame =>
      PreviewScreen.mkScreen
        (PreviewScreen.animationFrame (PreviewScreen.state sc))
        (PreviewScreen.responderLayout sc)
  | gestureTimeout =>
      PreviewScreen.mkScreen
        (PreviewDetection.clearGestureStates (PreviewScreen.state sc))
        (PreviewScreen.responderLayout sc)
  end.

Definition run (events : list Event) (sc : PreviewScreen.Screen)
    : PreviewScreen.Screen :=
  fold_left step events sc.

End Session.

End PreviewSession.

(** * Properties *)

(** ** Arithmetic helpers *)

Lemma geb_true (a b : number) : geb a b = true <-> b <= a.
Proof. unfold geb. apply Qle_bool_iff. Qed.

Lemma leb_true (a b : number) : leb a b = true <-> a <= b.
Proof. unfold leb. apply Qle_bool_iff. Qed.

Lemma gtb_true (a b : number) : gtb a b = true <-> b < a.
Proof.
  unfold gtb. rewrite negb_true_iff.
  destruct (Qle_bool a b) eqn:E.
  - apply Qle_bool_iff in E. split; [discriminate | intro; lra].
  - split; [intros _ | reflexivity].
    destruct (Qlt_le_dec b a) as [Hlt | Hle]; [exact Hlt | ].
    apply Qle_bool_iff in Hle. congruence.
Qed.

Lemma ltb_true (a b : number) : ltb a b = true <-> a < b.
Proof. unfold ltb. apply (gtb_true b a). Qed.

Lemma gtb_false (a b : number) : gtb a b = false <-> a <= b.
Proof.
  unfold gtb. rewrite negb_false_iff. apply Qle_bool_iff.
Qed.

Lemma geb_false (a b : number) : geb a b = false <-> a < b.
Proof.
  destruct (geb a b) eqn:E.
  - apply geb_true in E. split; [discriminate | intro; lra].
  - split; [intros _ | reflexivity].
    destruct (Qlt_le_dec a b) as [Hlt | Hle]; [exact Hlt | ].
    apply geb_true in Hle. congruence.
Qed.

(** Replaces every [Qmax] and [Qmin] by a fresh number constrained by its
    specification, so that linear arithmetic can finish. *)
Ltac minmax_step spec t :=
  let H := fresh "Hm" in
  let m := fresh "m" in
  let E := fresh "Em" in
  pose proof spec as H;
  remember t as m eqn:E; clear E;
  destruct H as [[? ?] | [? ?]].

Ltac minmax :=
  unfold Math.max, Math.min in *;
  repeat match goal with
  | |- context [Qmax ?a ?b] => minmax_step (Q.max_spec a b) (Qmax a b)
  | |- context [Qmin ?a ?b] => minmax_step (Q.min_spec a b) (Qmin a b)
  | _ : context [Qmax ?a ?b] |- _ => minmax_step (Q.max_spec a b) (Qmax a b)
  | _ : context [Qmin ?a ?b] |- _ => minmax_step (Q.min_spec a b) (Qmin a b)
  end.

Lemma isValidBox_spec (box : Rect) (w h : number) :
  RealtimeDetection.isValidBox box w h = true
  <-> 0 < width box /\ 0 < height box /\ inside box w h.
Proof.
  unfold RealtimeDetection.isValidBox, inside.
  rewrite !andb_true_iff, !geb_true, !gtb_true, !leb_true. tauto.
Qed.

(** ** Rounding to binary64 *)

Section Binary64Facts.

Import Binary64.

Lemma pow2_pos (e : Z) : 0 < pow2 e.
Proof. apply Qpower_0_lt. reflexivity. Qed.

Lemma pow2_add (a b : Z) : pow2 (a + b) == pow2 a * pow2 b.
Proof. apply Qpower_plus. intro E. discriminate E. Qed.

Lemma pow2_le (a b : Z) : (a <= b)%Z -> pow2 a <= pow2 b.
Proof.
  intros H. apply Qpower_le_compat_l; [exact H | ].
  intro E. discriminate E.
Qed.

Lemma pow2_lt (a b : Z) : (a < b)%Z -> pow2 a < pow2 b.
Proof. intros H. apply Qpower_lt_compat_l; [exact H | reflexivity]. Qed.

Lemma pow2_Z (n : Z) : (0 <= n)%Z -> pow2 n == inject_Z (2 ^ n).
Proof. intros H. unfold pow2. rewrite (Zpower_Qpower 2 n H). reflexivity. Qed.

Lemma pow2_opp (n : Z) : pow2 (- n) == / pow2 n.
Proof. apply Qpower_opp. Qed.

(** [ilog2 q] is the binade of a positive [q]. *)
Lemma ilog2_spec (q : Q) :
  0 < q -> pow2 (ilog2 q) <= q /\ q < pow2 (ilog2 q + 1).
Proof.
  intros Hq. unfold ilog2.
  destruct (Qle_bool 1 q) eqn:G.
  - apply Qle_bool_iff in G.
    assert (Hf : (0 < Qfloor q)%Z).
    { apply Z.lt_le_trans with (Qfloor 1); [reflexivity | ].
      apply Qfloor_resp_le. exact G. }
    destruct (Z.log2_spec (Qfloor q) Hf) as [L U].
    pose proof (Z.log2_nonneg (Qfloor q)) as Hn.
    rewrite !pow2_Z by lia. split.
    + apply Qle_trans with (inject_Z (Qfloor q)); [ | apply Qfloor_le].
      rewrite <- Zle_Qle. exact L.
    + apply Qlt_le_trans with (inject_Z (Qfloor q + 1)); [apply Qlt_floor | ].
      rewrite <- Zle_Qle. unfold Z.succ in U. lia.
  - assert (G' : q < 1).
    { apply Qnot_le_lt. intro H. apply Qle_bool_iff in H. congruence. }
    clear G.
    assert (Ht : 1 < / q).
    { apply Qlt_shift_inv_l; [exact Hq | lra]. }
    assert (Hc : (1 < Qceiling (/ q))%Z).
    { rewrite Zlt_Qlt. apply Qlt_le_trans with (/ q); [exact Ht | ].
      apply Qle_ceiling. }
    destruct (Z.log2_up_spec (Qceiling (/ q)) Hc) as [L U].
    assert (Hn : (0 < Z.log2_up (Qceiling (/ q)))%Z)
      by (apply Z.log2_up_pos; exact Hc).
    set (c := Z.log2_up (Qceiling (/ q))) in *.
    assert (E : 1 == / q * q) by (field; lra).
    split.
    + rewrite pow2_opp. rewrite pow2_Z by lia.
      apply Qle_shift_inv_r.
      * rewrite <- (pow2_Z c) by lia. apply pow2_pos.
      * assert (H : / q <= inject_Z (2 ^ c)).
        { apply Qle_trans with (inject_Z (Qceiling (/ q)));
            [apply Qle_ceiling | ].
          rewrite <- Zle_Qle. exact U. }
        rewrite E, (Qmult_comm q).
        apply Qmult_le_compat_r; [exact H | lra].
    + replace (- c + 1)%Z with (- (c - 1))%Z by lia.
      rewrite pow2_opp. rewrite pow2_Z by lia.
      assert (Hp : 0 < inject_Z (2 ^ (c - 1))).
      { rewrite <- (pow2_Z (c - 1)) by lia. apply pow2_pos. }
      apply Qlt_shift_inv_l; [exact Hp | ].
      assert (H : inject_Z (2 ^ (c - 1)) < / q).
      { apply Qle_lt_trans with (inject_Z (Qceiling (/ q) - 1)).
        - rewrite <- Zle_Qle.
          replace (c - 1)%Z with (Z.pred c) by (unfold Z.pred; lia). lia.
        - apply Qceiling_lt. }
      rewrite E, (Qmult_comm q).
      apply Qmult_lt_compat_r; [exact Hq | exact H].
Qed.

Lemma ilog2_unique (q : Q) (k : Z) :
  pow2 k <= q -> q < pow2 (k + 1) -> ilog2 q = k.
Proof.
  intros L U.
  assert (Hq : 0 < q) by (apply Qlt_le_trans with (pow2 k);
                          [apply pow2_pos | exact L]).
  destruct (ilog2_spec q Hq) as [L' U'].
  destruct (Z.lt_trichotomy (ilog2 q) k) as [H | [H | H]];
    [exfalso | exact H | exfalso].
  - assert (pow2 (ilog2 q + 1) <= pow2 k) by (apply pow2_le; lia). lra.
  - assert (pow2 (k + 1) <= pow2 (ilog2 q)) by (apply pow2_le; lia). lra.
Qed.

Lemma ilog2_le (a b : Q) : 0 < a -> a <= b -> (ilog2 a <= ilog2 b)%Z.
Proof.
  intros Ha Hab.
  assert (Hb : 0 < b) by lra.
  destruct (ilog2_spec a Ha) as [La Ua].
  destruct (ilog2_spec b Hb) as [Lb Ub].
  destruct (Z.le_gt_cases (ilog2 a) (ilog2 b)) as [H | H]; [exact H | ].
  exfalso.
  assert (pow2 (ilog2 b + 1) <= pow2 (ilog2 a)) by (apply pow2_le; lia).
  lra.
Qed.

Lemma ilog2_comp (a b : Q) : 0 < a -> a == b -> ilog2 a = ilog2 b.
Proof.
  intros Ha E. symmetry. destruct (ilog2_spec a Ha) as [L U].
  apply ilog2_unique; rewrite <- E; assumption.
Qed.


(** *** Rounding to the nearest integer, ties to even *)

Lemma rne_bounds (q : Q) : (Qfloor q <= rne q <= Qfloor q + 1)%Z.
Proof.
  unfold rne.
  destruct (Qcompare (q - inject_Z (Qfloor q)) (1 # 2)); try lia.
  destruct (Z.even (Qfloor q)); lia.
Qed.

Lemma rne_comp (a b : Q) : a == b -> rne a = rne b.
Proof.
  intros E. unfold rne. rewrite (Qfloor_comp a b E).
  assert (E' : a - inject_Z (Qfloor b) == b - inject_Z (Qfloor b))
    by (rewrite E; reflexivity).
  rewrite (Qcompare_comp _ _ E' (1 # 2) (1 # 2) (Qeq_refl _)).
  reflexivity.
Qed.

Lemma rne_Z (z : Z) : rne (inject_Z z) = z.
Proof.
  unfold rne. rewrite Qfloor_Z.
  destruct (Qcompare_spec (inject_Z z - inject_Z z) (1 # 2)) as [E | L | G];
    [lra | reflexivity | lra].
Qed.

Lemma rne_le (a b : Q) : a <= b -> (rne a <= rne b)%Z.
Proof.
  intros Hab.
  pose proof (Qfloor_resp_le a b Hab) as Hf.
  pose proof (rne_bounds a) as Ba. pose proof (rne_bounds b) as Bb.
  destruct (Z.eq_dec (Qfloor a) (Qfloor b)) as [E | N]; [ | lia].
  unfold rne in *. rewrite E in *.
  assert (Hr : a - inject_Z (Qfloor b) <= b - inject_Z (Qfloor b)) by lra.
  destruct (Qcompare_spec (a - inject_Z (Qfloor b)) (1 # 2)) as [Ea | La | Ga];
    destruct (Qcompare_spec (b - inject_Z (Qfloor b)) (1 # 2))
      as [Eb | Lb | Gb];
    try lia; try lra;
    destruct (Z.even (Qfloor b)); lia.
Qed.

Lemma rne_error (q : Q) : Qabs (inject_Z (rne q) - q) <= 1 # 2.
Proof.
  pose proof (Qfloor_le q) as L. pose proof (Qlt_floor q) as U.
  rewrite inject_Z_plus in U. change (inject_Z 1) with 1 in U.
  apply Qabs_Qle_condition. unfold rne.
  destruct (Qcompare_spec (q - inject_Z (Qfloor q)) (1 # 2)) as [E | Lt | Gt].
  - destruct (Z.even (Qfloor q)).
    + split; lra.
    + rewrite inject_Z_plus. change (inject_Z 1) with 1. split; lra.
  - split; lra.
  - rewrite inject_Z_plus. change (inject_Z 1) with 1. split; lra.
Qed.

(** *** Rounding a positive number *)

Lemma exponent_le (a b : Q) :
  0 < a -> a <= b -> (exponent a <= exponent b)%Z.
Proof.
  intros Ha Hab. unfold exponent.
  pose proof (ilog2_le a b Ha Hab). lia.
Qed.

Lemma scaled (q : Q) (e : Z) : q / pow2 e * pow2 e == q.
Proof. field. pose proof (pow2_pos e). lra. Qed.

(** A number below a point of its own grid does not round above it, and
    the other way round. *)
Lemma grid_le (q : Q) (e n : Z) :
  q <= inject_Z n * pow2 e ->
  inject_Z (rne (q / pow2 e)) * pow2 e <= inject_Z n * pow2 e.
Proof.
  intros H. pose proof (pow2_pos e) as Hp.
  apply Qmult_le_compat_r; [ | lra].
  rewrite <- Zle_Qle. rewrite <- (rne_Z n). apply rne_le.
  apply Qle_shift_div_r; [exact Hp | exact H].
Qed.

Lemma grid_ge (q : Q) (e n : Z) :
  inject_Z n * pow2 e <= q ->
  inject_Z n * pow2 e <= inject_Z (rne (q / pow2 e)) * pow2 e.
Proof.
  intros H. pose proof (pow2_pos e) as Hp.
  apply Qmult_le_compat_r; [ | lra].
  rewrite <- Zle_Qle. rewrite <- (rne_Z n) at 1. apply rne_le.
  apply Qle_shift_div_l; [exact Hp | exact H].
Qed.

Lemma nearestPos_comp (a b : Q) :
  0 < a -> a == b -> nearestPos a == nearestPos b.
Proof.
  intros Ha E. unfold nearestPos, exponent.
  rewrite (ilog2_comp a b Ha E).
  assert (E' : a / pow2 (Z.max (ilog2 b - 52) (-1074))
               == b / pow2 (Z.max (ilog2 b - 52) (-1074)))
    by (rewrite E; reflexivity).
  rewrite (rne_comp _ _ E'). reflexivity.
Qed.

Lemma nearestPos_nonneg (q : Q) : 0 < q -> 0 <= nearestPos q.
Proof.
  intros Hq. unfold nearestPos.
  assert (E : 0 == inject_Z 0 * pow2 (exponent q)) by ring.
  rewrite E. apply grid_ge. rewrite <- E. lra.
Qed.

Lemma nearestPos_le (a b : Q) :
  0 < a -> a <= b -> nearestPos a <= nearestPos b.
Proof.
  intros Ha Hab. assert (Hb : 0 < b) by lra.
  pose proof (exponent_le a b Ha Hab) as He.
  destruct (Z.eq_dec (exponent a) (exponent b)) as [E | N].
  - unfold nearestPos. rewrite E.
    apply Qmult_le_compat_r; [ | pose proof (pow2_pos (exponent b)); lra].
    rewrite <- Zle_Qle. apply rne_le.
    apply Qmult_le_compat_r; [exact Hab | ].
    apply Qinv_le_0_compat. pose proof (pow2_pos (exponent b)). lra.
  - assert (Hlt : (exponent a < exponent b)%Z) by lia.
    assert (Hkb : exponent b = (ilog2 b - 52)%Z)
      by (unfold exponent in *; lia).
    assert (Hka : (ilog2 a - 52 <= exponent a)%Z)
      by (unfold exponent; lia).
    destruct (ilog2_spec a Ha) as [_ Ua].
    destruct (ilog2_spec b Hb) as [Lb _].
    apply Qle_trans with (pow2 (ilog2 b)).
    + (* the rounding of [a] stays below the binade of [b] *)
      assert (Hd : (0 <= ilog2 b - exponent a)%Z) by lia.
      assert (Eg : pow2 (ilog2 b)
                   == inject_Z (2 ^ (ilog2 b - exponent a))
                      * pow2 (exponent a)).
      { rewrite <- pow2_Z by exact Hd. rewrite <- pow2_add.
        replace (ilog2 b - exponent a + exponent a)%Z with (ilog2 b) by lia.
        reflexivity. }
      rewrite Eg. unfold nearestPos. apply grid_le. rewrite <- Eg.
      apply Qle_trans with (pow2 (ilog2 a + 1)); [lra | ].
      apply pow2_le. lia.
    + assert (Eg : pow2 (ilog2 b)
                   == inject_Z (2 ^ 52) * pow2 (exponent b)).
      { rewrite <- pow2_Z by lia. rewrite <- pow2_add.
        replace (52 + exponent b)%Z with (ilog2 b) by lia. reflexivity. }
      rewrite Eg. unfold nearestPos. apply grid_ge. rewrite <- Eg.
      exact Lb.
Qed.

Lemma nearestPos_error (q : Q) :
  0 < q ->
  Qabs (nearestPos q - q) <= pow2 (-53) * q + pow2 (-1075).
Proof.
  intros Hq. unfold nearestPos.
  pose proof (pow2_pos (exponent q)) as Hp.
  pose proof (rne_error (q / pow2 (exponent q))) as Hr.
  assert (E : inject_Z (rne (q / pow2 (exponent q))) * pow2 (exponent q) - q
              == (inject_Z (rne (q / pow2 (exponent q)))
                  - q / pow2 (exponent q)) * pow2 (exponent q))
    by (field; lra).
  rewrite E, Qabs_Qmult. rewrite (Qabs_pos (pow2 _)) by lra.
  apply Qle_trans with ((1 # 2) * pow2 (exponent q)).
  { apply Qmult_le_compat_r; [exact Hr | lra]. }
  assert (Eh : (1 # 2) * pow2 (exponent q) == pow2 (exponent q - 1)).
  { replace (exponent q - 1)%Z with (-1 + exponent q)%Z by lia.
    rewrite pow2_add. reflexivity. }
  rewrite Eh.
  destruct (ilog2_spec q Hq) as [L _].
  pose proof (pow2_pos (-1075)) as H1.
  unfold exponent.
  destruct (Z.max_spec (ilog2 q - 52) (-1074)) as [[Hc ->] | [Hc ->]].
  - change (-1074 - 1)%Z with (-1075)%Z.
    assert (0 <= pow2 (-53) * q).
    { apply Qmult_le_0_compat; [pose proof (pow2_pos (-53)) | ]; lra. }
    lra.
  - replace (ilog2 q - 52 - 1)%Z with (-53 + ilog2 q)%Z by lia.
    rewrite pow2_add.
    assert (pow2 (-53) * pow2 (ilog2 q) <= pow2 (-53) * q).
    { rewrite !(Qmult_comm (pow2 (-53))).
      apply Qmult_le_compat_r; [exact L | ].
      pose proof (pow2_pos (-53)). lra. }
    lra.
Qed.

(** *** Rounding *)

Lemma nearest_0 : nearest 0 = 0.
Proof. reflexivity. Qed.

Lemma nearest_pos (q : Q) : 0 < q -> nearest q = nearestPos q.
Proof.
  intros Hq. unfold nearest.
  destruct (Qeq_bool q 0) eqn:E.
  - apply Qeq_bool_eq in E. lra.
  - assert (G : Qle_bool 0 q = true) by (apply Qle_bool_iff; lra).
    rewrite G. reflexivity.
Qed.

Lemma nearest_neg (q : Q) : q < 0 -> nearest q = - nearestPos (- q).
Proof.
  intros Hq. unfold nearest.
  destruct (Qeq_bool q 0) eqn:E.
  - apply Qeq_bool_eq in E. lra.
  - destruct (Qle_bool 0 q) eqn:G; [ | reflexivity].
    apply Qle_bool_iff in G. lra.
Qed.

Lemma nearest_zero (q : Q) : q == 0 -> nearest q = 0.
Proof.
  intros E. unfold nearest. apply Qeq_bool_iff in E. rewrite E. reflexivity.
Qed.

Lemma nearest_comp (a b : Q) : a == b -> nearest a == nearest b.
Proof.
  intros E.
  destruct (Qlt_le_dec 0 a) as [Ha | Ha].
  - rewrite (nearest_pos a Ha), (nearest_pos b) by lra.
    apply nearestPos_comp; assumption.
  - destruct (Qlt_le_dec a 0) as [Ha' | Ha'].
    + rewrite (nearest_neg a Ha'), (nearest_neg b) by lra.
      apply Qopp_comp. apply nearestPos_comp; [lra | ].
      rewrite E. reflexivity.
    + rewrite (nearest_zero a), (nearest_zero b) by lra. reflexivity.
Qed.

Lemma nearest_opp (q : Q) : nearest (- q) == - nearest q.
Proof.
  destruct (Qlt_le_dec 0 q) as [Hq | Hq].
  - rewrite (nearest_neg (- q)) by lra. rewrite (nearest_pos q Hq).
    apply Qopp_comp. apply nearestPos_comp; [lra | ring].
  - destruct (Qlt_le_dec q 0) as [Hq' | Hq'].
    + rewrite (nearest_pos (- q)) by lra. rewrite (nearest_neg q Hq').
      ring.
    + rewrite (nearest_zero (- q)), (nearest_zero q) by lra. reflexivity.
Qed.

Lemma nearest_nonneg (q : Q) : 0 <= q -> 0 <= nearest q.
Proof.
  intros Hq. destruct (Qlt_le_dec 0 q) as [H | H].
  - rewrite (nearest_pos q H). apply nearestPos_nonneg. exact H.
  - rewrite (nearest_zero q) by lra. lra.
Qed.

Lemma nearest_nonpos (q : Q) : q <= 0 -> nearest q <= 0.
Proof.
  intros Hq. destruct (Qlt_le_dec q 0) as [H | H].
  - rewrite (nearest_neg q H).
    assert (0 <= nearestPos (- q)) by (apply nearestPos_nonneg; lra). lra.
  - rewrite (nearest_zero q) by lra. lra.
Qed.

(** Rounding is monotone. *)
Lemma nearest_le (a b : Q) : a <= b -> nearest a <= nearest b.
Proof.
  intros Hab.
  destruct (Qlt_le_dec 0 a) as [Ha | Ha].
  - rewrite (nearest_pos a Ha), (nearest_pos b) by lra.
    apply nearestPos_le; assumption.
  - destruct (Qlt_le_dec 0 b) as [Hb | Hb].
    + apply Qle_trans with 0;
        [apply nearest_nonpos; exact Ha | apply nearest_nonneg; lra].
    + destruct (Qlt_le_dec b 0) as [Hb' | Hb'].
      * rewrite (nearest_neg a), (nearest_neg b) by lra.
        assert (nearestPos (- b) <= nearestPos (- a))
          by (apply nearestPos_le; lra).
        lra.
      * rewrite (nearest_zero b) by lra. apply nearest_nonpos. exact Ha.
Qed.

(** The error of one rounding: relative [2^-53], or absolute [2^-1075]
    below the normal range. *)
Lemma nearest_error (q : Q) :
  Qabs (nearest q - q) <= pow2 (-53) * Qabs q + pow2 (-1075).
Proof.
  pose proof (pow2_pos (-1075)) as H1. pose proof (pow2_pos (-53)) as H2.
  destruct (Qlt_le_dec 0 q) as [Hq | Hq].
  - rewrite (nearest_pos q Hq), (Qabs_pos q) by lra.
    apply nearestPos_error. exact Hq.
  - destruct (Qlt_le_dec q 0) as [Hq' | Hq'].
    + rewrite (nearest_neg q Hq'), (Qabs_neg q) by lra.
      pose proof (nearestPos_error (- q)) as H.
      assert (E : - nearestPos (- q) - q == - (nearestPos (- q) - - q))
        by ring.
      rewrite E, Qabs_opp. apply H. lra.
    + rewrite (nearest_zero q) by lra.
      assert (E : 0 - q == 0) by lra.
      rewrite E. assert (E2 : Qabs q == 0) by (rewrite Qabs_pos; lra).
      rewrite E2. cbn [Qabs Z.abs Qnum Qden]. lra.
Qed.


(** *** The results of rounding are doubles *)

Lemma rne_scaled_int (n e : Z) :
  rne (inject_Z n * pow2 e / pow2 e) = n.
Proof.
  rewrite <- (rne_Z n) at 2. apply rne_comp.
  field. pose proof (pow2_pos e). lra.
Qed.

Lemma nearestPos_idem (q : Q) :
  0 < q -> 0 < nearestPos q -> nearestPos (nearestPos q) == nearestPos q.
Proof.
  intros Hq Hv.
  set (e := exponent q). set (n := rne (q / pow2 e)).
  assert (Ev : nearestPos q = inject_Z n * pow2 e) by reflexivity.
  pose proof (pow2_pos e) as Hp.
  destruct (ilog2_spec q Hq) as [L U].
  assert (He : (-1074 <= e)%Z) by (unfold e, exponent; lia).
  assert (Hek : (ilog2 q - 52 <= e)%Z) by (unfold e, exponent; lia).
  (* the scaled number is below 2^53, so is its rounding *)
  assert (Hn53 : (n <= 2 ^ 53)%Z).
  { rewrite <- (rne_Z (2 ^ 53)). apply rne_le.
    apply Qle_shift_div_r; [exact Hp | ].
    rewrite <- pow2_Z by lia. rewrite <- pow2_add.
    apply Qle_trans with (pow2 (ilog2 q + 1)); [lra | ].
    apply pow2_le. lia. }
  assert (Hn0 : (0 < n)%Z).
  { rewrite Ev in Hv. rewrite Zlt_Qlt.
    destruct (Qlt_le_dec 0 (inject_Z n)) as [H | H]; [exact H | ].
    exfalso. assert (inject_Z n * pow2 e <= 0 * pow2 e)
      by (apply Qmult_le_compat_r; lra). lra. }
  (* the exponent of the rounded number *)
  assert (Hgoal : exists e' m,
             exponent (nearestPos q) = e'
             /\ nearestPos q == inject_Z m * pow2 e').
  { destruct (Z.eq_dec n (2 ^ 53)) as [E53 | N53].
    - exists (e + 1)%Z, (2 ^ 52)%Z.
      assert (Eq : nearestPos q == pow2 (53 + e)).
      { rewrite Ev, E53. rewrite <- pow2_Z by lia. rewrite <- pow2_add.
        reflexivity. }
      split.
      + unfold exponent at 1. rewrite (ilog2_unique _ (53 + e)).
        * lia.
        * rewrite Eq. lra.
        * rewrite Eq. apply pow2_lt. lia.
      + rewrite Eq. rewrite <- pow2_Z by lia. rewrite <- pow2_add.
        replace (52 + (e + 1))%Z with (53 + e)%Z by lia. reflexivity.
    - exists e, n. split; [ | rewrite Ev; reflexivity].
      assert (Hlt : nearestPos q < pow2 (53 + e)).
      { rewrite Ev, pow2_add, (pow2_Z 53) by lia.
        apply Qmult_lt_compat_r; [exact Hp | ].
        rewrite <- Zlt_Qlt. lia. }
      assert (Hk : (ilog2 (nearestPos q) <= 52 + e)%Z).
      { destruct (ilog2_spec _ Hv) as [Lv _].
        destruct (Z.le_gt_cases (ilog2 (nearestPos q)) (52 + e)) as [H | H];
          [exact H | exfalso].
        assert (pow2 (53 + e) <= pow2 (ilog2 (nearestPos q)))
          by (apply pow2_le; lia).
        lra. }
      assert (Hk' : (e <= exponent (nearestPos q))%Z).
      { unfold exponent at 1.
        destruct (Z.max_spec (ilog2 q - 52) (-1074)) as [[Hc Em] | [Hc Em]].
        - assert (e = (-1074)%Z) by (unfold e, exponent; lia). lia.
        - assert (Ee : e = (ilog2 q - 52)%Z) by (unfold e, exponent; lia).
          assert (pow2 (ilog2 q) <= nearestPos q).
          { assert (Eg : pow2 (ilog2 q) == inject_Z (2 ^ 52) * pow2 e).
            { rewrite <- pow2_Z by lia. rewrite <- pow2_add.
              replace (52 + e)%Z with (ilog2 q) by lia. reflexivity. }
            rewrite Eg. unfold nearestPos. fold e. apply grid_ge.
            rewrite <- Eg. exact L. }
          assert (ilog2 (pow2 (ilog2 q)) = ilog2 q).
          { apply ilog2_unique; [lra | apply pow2_lt; lia]. }
          pose proof (ilog2_le (pow2 (ilog2 q)) (nearestPos q)
                        (pow2_pos _) H).
          lia. }
      unfold exponent at 1. unfold exponent in Hk'. lia. }
  destruct Hgoal as (e' & m & Ee & Em).
  unfold nearestPos at 1. rewrite Ee.
  assert (E : nearestPos q / pow2 e' == inject_Z m * pow2 e' / pow2 e')
    by (rewrite Em; reflexivity).
  rewrite (rne_comp _ _ E), rne_scaled_int. symmetry. exact Em.
Qed.

Lemma nearest_idem (q : Q) : nearest (nearest q) == nearest q.
Proof.
  destruct (Qlt_le_dec 0 q) as [Hq | Hq].
  - rewrite (nearest_pos q Hq).
    pose proof (nearestPos_nonneg q Hq) as H0.
    destruct (Qlt_le_dec 0 (nearestPos q)) as [Hv | Hv].
    + rewrite (nearest_pos _ Hv). apply nearestPos_idem; assumption.
    + rewrite (nearest_zero (nearestPos q)) by lra. lra.
  - destruct (Qlt_le_dec q 0) as [Hq' | Hq'].
    + rewrite (nearest_neg q Hq').
      assert (Hq2 : 0 < - q) by lra.
      pose proof (nearestPos_nonneg (- q) Hq2) as H0.
      rewrite nearest_opp.
      destruct (Qlt_le_dec 0 (nearestPos (- q))) as [Hv | Hv].
      * rewrite (nearest_pos _ Hv).
        apply Qopp_comp. apply nearestPos_idem; assumption.
      * rewrite (nearest_zero (nearestPos (- q))) by lra. lra.
    + rewrite (nearest_zero q) by lra. reflexivity.
Qed.


(** *** Consequences for the operations *)

Lemma double_nearest (q : Q) : Binary64.double q -> Binary64.nearest q == q.
Proof. intros [E _]. exact E. Qed.

Lemma sub_nonneg (a b : Q) : b <= a -> 0 <= Binary64.sub a b.
Proof. intros H. apply nearest_nonneg. lra. Qed.

(** A double scaled by a ratio of at most 1 does not grow. *)
Lemma mul_ratio_le (a r : Q) :
  Binary64.double a -> 0 <= a -> 0 <= r <= 1 ->
  0 <= Binary64.mul a r <= a.
Proof.
  intros Ha H0 [Hr0 Hr1]. unfold Binary64.mul. split.
  - apply nearest_nonneg. nra.
  - rewrite <- (double_nearest a Ha) at 2. apply nearest_le. nra.
Qed.

(** A product of at least the smallest positive double does not round to
    zero. *)
Lemma nearest_positive (q : Q) :
  Binary64.pow2 (-1074) <= q -> 0 < Binary64.nearest q.
Proof.
  intros H.
  apply Qlt_le_trans with (Binary64.nearest (Binary64.pow2 (-1074))).
  - vm_compute. reflexivity.
  - apply nearest_le. exact H.
Qed.

(** The far edge of a box whose position is clamped against the computed
    difference [sub W w] passes [W] by at most the error of that one
    rounding. *)
Lemma far_edge (W w p : Q) :
  w <= W -> p <= Binary64.sub W w ->
  p + w <= W + Binary64.ulpError (W - w).
Proof.
  intros Hw Hp. unfold Binary64.sub in Hp.
  pose proof (nearest_error (W - w)) as He.
  fold (Binary64.ulpError (W - w)) in He.
  apply Qabs_Qle_condition in He. lra.
Qed.

(** Above half of the smallest double nothing rounds to zero. *)
Lemma nearest_above_half (q : Q) :
  Binary64.pow2 (-1075) < q -> 0 < Binary64.nearest q.
Proof.
  intros H.
  destruct (Qlt_le_dec q (pow2 (-1074))) as [L | G];
    [ | exact (nearest_positive q G)].
  pose proof (pow2_pos (-1074)) as Hp.
  assert (Hq : 0 < q) by (pose proof (pow2_pos (-1075)); lra).
  destruct (ilog2_spec q Hq) as [Lo _].
  assert (Hl : (ilog2 q < -1074)%Z).
  { destruct (Z_lt_le_dec (ilog2 q) (-1074)) as [A | A]; [exact A | ].
    pose proof (pow2_le _ _ A). lra. }
  rewrite (nearest_pos q Hq). unfold nearestPos, exponent.
  replace (Z.max (ilog2 q - 52) (-1074)) with (-1074)%Z by lia.
  assert (Eh : pow2 (-1075) == pow2 (-1074) * (1 # 2))
    by (exact (pow2_add (-1074) (-1))).
  pose proof (scaled q (-1074)) as Es.
  revert Es. generalize (q / pow2 (-1074)). intros t Es.
  assert (Ht : 1 # 2 < t < 1) by (split; nra).
  assert (Hf : Qfloor t = 0%Z).
  { pose proof (Qfloor_le t) as F1. pose proof (Qlt_floor t) as F2.
    assert (A : (Qfloor t < 1)%Z).
    { rewrite Zlt_Qlt. change (inject_Z 1) with 1. lra. }
    assert (B : (0 < Qfloor t + 1)%Z).
    { rewrite Zlt_Qlt. change (inject_Z 0) with 0. lra. }
    lia. }
  assert (Hr : rne t = 1%Z).
  { unfold rne. rewrite Hf.
    destruct (Qcompare_spec (t - inject_Z 0) (1 # 2)) as [E | E | E];
      [ | | reflexivity]; change (inject_Z 0) with 0 in E; lra. }
  rewrite Hr. change (inject_Z 1) with 1. lra.
Qed.

(** A position clamped below a difference that is exact keeps the far edge
    inside, also when the sum is rounded. *)
Lemma far_edge_exact (W w p : Q) :
  Binary64.double W -> Binary64.double (W - w) ->
  p <= Binary64.sub W w ->
  p + w <= W /\ Binary64.add p w <= W.
Proof.
  intros DW DD Hp. unfold Binary64.sub in Hp.
  assert (Hp' : p <= W - w).
  { apply Qle_trans with (Binary64.nearest (W - w)); [exact Hp | ].
    rewrite (double_nearest _ DD). lra. }
  assert (A : p + w <= W) by lra.
  split; [exact A | ].
  unfold Binary64.add.
  apply Qle_trans with (Binary64.nearest W);
    [apply nearest_le; exact A | ].
  rewrite (double_nearest W DW). lra.
Qed.

End Binary64Facts.

(** Rounding and the four operations respect equality of rationals. *)
#[global]
Instance nearest_Proper : Proper (Qeq ==> Qeq) Binary64.nearest.
Proof. intros a b E. exact (nearest_comp a b E). Qed.

#[global]
Instance add_Proper : Proper (Qeq ==> Qeq ==> Qeq) Binary64.add.
Proof.
  intros a b E c d F. unfold Binary64.add. rewrite E, F. reflexivity.
Qed.

#[global]
Instance sub_Proper : Proper (Qeq ==> Qeq ==> Qeq) Binary64.sub.
Proof.
  intros a b E c d F. unfold Binary64.sub. rewrite E, F. reflexivity.
Qed.

#[global]
Instance mul_Proper : Proper (Qeq ==> Qeq ==> Qeq) Binary64.mul.
Proof.
  intros a b E c d F. unfold Binary64.mul. rewrite E, F. reflexivity.
Qed.

#[global]
Instance div_Proper : Proper (Qeq ==> Qeq ==> Qeq) Binary64.div.
Proof.
  intros a b E c d F. unfold Binary64.div. rewrite E, F. reflexivity.
Qed.

(** ** The fast region estimator and the smoother *)

Section FastEstimator.

Import RealtimeDetection.

(** The box is fully inside the container whenever the two size ratios do
    not exceed 1, whatever the vertical bias. *)
Lemma detectQuestionAreaFast_inside (W H : number) (o : option Options) :
  0 < W -> 0 < H ->
  0 <= widthRatioOf o <= 1 -> 0 <= heightRatioOf o <= 1 ->
  inside (detectQuestionAreaFast W H o) W H.
Proof.
  intros HW HH [Hw0 Hw1] [Hh0 Hh1].
  unfold widthRatioOf, heightRatioOf in *.
  unfold inside, detectQuestionAreaFast.
  destruct o as [[vb wr hr] | ]; cbn [default verticalBias widthRatio
    heightRatio x y width height] in *.
  - set (a := default 0.65 wr) in *. set (b := default 0.10 hr) in *.
    assert (W * a <= W) by nra. assert (H * b <= H) by nra.
    assert (0 <= W * a) by nra. assert (0 <= H * b) by nra.
    repeat split; minmax; lra.
  - assert (0 <= H * 0.10) by lra.
    repeat split; minmax; lra.
Qed.

Lemma isValidBox64_spec (box : Rect) (w h : number) :
  F64.RealtimeDetection.isValidBox box w h = true
  <-> 0 < width box /\ 0 < height box /\ 0 <= x box /\ 0 <= y box
      /\ Binary64.add (x box) (width box) <= w
      /\ Binary64.add (y box) (height box) <= h.
Proof.
  unfold F64.RealtimeDetection.isValidBox.
  rewrite !andb_true_iff, !geb_true, !gtb_true, !leb_true. tauto.
Qed.

(** The estimator reads its configuration through the resolved ratios. *)
Lemma detectQuestionAreaFast64_resolved
    (W H : number) (o : option Options) :
  F64.RealtimeDetection.detectQuestionAreaFast W H o
  = F64.RealtimeDetection.detectQuestionAreaFast W H
      (Some (mkOptions (Some (verticalBias64 o)) (Some (widthRatio64 o))
               (Some (heightRatio64 o)))).
Proof. destruct o as [[[vb | ] [wr | ] [hr | ]] | ]; reflexivity. Qed.

Lemma detectQuestionAreaFast64_core (W H v a b : number) :
  Binary64.double W -> Binary64.double H -> 0 < W -> 0 < H ->
  0 < a <= 1 -> 0 < b <= 1 ->
  Binary64.pow2 (-1075) < W * a -> Binary64.pow2 (-1075) < H * b ->
  let r :=
    F64.RealtimeDetection.detectQuestionAreaFast W H
      (Some (mkOptions (Some v) (Some a) (Some b))) in
  0 < width r /\ 0 < height r /\ width r <= W /\ height r <= H
  /\ 0 <= x r /\ 0 <= y r
  /\ x r <= Binary64.sub W (width r) /\ y r <= Binary64.sub H (height r).
Proof.
  intros DW DH HW HH [Ha0 Ha1] [Hb0 Hb1] Ua Ub r. subst r.
  unfold F64.RealtimeDetection.detectQuestionAreaFast.
  cbn [default verticalBias widthRatio heightRatio x y width height].
  assert (Pw : 0 < Binary64.mul W a)
    by (apply nearest_above_half; exact Ua).
  assert (Ph : 0 < Binary64.mul H b)
    by (apply nearest_above_half; exact Ub).
  assert (Lw : 0 <= Binary64.mul W a <= W)
    by (apply mul_ratio_le; [exact DW | lra | lra]).
  assert (Lh : 0 <= Binary64.mul H b <= H)
    by (apply mul_ratio_le; [exact DH | lra | lra]).
  revert Pw Ph Lw Lh.
  generalize (Binary64.mul W a) (Binary64.mul H b). intros w h0 Pw Ph Lw Lh.
  assert (Hh : 0 < Math.min h0 100 <= H) by (split; minmax; lra).
  revert Hh. generalize (Math.min h0 100). intros h Hh.
  assert (Sw : 0 <= Binary64.sub W w) by (apply sub_nonneg; lra).
  assert (Sh : 0 <= Binary64.sub H h) by (apply sub_nonneg; lra).
  revert Sw Sh.
  generalize (Binary64.sub W w) (Binary64.sub H h)
    (Binary64.div (Binary64.sub W w) 2)
    (Binary64.sub (Binary64.mul H v) (Binary64.div h 2)).
  intros sw sh bx by' Sw Sh.
  repeat split; try lra; minmax; lra.
Qed.

(** C7, as stated, fails in three ways.  A ratio of [0], which the claim
    allows, gives a width of [0].  In a container of 411.42857142857144 x
    914.2857142857143 with [verticalBias = 1], [widthRatio = 0.65] and
    [heightRatio = 0.05] the clamp [previewHeight - boxHeight] is rounded
    up, the bottom edge [y + height] comes out above the container height,
    and [isValidBox] rejects the rectangle.  And in a container as wide as
    the smallest double the product [previewWidth * 0.1] is rounded to
    [0]. *)
Lemma detectQuestionAreaFast_not_valid :
  (let o :=
     Some (mkOptions (Some (Binary64.literal 0.18)) (Some 0)
             (Some (Binary64.literal 0.10))) in
   let r := F64.RealtimeDetection.detectQuestionAreaFast 100 100 o in
   0 < 100
   /\ (0 <= verticalBias64 o <= 1 /\ 0 <= widthRatio64 o <= 1
       /\ 0 <= heightRatio64 o <= 1)
   /\ ~ (0 < width r /\ 0 < height r /\ inside r 100 100))
  /\ (let W := Binary64.nearest (2880 # 7) in
      let H := Binary64.nearest (6400 # 7) in
      let o :=
        Some (mkOptions (Some 1) (Some (Binary64.literal 0.65))
                (Some (Binary64.literal 0.05))) in
      let r := F64.RealtimeDetection.detectQuestionAreaFast W H o in
      (0 < W /\ 0 < H)
      /\ (0 <= verticalBias64 o <= 1 /\ 0 < widthRatio64 o <= 1
          /\ 0 < heightRatio64 o <= 1)
      /\ H < y r + height r
      /\ ~ inside r W H
      /\ F64.RealtimeDetection.isValidBox r W H = false)
  /\ (let W := Binary64.pow2 (-1074) in
      let o :=
        Some (mkOptions None (Some (Binary64.literal 0.1)) None) in
      let r := F64.RealtimeDetection.detectQuestionAreaFast W 100 o in
      (Binary64.double W /\ 0 < W)
      /\ 0 < widthRatio64 o <= 1
      /\ ~ 0 < width r).
Proof.
  cbv zeta. split; [ | split].
  - split; [reflexivity | ]. split.
    + repeat split; vm_compute; intro E; discriminate E.
    + intros [Hw _]. vm_compute in Hw. discriminate Hw.
  - split; [split; vm_compute; reflexivity | ].
    split;
      [repeat split; try (vm_compute; reflexivity);
       vm_compute; intro E; discriminate E | ].
    split; [vm_compute; reflexivity | ].
    split; [ | vm_compute; reflexivity].
    intros (_ & _ & _ & Hy). vm_compute in Hy. apply Hy. reflexivity.
  - split; [split; [split | ] | split].
    + vm_compute. reflexivity.
    + vm_compute. intro E. discriminate E.
    + vm_compute. reflexivity.
    + split; [vm_compute; reflexivity | vm_compute; intro E; discriminate E].
    + intros Hw. vm_compute in Hw. discriminate Hw.
Qed.

(** C7 (amended): for positive container dimensions and size ratios in
    (0,1] whose products with the dimensions are above half of the
    smallest double, whatever the vertical bias, the fast estimator returns
    a rectangle of positive width and height whose origin is not negative
    and not above the clamps [previewWidth - boxWidth] and
    [previewHeight - boxHeight] as binary64 computes them: the far edges
    exceed the container by at most the error of that one rounding.  When
    the two differences are exact the rectangle lies fully inside the
    container and [isValidBox] accepts it. *)
Theorem detectQuestionAreaFast_valid (W H : number) (o : option Options) :
  Binary64.double W -> Binary64.double H -> 0 < W -> 0 < H ->
  0 < widthRatio64 o <= 1 -> 0 < heightRatio64 o <= 1 ->
  Binary64.pow2 (-1075) < W * widthRatio64 o ->
  Binary64.pow2 (-1075) < H * heightRatio64 o ->
  let r := F64.RealtimeDetection.detectQuestionAreaFast W H o in
  0 < width r /\ 0 < height r /\ insideRounded r W H
  /\ (Binary64.double (W - width r) -> Binary64.double (H - height r) ->
      inside r W H /\ F64.RealtimeDetection.isValidBox r W H = true).
Proof.
  intros DW DH HW HH Hw Hh Uw Uh r. subst r.
  rewrite detectQuestionAreaFast64_resolved.
  destruct (detectQuestionAreaFast64_core W H (verticalBias64 o)
              (widthRatio64 o) (heightRatio64 o) DW DH HW HH Hw Hh Uw Uh)
    as (Pw & Ph & Lw & Lh & X0 & Y0 & X1 & Y1).
  revert Pw Ph Lw Lh X0 Y0 X1 Y1.
  generalize (F64.RealtimeDetection.detectQuestionAreaFast W H
                (Some (mkOptions (Some (verticalBias64 o))
                         (Some (widthRatio64 o))
                         (Some (heightRatio64 o))))).
  intros r Pw Ph Lw Lh X0 Y0 X1 Y1.
  split; [exact Pw | ]. split; [exact Ph | ]. split.
  - unfold insideRounded.
    split; [exact X0 | ]. split; [exact Y0 | ].
    split; [exact X1 | ]. split; [exact Y1 | ].
    split; apply far_edge; assumption.
  - intros EW EH.
    destruct (far_edge_exact W (width r) (x r) DW EW X1) as [Ax Bx].
    destruct (far_edge_exact H (height r) (y r) DH EH Y1) as [Ay By].
    split.
    + unfold inside. repeat split; assumption.
    + apply isValidBox64_spec. repeat split; assumption.
Qed.

Lemma detectQuestionAreaFast_valid_witness :
  let r := F64.RealtimeDetection.detectQuestionAreaFast 400 580 None in
  (Binary64.double 400 /\ Binary64.double 580 /\ 0 < 400 /\ 0 < 580)
  /\ (0 < widthRatio64 None <= 1 /\ 0 < heightRatio64 None <= 1)
  /\ (Binary64.pow2 (-1075) < 400 * widthRatio64 None
      /\ Binary64.pow2 (-1075) < 580 * heightRatio64 None)
  /\ 0 < width r /\ 0 < height r /\ insideRounded r 400 580
  /\ inside r 400 580
  /\ F64.RealtimeDetection.isValidBox r 400 580 = true.
Proof.
  cbv zeta.
  assert (D1 : Binary64.double 400)
    by (split; [vm_compute; reflexivity
               | vm_compute; intro E; discriminate E]).
  assert (D2 : Binary64.double 580)
    by (split; [vm_compute; reflexivity
               | vm_compute; intro E; discriminate E]).
  assert (P1 : 0 < 400) by reflexivity.
  assert (P2 : 0 < 580) by reflexivity.
  assert (R1 : 0 < widthRatio64 None <= 1)
    by (split; [vm_compute; reflexivity
               | vm_compute; intro E; discriminate E]).
  assert (R2 : 0 < heightRatio64 None <= 1)
    by (split; [vm_compute; reflexivity
               | vm_compute; intro E; discriminate E]).
  assert (U1 : Binary64.pow2 (-1075) < 400 * widthRatio64 None)
    by (vm_compute; reflexivity).
  assert (U2 : Binary64.pow2 (-1075) < 580 * heightRatio64 None)
    by (vm_compute; reflexivity).
  split; [exact (conj D1 (conj D2 (conj P1 P2))) | ].
  split; [exact (conj R1 R2) | ].
  split; [exact (conj U1 U2) | ].
  destruct (detectQuestionAreaFast_valid 400 580 None
              D1 D2 P1 P2 R1 R2 U1 U2) as (Hw & Hh & Hin & Hv).
  split; [exact Hw | ]. split; [exact Hh | ]. split; [exact Hin | ].
  apply Hv; split;
    [vm_compute; reflexivity | vm_compute; intro E; discriminate E
    | vm_compute; reflexivity | vm_compute; intro E; discriminate E].
Defined.

(** C10: in a 1000 x 2000 container the default configuration gives a box
    650 wide and 100 high (the 100px cap applies, 2000 * 0.10 being 200),
    placed at y = 2000 * 0.18 - 50 = 310 (and centred at x = 175). *)
Theorem detectQuestionAreaFast_default_1000_2000 :
  let r := detectQuestionAreaFast 1000 2000 None in
  width r == 650 /\ height r == 100 /\ y r == 310 /\ x r == 175
  /\ 100 < 2000 * 0.10 /\ 2000 * 0.18 - 50 == 310.
Proof.
  cbv zeta. repeat split; vm_compute; reflexivity.
Qed.

(** One field smoothed by a factor of 0, and by a factor of 1. *)
Lemma lerp_zero (a b : number) :
  Binary64.double a ->
  Binary64.add a (Binary64.mul (Binary64.sub b a) 0) == a.
Proof.
  intros Ha. unfold Binary64.add, Binary64.mul.
  assert (E : Binary64.sub b a * 0 == 0) by ring.
  rewrite E, nearest_0.
  assert (E' : a + 0 == a) by ring.
  rewrite E'. exact (double_nearest a Ha).
Qed.

Lemma lerp_one (a b : number) :
  Binary64.add a (Binary64.mul (Binary64.sub b a) 1)
  == Binary64.nearest (a + Binary64.nearest (b - a)).
Proof.
  unfold Binary64.add, Binary64.mul, Binary64.sub.
  assert (E : Binary64.nearest (b - a) * 1 == Binary64.nearest (b - a))
    by ring.
  rewrite E, nearest_idem. reflexivity.
Qed.

Lemma lerp_one_exact (a b : number) :
  Binary64.double b -> Binary64.double (b - a) ->
  Binary64.add a (Binary64.mul (Binary64.sub b a) 1) == b.
Proof.
  intros Hb Hd. rewrite lerp_one, (double_nearest _ Hd).
  assert (E : a + (b - a) == b) by ring.
  rewrite E. exact (double_nearest b Hb).
Qed.

Lemma lerp_one_error (a b : number) :
  Qabs (Binary64.add a (Binary64.mul (Binary64.sub b a) 1) - b)
  <= smoothingError a b.
Proof.
  rewrite lerp_one. unfold smoothingError.
  pose proof (nearest_error (b - a)) as H1.
  pose proof (nearest_error (a + Binary64.nearest (b - a))) as H2.
  pose proof (pow2_pos (-1075)) as He.
  assert (Eu : Binary64.pow2 (-53) == 1 # 9007199254740992)
    by reflexivity.
  assert (Ev : Binary64.pow2 (-52) == 1 # 4503599627370496)
    by reflexivity.
  rewrite Eu in H1, H2. rewrite Ev.
  revert H1 H2 He. generalize (Binary64.pow2 (-1075)). intros eta.
  generalize (Binary64.nearest (a + Binary64.nearest (b - a))).
  generalize (Binary64.nearest (b - a)). intros d r H1 H2 He.
  assert (T : Qabs (a + d) <= Qabs b + Qabs (d - (b - a))).
  { assert (E : a + d == b + (d - (b - a))) by ring.
    rewrite E. apply Qabs_triangle. }
  pose proof (Qabs_nonneg (b - a)) as N1.
  pose proof (Qabs_nonneg b) as N2.
  revert H1 H2 T N1 N2.
  generalize (Qabs (b - a)) (Qabs b) (Qabs (a + d)).
  intros A B C H1 H2 T N1 N2.
  assert (T' : C <= B + ((1 # 9007199254740992) * A + eta)) by lra.
  apply Qabs_Qle_condition in H1, H2. apply Qabs_Qle_condition.
  split; lra.
Qed.

(** C9, as stated, fails for the factor 1: from [x = 0.7] to [x = 0.1] the
    smoother returns [0.7 + (0.1 - 0.7)], which in binary64 is not
    [0.1]. *)
Lemma smoothBoxTransition_factor_one :
  let prev := mkRect (Binary64.literal 0.7) 0 0 0 in
  let next := mkRect (Binary64.literal 0.1) 0 0 0 in
  let r := F64.RealtimeDetection.smoothBoxTransition (Some prev) next 1 in
  0 <= 1 <= 1
  /\ ~ r =r= next
  /\ x r < x next.
Proof.
  cbv zeta. split; [split; vm_compute; intro E; discriminate E | ].
  split.
  - intros [E _]. vm_compute in E. discriminate E.
  - vm_compute. reflexivity.
Qed.

(** C9 (amended): the smoother returns [next] when there is no previous
    rectangle, and [prev] for the factor 0.  For the factor 1 it returns
    [prev + (next - prev)] as binary64 computes it: that is [next] when the
    four differences are exact, and in general within two roundings of
    [next].  Every field is interpolated on its own,
    [prev + (next - prev) * f]. *)
Theorem smoothBoxTransition_endpoints :
  (forall next f,
      F64.RealtimeDetection.smoothBoxTransition None next f = next)
  /\ (forall prev next,
        doubles prev -> differencesFinite prev next ->
        F64.RealtimeDetection.smoothBoxTransition (Some prev) next 0
        =r= prev)
  /\ (forall prev next,
        doubles next -> differencesExact prev next ->
        F64.RealtimeDetection.smoothBoxTransition (Some prev) next 1
        =r= next)
  /\ (forall prev next,
        doubles prev -> doubles next -> differencesFinite prev next ->
        let r :=
          F64.RealtimeDetection.smoothBoxTransition (Some prev) next 1 in
        Qabs (x r - x next) <= smoothingError (x prev) (x next)
        /\ Qabs (y r - y next) <= smoothingError (y prev) (y next)
        /\ Qabs (width r - width next)
           <= smoothingError (width prev) (width next)
        /\ Qabs (height r - height next)
           <= smoothingError (height prev) (height next))
  /\ (forall prev next f,
        let r :=
          F64.RealtimeDetection.smoothBoxTransition (Some prev) next f in
        x r = Binary64.add (x prev)
                (Binary64.mul (Binary64.sub (x next) (x prev)) f)
        /\ y r = Binary64.add (y prev)
                   (Binary64.mul (Binary64.sub (y next) (y prev)) f)
        /\ width r
           = Binary64.add (width prev)
               (Binary64.mul (Binary64.sub (width next) (width prev)) f)
        /\ height r
           = Binary64.add (height prev)
               (Binary64.mul (Binary64.sub (height next) (height prev)) f)).
Proof.
  split; [reflexivity | ].
  split; [ | split; [ | split]].
  - intros prev next (H1 & H2 & H3 & H4) _.
    unfold F64.RealtimeDetection.smoothBoxTransition, Rect_eq;
      cbn [x y width height].
    split; [ | split; [ | split]]; apply lerp_zero; assumption.
  - intros prev next (H1 & H2 & H3 & H4) (D1 & D2 & D3 & D4).
    unfold F64.RealtimeDetection.smoothBoxTransition, Rect_eq;
      cbn [x y width height].
    split; [ | split; [ | split]]; apply lerp_one_exact; assumption.
  - intros prev next _ _ _.
    unfold F64.RealtimeDetection.smoothBoxTransition;
      cbn [x y width height].
    split; [ | split; [ | split]]; apply lerp_one_error.
  - intros prev next f. cbn. repeat split; reflexivity.
Qed.

Lemma smoothBoxTransition_endpoints_witness :
  let prev := mkRect 100 200 300 150 in
  let next := mkRect 120 210 280 140 in
  (doubles prev /\ doubles next /\ differencesFinite prev next
   /\ differencesExact prev next)
  /\ F64.RealtimeDetection.smoothBoxTransition (Some prev) next 0 =r= prev
  /\ F64.RealtimeDetection.smoothBoxTransition (Some prev) next 1 =r= next.
Proof.
  cbv zeta.
  assert (H1 : doubles (mkRect 100 200 300 150)).
  { repeat split; try (vm_compute; reflexivity);
      vm_compute; intro E; discriminate E. }
  assert (H2 : doubles (mkRect 120 210 280 140)).
  { repeat split; try (vm_compute; reflexivity);
      vm_compute; intro E; discriminate E. }
  assert (H3 : differencesFinite (mkRect 100 200 300 150)
                 (mkRect 120 210 280 140)).
  { repeat split; vm_compute; intro E; discriminate E. }
  assert (H4 : differencesExact (mkRect 100 200 300 150)
                 (mkRect 120 210 280 140)).
  { repeat split; try (vm_compute; reflexivity);
      vm_compute; intro E; discriminate E. }
  split; [exact (conj H1 (conj H2 (conj H3 H4))) | ].
  destruct smoothBoxTransition_endpoints as (_ & Hzero & Hone & _).
  split; [exact (Hzero _ _ H1 H3) | exact (Hone _ _ H2 H4)].
Defined.

End FastEstimator.

(** ** The coordinate mapper *)

Section Mapper.

Import ImageUtils.

Lemma round_bounds (a : number) :
  a - 0.5 < Math.round a /\ Math.round a <= a + 0.5.
Proof.
  unfold Math.round.
  pose proof (Qfloor_le (a + 0.5)) as Hle.
  pose proof (Qlt_floor (a + 0.5)) as Hlt.
  rewrite inject_Z_plus in Hlt.
  change (inject_Z 1) with 1 in Hlt.
  split; lra.
Qed.

(** Two roundings in a row, the second after scaling by [u], the inverse
    of the first scale [t]. *)
Lemma two_roundings (v t u a b : number) :
  t * u == 1 -> 0 < u ->
  v * t - 0.5 < a -> a <= v * t + 0.5 ->
  a * u - 0.5 < b -> b <= a * u + 0.5 ->
  - (0.5 + u / 2) <= b - v <= 0.5 + u / 2.
Proof.
  intros Htu Hu Ha1 Ha2 Hb1 Hb2.
  assert (Hau1 : (v * t - 0.5) * u <= a * u)
    by (apply Qmult_le_compat_r; lra).
  assert (Hau2 : a * u <= (v * t + 0.5) * u)
    by (apply Qmult_le_compat_r; lra).
  assert (Hv : v * t * u == v) by (rewrite <- Qmult_assoc, Htu; ring).
  assert (E1 : (v * t - 0.5) * u == v * t * u - 0.5 * u) by ring.
  assert (E2 : (v * t + 0.5) * u == v * t * u + 0.5 * u) by ring.
  assert (E3 : u / 2 == 0.5 * u) by field.
  split; lra.
Qed.

(** One coordinate scaled by [to / from], rounded, scaled back by
    [from / to] and rounded again stays within [1/2 + from / (2 to)] of
    where it started. *)
Lemma roundTrip_coordinate (v from to : number) :
  0 < from -> 0 < to ->
  Qabs (Math.round (Math.round (v * (to / from)) * (from / to)) - v)
  <= 0.5 + (from / to) / 2.
Proof.
  intros Hf Ht.
  assert (Htu : (to / from) * (from / to) == 1) by (field; lra).
  assert (Hu : 0 < from / to).
  { unfold Qdiv. apply Qmult_lt_0_compat; [lra | ].
    apply Qinv_lt_0_compat; lra. }
  destruct (round_bounds (v * (to / from))) as [Ha1 Ha2].
  destruct (round_bounds (Math.round (v * (to / from)) * (from / to)))
    as [Hb1 Hb2].
  apply Qabs_Qle_condition.
  exact (two_roundings v (to / from) (from / to) _ _ Htu Hu Ha1 Ha2 Hb1 Hb2).
Qed.

(** The round trip when the destination is at least as large as the
    source: each field moves by at most one unit. *)
Lemma roundTrip_coordinate_upscale (v from to : number) :
  0 < from -> from <= to ->
  Qabs (Math.round (Math.round (v * (to / from)) * (from / to)) - v) <= 1.
Proof.
  intros Hf Hle.
  assert (Ht : 0 < to) by lra.
  pose proof (roundTrip_coordinate v from to Hf Ht) as H.
  assert (Hu : from / to <= 1).
  { apply Qle_shift_div_r; lra. }
  revert H Hu. generalize (from / to) as u.
  intros u H Hu. eapply Qle_trans; [exact H | ].
  assert (E : u / 2 == 0.5 * u) by field. lra.
Qed.




End Mapper.

(** ** The density region estimator *)

Section DensityEstimator.

Import ImageUtils.

(** The band the grid settles on: rows 11 to 14, columns 9 to 18 of the
    40 x 30 grid, for every image. *)
Lemma grid_boundaries :
  topBoundary = 11%Z /\ bottomBoundary = 14%Z
  /\ leftBoundary = 9%Z /\ rightBoundary = 18%Z.
Proof. repeat split; vm_compute; reflexivity. Qed.

Variables Uri ImageResult : Type.

(** The estimator answers with the rectangle computed from the dimensions
    exactly when the resize succeeds, and with [null] exactly when it
    throws; it never throws itself. *)
Lemma analyzeTextDensity_cases
    (manipulateAsync : Uri -> Action -> result ImageResult)
    (imageUri : Uri) (iw ih sw sh : number) :
  let resized :=
    manipulateAsync imageUri
      (Resize 200 (Math.round ((ih / iw) * 200))) in
  analyzeTextDensity manipulateAsync imageUri iw ih sw sh
  = match resized with
    | Ok _ => Ok (Some (screenRect iw ih sw sh))
    | Thrown => Ok None
    end.
Proof.
  cbv zeta. unfold analyzeTextDensity, try_catch, bind.
  destruct (manipulateAsync imageUri _); reflexivity.
Qed.

(** C5: the rectangle returned by a successful run depends on the source
    and target dimensions only.  Two runs on any two images, even through
    manipulators that decode them differently, return the same rectangle,
    the one computed from the grid positions by [screenRect]. *)
Theorem analyzeTextDensity_ignores_pixels
    (manipulate1 manipulate2 : Uri -> Action -> result ImageResult)
    (image1 image2 : Uri) (iw ih sw sh : number) (r1 r2 : Rect) :
  analyzeTextDensity manipulate1 image1 iw ih sw sh = Ok (Some r1) ->
  analyzeTextDensity manipulate2 image2 iw ih sw sh = Ok (Some r2) ->
  r1 = r2 /\ r1 = screenRect iw ih sw sh.
Proof.
  rewrite !analyzeTextDensity_cases.
  destruct (manipulate1 image1 _); [ | discriminate].
  destruct (manipulate2 image2 _); [ | discriminate].
  intros H1 H2. injection H1 as <-. injection H2 as <-.
  split; reflexivity.
Qed.

End DensityEstimator.

Lemma analyzeTextDensity_ignores_pixels_witness :
  let m1 := fun (_ : nat) (_ : Action) => Ok 1%nat in
  let m2 := fun (_ : nat) (_ : Action) => Ok 2%nat in
  let r := ImageUtils.screenRect 3000 4000 400 800 in
  (ImageUtils.analyzeTextDensity m1 7%nat 3000 4000 400 800 = Ok (Some r)
   /\ ImageUtils.analyzeTextDensity m2 8%nat 3000 4000 400 800 = Ok (Some r))
  /\ r = r /\ r = ImageUtils.screenRect 3000 4000 400 800.
Proof.
  cbv zeta. split.
  - split; reflexivity.
  - apply (analyzeTextDensity_ignores_pixels nat nat
             (fun _ _ => Ok 1%nat) (fun _ _ => Ok 2%nat) 7%nat 8%nat
             3000 4000 400 800); reflexivity.
Defined.

(** ** The fallback of the capture handler *)

Section Fallback.

Import ImageUtils.

(** The heuristic rectangle is a valid box of the screen as soon as the
    screen is taller than the two 120px offsets. *)
Lemma detectTextArea_valid (SW SH : number) :
  0 < SW -> 240 < SH ->
  RealtimeDetection.isValidBox (detectTextArea SW SH fallbackOptions) SW SH
  = true.
Proof.
  intros HW HH. apply isValidBox_spec.
  unfold inside, detectTextArea, fallbackOptions; cbn.
  assert (E : (SW - SW * 0.85) / 2 == 0.075 * SW) by field.
  repeat split; minmax; lra.
Qed.

Variables Uri ImageResult Camera : Type.
Variable manipulateAsync : Uri -> Action -> result ImageResult.
Variable uriOf : ImageResult -> Uri.
Variable takePictureAsync : Camera -> result (Photo.t Uri).
Variable android : bool.
Variables SCREEN_WIDTH SCREEN_HEIGHT : number.


End Fallback.



(** ** Rectangles passed to the crop operation *)

Section CropRequests.

Lemma is_integer_inject (z : Z) : is_integer (inject_Z z).
Proof. exists z. reflexivity. Qed.

Lemma is_integer_round (a : number) : is_integer (Math.round a).
Proof. apply is_integer_inject. Qed.

Lemma is_integer_0 : is_integer 0.
Proof. exact (is_integer_inject 0). Qed.

Lemma is_integer_1 : is_integer 1.
Proof. exact (is_integer_inject 1). Qed.

Lemma is_integer_minus (a b : number) :
  is_integer a -> is_integer b -> is_integer (a - b).
Proof.
  intros [m Hm] [n Hn]. exists (m - n)%Z.
  unfold Z.sub. rewrite inject_Z_plus, inject_Z_opp, Hm, Hn. ring.
Qed.

Lemma is_integer_max (a b : number) :
  is_integer a -> is_integer b -> is_integer (Math.max a b).
Proof.
  intros [m Hm] [n Hn]. unfold Math.max.
  destruct (Q.max_spec a b) as [[_ E] | [_ E]];
    [exists n | exists m]; rewrite E; assumption.
Qed.

Lemma is_integer_min (a b : number) :
  is_integer a -> is_integer b -> is_integer (Math.min a b).
Proof.
  intros [m Hm] [n Hn]. unfold Math.min.
  destruct (Q.min_spec a b) as [[_ E] | [_ E]];
    [exists m | exists n]; rewrite E; assumption.
Qed.

Create HintDb integer.
#[local] Hint Resolve is_integer_inject is_integer_round is_integer_0
  is_integer_1 is_integer_minus is_integer_max is_integer_min : integer.

(** The clamping of the camera screen on one axis: the rounded origin [o]
    and size [w] against the photo dimension [p]. *)
Lemma camera_axis (o w p : number) :
  let origin := Math.max 0 (Math.min o (p - w)) in
  let size := Math.min w (p - origin) in
  0 < size -> 0 <= origin /\ origin + size <= p.
Proof. cbv zeta. intros Hpos. split; minmax; lra. Qed.

(** The clamping of the preview screen on one axis, after the adjustment
    branch was not taken. *)
Lemma preview_axis_kept (o w p : number) :
  let origin := Math.max 0 o in
  let size := Math.max 1 (Math.min w (p - origin)) in
  0 <= origin /\ 0 < size.
Proof. cbv zeta. split; minmax; lra. Qed.

(** When the adjustment branch is taken, the axis that exceeds the photo
    ends with a size below zero, so the request is rejected. *)
Lemma preview_axis_adjusted (o w p : number) :
  let origin := Math.max 0 o in
  let size := Math.max 1 (Math.min w (p - origin)) in
  p < origin + size -> Math.min size (p - origin - 1) <= 0.
Proof. cbv zeta. intros Hover. minmax; lra. Qed.

Variables SCREEN_WIDTH SCREEN_HEIGHT : number.

Lemma camera_cropCall_valid
    (boxToUse : option Rect) (isAutoDetecting : bool)
    (photoW photoH : Z) (c : Crop.t) :
  CameraScreen.cropCall SCREEN_WIDTH SCREEN_HEIGHT boxToUse isAutoDetecting
    (inject_Z photoW) (inject_Z photoH) = Some c ->
  validCrop c (inject_Z photoW) (inject_Z photoH).
Proof.
  unfold CameraScreen.cropCall, CameraScreen.cropRect.
  destruct boxToUse as [b | ]; [ | discriminate].
  destruct isAutoDetecting; [ | discriminate].
  destruct (gtb _ _); cbv zeta beta iota.
  all: match goal with
       | |- (if ?g then _ else _) = _ -> _ => destruct g eqn:G
       end; [ | discriminate].
  all: intros H; injection H as <-.
  all: apply andb_true_iff in G; destruct G as [Gw Gh].
  all: apply gtb_true in Gw, Gh; cbn [Crop.width Crop.height] in Gw, Gh.
  all: unfold validCrop;
    cbn [Crop.originX Crop.originY Crop.width Crop.height].
  all: split; [repeat split; auto 10 with integer | ].
  all: split; [exact Gw | split; [exact Gh | ]].
  all: pose proof (camera_axis _ _ _ Gw) as [? ?].
  all: pose proof (camera_axis _ _ _ Gh) as [? ?].
  all: repeat split; assumption.
Qed.

Lemma preview_cropRect_valid
    (cropBox : Rect) (imageLayout : Layout.t) (photoW photoH : Z)
    (c : Crop.t) :
  PreviewCrop.cropRect cropBox imageLayout
    (inject_Z photoW) (inject_Z photoH) = Ok c ->
  validCrop c (inject_Z photoW) (inject_Z photoH).
Proof.
  unfold PreviewCrop.cropRect.
  destruct (gtb (inject_Z photoW / inject_Z photoH) _);
    cbv zeta beta iota.
  all: match goal with
       | |- context [if ?g || ?g' then (_, _) else (_, _)] =>
           destruct g eqn:Gx; [ | destruct g' eqn:Gy]
       end; cbv beta iota;
       cbn [orb Crop.originX Crop.originY Crop.width Crop.height].
  all: match goal with
       | |- (if ?g then _ else _) = _ -> _ => destruct g eqn:G1
       end; [discriminate | ].
  all: match goal with
       | |- (if ?g then _ else _) = _ -> _ => destruct g eqn:G2
       end; [discriminate | ].
  all: intros H; injection H as <-.
  all: apply orb_false_iff in G1; destruct G1 as [Gw Gh].
  all: try (apply gtb_true in Gx;
            apply (preview_axis_adjusted _ _ _) in Gx;
            apply leb_true in Gx; congruence).
  all: try (apply gtb_true in Gy;
            apply (preview_axis_adjusted _ _ _) in Gy;
            apply leb_true in Gy; congruence).
  all: apply gtb_false in Gx, Gy.
  all: unfold validCrop;
    cbn [Crop.originX Crop.originY Crop.width Crop.height].
  all: split; [repeat split; auto 10 with integer | ].
  all: match goal with
       | |- 0 < Math.max 1 (Math.min ?w (?p - Math.max 0 ?o)) /\ _ =>
           pose proof (preview_axis_kept o w p) as [? ?]
       end.
  all: match goal with
       | |- _ /\ 0 < Math.max 1 (Math.min ?w (?p - Math.max 0 ?o)) /\ _ =>
           pose proof (preview_axis_kept o w p) as [? ?]
       end.
  all: repeat split; assumption.
Qed.

(** C4: for a photo of positive pixel dimensions, every rectangle that the
    capture handler of the camera screen or [cropAsync] of the preview
    screen passes to the crop operation has integer origin and size,
    positive width and height, a non-negative origin, and ends inside the
    photo; anything else is clamped or not passed. *)
Theorem crop_requests_valid (photoW photoH : Z) :
  (0 < photoW)%Z -> (0 < photoH)%Z ->
  (forall boxToUse isAutoDetecting c,
      CameraScreen.cropCall SCREEN_WIDTH SCREEN_HEIGHT boxToUse
        isAutoDetecting (inject_Z photoW) (inject_Z photoH) = Some c ->
      validCrop c (inject_Z photoW) (inject_Z photoH))
  /\ (forall cropBox imageLayout c,
        PreviewCrop.cropRect cropBox imageLayout
          (inject_Z photoW) (inject_Z photoH) = Ok c ->
        validCrop c (inject_Z photoW) (inject_Z photoH)).
Proof.
  intros _ _. split.
  - intros b a c. apply camera_cropCall_valid.
  - intros b l c. apply preview_cropRect_valid.
Qed.

End CropRequests.

Lemma crop_requests_valid_witness :
  ((0 < 3000)%Z /\ (0 < 4000)%Z)
  /\ (exists c,
        CameraScreen.cropCall 400 800 (Some (mkRect 70 195 260 58)) true
          (inject_Z 3000) (inject_Z 4000) = Some c
        /\ c = Crop.mk (inject_Z 850) (inject_Z 975)
                       (inject_Z 1300) (inject_Z 290)
        /\ validCrop c (inject_Z 3000) (inject_Z 4000))
  /\ (exists c,
        PreviewCrop.cropRect (mkRect 40 66 120 35) (Layout.mk 400 440 0 0)
          (inject_Z 3000) (inject_Z 4000) = Ok c
        /\ c = Crop.mk (inject_Z 45) (inject_Z 600)
                       (inject_Z 1091) (inject_Z 318)
        /\ validCrop c (inject_Z 3000) (inject_Z 4000)).
Proof.
  split; [split; lia | ].
  destruct (crop_requests_valid 400 800 3000 4000) as [Hcamera Hpreview];
    [lia | lia | ].
  split.
  - eexists. split; [vm_compute; reflexivity | ].
    split; [reflexivity | ].
    apply (Hcamera (Some (mkRect 70 195 260 58)) true).
    vm_compute. reflexivity.
  - eexists. split; [vm_compute; reflexivity | ].
    split; [reflexivity | ].
    apply (Hpreview (mkRect 40 66 120 35) (Layout.mk 400 440 0 0)).
    vm_compute. reflexivity.
Defined.

(** ** The overlay of the camera screen *)

Section Overlay.

Import AutoDetectionBox.

Variables containerWidth containerHeight : number.

Lemma updates_snoc
    (onUpdate : number -> number -> Shared -> Shared)
    (events : list (number * number)) (e : number * number) (s : Shared) :
  updates onUpdate (events ++ [e]) s
  = onUpdate (fst e) (snd e) (updates onUpdate events s).
Proof. unfold updates. rewrite fold_left_app. reflexivity. Qed.

(** The updates of a gesture never touch the start values. *)
Lemma updates_start
    (onUpdate : number -> number -> Shared -> Shared)
    (events : list (number * number)) (s : Shared) :
  (forall tx ty s,
      startLeft (onUpdate tx ty s) = startLeft s
      /\ startTop (onUpdate tx ty s) = startTop s
      /\ startWidth (onUpdate tx ty s) = startWidth s
      /\ startHeight (onUpdate tx ty s) = startHeight s) ->
  startLeft (updates onUpdate events s) = startLeft s
  /\ startTop (updates onUpdate events s) = startTop s
  /\ startWidth (updates onUpdate events s) = startWidth s
  /\ startHeight (updates onUpdate events s) = startHeight s.
Proof.
  intros Hstep. revert s. unfold updates.
  induction events as [ | e events IH]; intros s; cbn [fold_left].
  - repeat split.
  - destruct (IH (onUpdate (fst e) (snd e) s)) as (E1 & E2 & E3 & E4).
    destruct (Hstep (fst e) (snd e) s) as (F1 & F2 & F3 & F4).
    repeat split; congruence.
Qed.

Lemma corner_onUpdate_start (corner : Corner) (tx ty : number) (s : Shared) :
  let s' := corner_onUpdate containerWidth containerHeight corner tx ty s in
  startLeft s' = startLeft s /\ startTop s' = startTop s
  /\ startWidth s' = startWidth s /\ startHeight s' = startHeight s.
Proof. destruct corner; repeat split. Qed.

End Overlay.

(** ** The crop box of the preview screen *)

Section Preview.

Import PreviewScreen.

Variables SCREEN_WIDTH SCREEN_HEIGHT : number.

Abbreviation cw l := (containerWidth SCREEN_WIDTH l).
Abbreviation ch l := (containerHeight SCREEN_HEIGHT l).
Abbreviation Good := (good SCREEN_WIDTH SCREEN_HEIGHT).
Abbreviation dragged := (draggedBox SCREEN_WIDTH SCREEN_HEIGHT).
Abbreviation Invariant := (Inv SCREEN_WIDTH SCREEN_HEIGHT).
Abbreviation InGesture := (GestureInv SCREEN_WIDTH SCREEN_HEIGHT).
Abbreviation InDrag := (Dragging SCREEN_WIDTH SCREEN_HEIGHT).

Ltac st :=
  cbn [cropBox imageLayout dragStartRef activeHandleRef isDraggingRef
       isResizingRef cropBoxRef animationFrameRef pendingCropRef
       set_cropBox set_imageLayout set_dragStartRef set_activeHandleRef
       set_isDraggingRef set_isResizingRef set_cropBoxRef
       set_animationFrameRef set_pendingCropRef
       x y width height negb andb orb] in *.

Lemma Rect_eta (r : Rect) : mkRect (x r) (y r) (width r) (height r) = r.
Proof. destruct r; reflexivity. Qed.

(** The re-clamp keeps the box inside the container, whatever the box. *)
Lemma constrainCropBox_inside (l : Layout.t) (b : Rect) :
  inside (constrainCropBox SCREEN_WIDTH SCREEN_HEIGHT l b) (cw l) (ch l).
Proof.
  unfold inside, constrainCropBox, clamp; cbn [x y width height].
  generalize (cw l) (ch l). intros W H.
  repeat split; minmax; lra.
Qed.

Lemma constrainCropBox_good (l : Layout.t) (b : Rect) :
  1 <= cw l -> 1 <= ch l -> 1 <= width b -> 1 <= height b ->
  Good l (constrainCropBox SCREEN_WIDTH SCREEN_HEIGHT l b).
Proof.
  intros HW HH Hw Hh. split; [ | split].
  - unfold constrainCropBox; cbn [width]. minmax; lra.
  - unfold constrainCropBox; cbn [height]. minmax; lra.
  - apply constrainCropBox_inside.
Qed.

Lemma drag_onPanResponderMove_eq
    (l : Layout.t) (dx dy : number) (s : State) :
  drag_onPanResponderMove SCREEN_WIDTH SCREEN_HEIGHT l dx dy s
  = if isResizingRef s then s
    else publish (dragged l (dragStartRef s) dx dy) s.
Proof. reflexivity. Qed.

(** The dragged box is inside the container when the box fits in it. *)
Lemma draggedBox_inside (l : Layout.t) (start : Rect) (dx dy : number) :
  width start <= cw l -> height start <= ch l ->
  inside (dragged l start dx dy) (cw l) (ch l).
Proof.
  unfold inside, draggedBox, clamp; cbn [x y width height].
  generalize (cw l) (ch l). intros W H Hw Hh.
  repeat split; minmax; lra.
Qed.

Lemma draggedBox_good (l : Layout.t) (start : Rect) (dx dy : number) :
  Good l start -> Good l (dragged l start dx dy).
Proof.
  intros (Hw & Hh & Hin). unfold good.
  split; [exact Hw | split; [exact Hh | ]].
  unfold inside in Hin. apply draggedBox_inside; lra.
Qed.

Lemma resizedBox_good
    (handle : Handle) (l : Layout.t) (start : Rect) (dx dy : number) :
  Good l start ->
  Good l (resizedBox SCREEN_WIDTH SCREEN_HEIGHT handle l start dx dy).
Proof.
  unfold good, inside, resizedBox, clamp.
  generalize (cw l) (ch l). intros W H (Hw & Hh & Hx & Hy & Hxw & Hyh).
  destruct handle; cbv zeta.
  all: repeat match goal with
       | |- context [geb ?a ?b && geb ?c ?d] =>
           let G1 := fresh "G" in
           let G2 := fresh "G" in
           destruct (geb a b) eqn:G1;
           [apply geb_true in G1 | apply geb_false in G1];
           (destruct (geb c d) eqn:G2;
            [apply geb_true in G2 | apply geb_false in G2]);
           cbn [andb]; cbv beta iota
       end.
  all: cbn [x y width height].
  all: repeat split; minmax; lra.
Qed.

(** The anchor of a resize: the corner opposite the handle stays where it
    was at the start of the gesture. *)
Lemma resizedBox_keeps_anchor
    (handle : Handle) (l : Layout.t) (start : Rect) (dx dy : number) :
  let r := resizedBox SCREEN_WIDTH SCREEN_HEIGHT handle l start dx dy in
  fst (anchor handle r) == fst (anchor handle start)
  /\ snd (anchor handle r) == snd (anchor handle start).
Proof.
  cbv zeta. unfold resizedBox.
  destruct handle; cbv zeta.
  all: repeat match goal with
       | |- context [geb ?a ?b && geb ?c ?d] =>
           destruct (geb a b && geb c d); cbv beta iota
       end.
  all: cbn [anchor fst snd x y width height]; split; ring.
Qed.

Lemma GestureInv_setCropBox (b : Rect) (s : State) :
  InGesture s -> Good (imageLayout s) b -> InGesture (setCropBox b s).
Proof.
  intros [(H1 & H2 & H3 & H4) H5] Hb. unfold setCropBox.
  destruct s as [cb l ds ah dr rr cr af pc]. st.
  destruct (negb dr && negb rr); unfold GestureInv, Inv; st; auto 10.
Qed.

Lemma GestureInv_publish (b : Rect) (s : State) :
  InGesture s -> Good (imageLayout s) b -> InGesture (publish b s).
Proof.
  intros [(H1 & H2 & H3 & H4) H5] Hb. unfold publish.
  destruct s as [cb l ds ah dr rr cr af pc]. st.
  destruct af as [f | ]; unfold GestureInv, Inv; st;
    (split; [split; [assumption | split; [assumption | split]] | assumption]).
  - intros p [= <-]. assumption.
  - assumption.
  - intros p [= <-]. assumption.
  - intros b' [=].
Qed.

Lemma GestureInv_flush (s : State) : InGesture s -> InGesture (flush s).
Proof.
  intros HJ. unfold flush.
  destruct (pendingCropRef s) as [p | ] eqn:E; [ | exact HJ].
  assert (Hp : Good (imageLayout s) p)
    by exact (proj1 (proj2 (proj2 (proj1 HJ))) p E).
  pose proof (GestureInv_setCropBox p s HJ Hp) as [(H1 & H2 & H3 & H4) H5].
  revert H1 H2 H3 H4 H5. generalize (setCropBox p s).
  intros [cb l ds ah dr rr cr af pc]. unfold GestureInv, Inv. st.
  intros H1 H2 H3 H4 H5.
  split; [split; [assumption | split; [assumption | split]] | assumption].
  - intros p' [=].
  - assumption.
Qed.

Lemma GestureInv_animationFrame (s : State) :
  InGesture s -> InGesture (animationFrame s).
Proof.
  intros HJ. unfold animationFrame.
  destruct (animationFrameRef s) as [[ | b] | ] eqn:E; [ | | exact HJ].
  - apply GestureInv_flush in HJ. fold (flush s).
    revert HJ. generalize (flush s).
    intros [cb l ds ah dr rr cr af pc]. unfold GestureInv, Inv. st.
    intros [(H1 & H2 & H3 & H4) H5].
    split; [split; [assumption | split; [assumption | split]] | assumption].
    + assumption.
    + intros b' [=].
  - assert (Hb : Good (imageLayout s) b)
      by exact (proj2 (proj2 (proj2 (proj1 HJ))) b E).
    assert (HJ' : InGesture (set_cropBoxRef b s)).
    { destruct HJ as [(H1 & H2 & H3 & H4) H5].
      destruct s as [cb l ds ah dr rr cr af pc].
      unfold GestureInv, Inv in *. st. auto 10. }
    pose proof (GestureInv_setCropBox b _ HJ') as HJ''.
    assert (Hb' : Good (imageLayout (set_cropBoxRef b s)) b)
      by (destruct s; exact Hb).
    specialize (HJ'' Hb'). revert HJ''.
    generalize (setCropBox b (set_cropBoxRef b s)).
    intros [cb l ds ah dr rr cr af pc]. unfold GestureInv, Inv. st.
    intros [(H1 & H2 & H3 & H4) H5].
    split; [split; [assumption | split; [assumption | split]] | assumption].
    + assumption.
    + intros b' [=].
Qed.

(** Gestures never touch the layout. *)
Lemma setCropBox_layout (b : Rect) (s : State) :
  imageLayout (setCropBox b s) = imageLayout s.
Proof.
  unfold setCropBox. destruct s as [cb l ds ah dr rr cr af pc]. st.
  destruct (negb dr && negb rr); reflexivity.
Qed.

Lemma publish_layout (b : Rect) (s : State) :
  imageLayout (publish b s) = imageLayout s.
Proof.
  unfold publish. destruct s as [cb l ds ah dr rr cr af pc]. st.
  destruct af; reflexivity.
Qed.

Lemma flush_layout (s : State) : imageLayout (flush s) = imageLayout s.
Proof.
  unfold flush. destruct (pendingCropRef s) as [p | ]; [ | reflexivity].
  pose proof (setCropBox_layout p s) as E. revert E.
  generalize (setCropBox p s). intros s' E. destruct s'; exact E.
Qed.

Lemma animationFrame_layout (s : State) :
  imageLayout (animationFrame s) = imageLayout s.
Proof.
  unfold animationFrame.
  destruct (animationFrameRef s) as [[ | b] | ]; [ | | reflexivity].
  - pose proof (flush_layout s) as E. unfold flush in E. revert E.
    match goal with
    | |- imageLayout ?t = _ -> _ => generalize t
    end.
    intros s' E. destruct s'; exact E.
  - pose proof (setCropBox_layout b (set_cropBoxRef b s)) as E. revert E.
    generalize (setCropBox b (set_cropBoxRef b s)).
    intros s' E. destruct s', s; exact E.
Qed.

Lemma during_layout
    (onMove : number -> number -> State -> State)
    (events : list GestureEvent) (s : State) :
  (forall dx dy s, imageLayout (onMove dx dy s) = imageLayout s) ->
  imageLayout (during onMove events s) = imageLayout s.
Proof.
  intros Hmove. revert s. unfold during.
  induction events as [ | e events IH]; intros s; cbn [fold_left].
  - reflexivity.
  - rewrite IH. destruct e as [dx dy | ].
    + apply Hmove.
    + apply animationFrame_layout.
Qed.

Lemma GestureInv_drag_move (l : Layout.t) (dx dy : number) (s : State) :
  InGesture s -> imageLayout s = l ->
  InGesture (drag_onPanResponderMove SCREEN_WIDTH SCREEN_HEIGHT l dx dy s).
Proof.
  intros HJ <-. rewrite drag_onPanResponderMove_eq.
  destruct (isResizingRef s); [exact HJ | ].
  apply GestureInv_publish; [exact HJ | ].
  apply draggedBox_good. exact (proj2 HJ).
Qed.

Lemma GestureInv_resize_move
    (l : Layout.t) (handle : Handle) (dx dy : number) (s : State) :
  InGesture s -> imageLayout s = l ->
  InGesture
    (resize_onPanResponderMove SCREEN_WIDTH SCREEN_HEIGHT l handle dx dy s).
Proof.
  intros HJ <-. unfold resize_onPanResponderMove.
  match goal with |- InGesture (if ?g then _ else _) => destruct g end;
    [exact HJ | ].
  apply GestureInv_publish; [exact HJ | ].
  apply resizedBox_good. exact (proj2 HJ).
Qed.

Lemma GestureInv_during
    (l : Layout.t) (onMove : number -> number -> State -> State)
    (events : list GestureEvent) (s : State) :
  (forall dx dy s,
      InGesture s -> imageLayout s = l ->
      InGesture (onMove dx dy s) /\ imageLayout (onMove dx dy s) = l) ->
  InGesture s -> imageLayout s = l ->
  InGesture (during onMove events s).
Proof.
  intros Hmove. revert s. unfold during.
  induction events as [ | e events IH]; intros s HJ Hl; cbn [fold_left].
  - exact HJ.
  - destruct e as [dx dy | ].
    + destruct (Hmove dx dy s HJ Hl) as [HJ' Hl'].
      exact (IH _ HJ' Hl').
    + apply IH; [apply GestureInv_animationFrame, HJ | ].
      rewrite animationFrame_layout. exact Hl.
Qed.

(** Setting the gesture flags, the active handle or the start box (to a
    good box) keeps the invariant. *)
Lemma GestureInv_grant (s : State) (dragging resizing : bool)
    (handle : option Handle) :
  Invariant s ->
  InGesture
    (set_dragStartRef
       (mkRect (x (cropBoxRef s)) (y (cropBoxRef s))
               (width (cropBoxRef s)) (height (cropBoxRef s)))
       (set_activeHandleRef handle
          (set_isResizingRef resizing (set_isDraggingRef dragging s)))).
Proof.
  intros (H1 & H2 & H3 & H4). rewrite Rect_eta.
  destruct s as [cb l ds ah dr rr cr af pc]. unfold GestureInv, Inv. st.
  auto 10.
Qed.

Lemma Inv_release (s : State) (dragging resizing : bool)
    (handle : option Handle) :
  InGesture s ->
  Invariant (flush (set_activeHandleRef handle
                (set_isResizingRef resizing
                   (set_isDraggingRef dragging s)))).
Proof.
  intros HJ.
  apply (GestureInv_flush
           (set_activeHandleRef handle
              (set_isResizingRef resizing (set_isDraggingRef dragging s)))).
  destruct HJ as [(H1 & H2 & H3 & H4) H5].
  destruct s as [cb l ds ah dr rr cr af pc]. unfold GestureInv, Inv. st.
  auto 10.
Qed.

(** Every drag and every resize, released or interrupted, with any moves
    and frames in between, takes a state that satisfies the invariant to
    one that satisfies it. *)
Lemma gestures_keep_Inv (s : State) (events : list GestureEvent)
    (terminated : bool) :
  Invariant s ->
  Invariant (dragGesture SCREEN_WIDTH SCREEN_HEIGHT (imageLayout s) events
               terminated s)
  /\ (forall handle,
        Invariant (resizeGesture SCREEN_WIDTH SCREEN_HEIGHT (imageLayout s)
                     handle events terminated s)).
Proof.
  intros HI. split; [ | intros handle].
  - unfold dragGesture.
    destruct (drag_onStartShouldSetPanResponder s); [ | exact HI].
    cbv zeta.
    assert (HJ : InGesture (drag_onPanResponderGrant s)).
    { pose proof (GestureInv_grant s true (isResizingRef s)
                    (activeHandleRef s) HI) as HJ.
      destruct s; exact HJ. }
    assert (Hl : imageLayout (drag_onPanResponderGrant s) = imageLayout s)
      by (destruct s; reflexivity).
    apply (GestureInv_during (imageLayout s)
             (drag_onPanResponderMove SCREEN_WIDTH SCREEN_HEIGHT
                (imageLayout s)) events) in HJ; [ | | exact Hl].
    + revert HJ.
      generalize (during
                    (drag_onPanResponderMove SCREEN_WIDTH SCREEN_HEIGHT
                       (imageLayout s))
                    events (drag_onPanResponderGrant s)).
      intros s' HJ.
      pose proof (Inv_release s' false (isResizingRef s')
                    (activeHandleRef s') HJ) as HR.
      destruct terminated; destruct s'; exact HR.
    + intros dx dy s' HJ' Hl'. split.
      * exact (GestureInv_drag_move _ dx dy s' HJ' Hl').
      * rewrite drag_onPanResponderMove_eq.
        destruct (isResizingRef s'); [exact Hl' | ].
        rewrite publish_layout. exact Hl'.
  - unfold resizeGesture.
    destruct (resize_onStartShouldSetPanResponder s); [ | exact HI].
    cbv zeta.
    assert (HJ : InGesture (resize_onPanResponderGrant handle s)).
    { pose proof (GestureInv_grant s (isDraggingRef s) true
                    (Some handle) HI) as HJ.
      destruct s; exact HJ. }
    assert (Hl : imageLayout (resize_onPanResponderGrant handle s)
                 = imageLayout s)
      by (destruct s; reflexivity).
    apply (GestureInv_during (imageLayout s)
             (resize_onPanResponderMove SCREEN_WIDTH SCREEN_HEIGHT
                (imageLayout s) handle) events) in HJ; [ | | exact Hl].
    + revert HJ.
      generalize (during
                    (resize_onPanResponderMove SCREEN_WIDTH SCREEN_HEIGHT
                       (imageLayout s) handle)
                    events (resize_onPanResponderGrant handle s)).
      intros s' HJ.
      pose proof (Inv_release s' (isDraggingRef s') false None HJ) as HR.
      destruct terminated; destruct s'; exact HR.
    + intros dx dy s' HJ' Hl'. split.
      * exact (GestureInv_resize_move _ handle dx dy s' HJ' Hl').
      * unfold resize_onPanResponderMove.
        match goal with
        | |- imageLayout (if ?g then _ else _) = _ => destruct g
        end; [exact Hl' | ].
        rewrite publish_layout. exact Hl'.
Qed.

(** *** Setting the crop box *)

Lemma differs_false (a b : Rect) : differs a b = false -> a =r= b.
Proof.
  unfold differs. rewrite !orb_false_iff, !negb_false_iff.
  intros (((E1 & E2) & E3) & E4).
  repeat split; apply Qeq_bool_eq; assumption.
Qed.

Lemma cropBox_setCropBox (b : Rect) (s : State) :
  cropBox (setCropBox b s) = b.
Proof.
  unfold setCropBox. destruct s as [cb l ds ah dr rr cr af pc]. st.
  destruct (negb dr && negb rr); reflexivity.
Qed.

Lemma dragGesture_layout (l : Layout.t) (events : list GestureEvent)
    (terminated : bool) (s : State) :
  imageLayout (dragGesture SCREEN_WIDTH SCREEN_HEIGHT l events terminated s)
  = imageLayout s.
Proof.
  unfold dragGesture.
  destruct (drag_onStartShouldSetPanResponder s); [ | reflexivity].
  cbv zeta.
  assert (E : forall s', imageLayout (flush (set_isDraggingRef false s'))
                         = imageLayout s').
  { intros s'. rewrite flush_layout. destruct s'; reflexivity. }
  assert (F : imageLayout
                (during
                   (drag_onPanResponderMove SCREEN_WIDTH SCREEN_HEIGHT l)
                   events (drag_onPanResponderGrant s))
              = imageLayout s).
  { rewrite during_layout.
    - destruct s; reflexivity.
    - intros dx dy s'. rewrite drag_onPanResponderMove_eq.
      destruct (isResizingRef s'); [reflexivity | apply publish_layout]. }
  destruct terminated;
    unfold drag_onPanResponderTerminate, drag_onPanResponderRelease;
    rewrite E; exact F.
Qed.

Lemma resizeGesture_layout (l : Layout.t) (handle : Handle)
    (events : list GestureEvent) (terminated : bool) (s : State) :
  imageLayout
    (resizeGesture SCREEN_WIDTH SCREEN_HEIGHT l handle events terminated s)
  = imageLayout s.
Proof.
  unfold resizeGesture.
  destruct (resize_onStartShouldSetPanResponder s); [ | reflexivity].
  cbv zeta.
  assert (E : forall s',
             imageLayout
               (flush (set_activeHandleRef None
                         (set_isResizingRef false s')))
             = imageLayout s').
  { intros s'. rewrite flush_layout. destruct s'; reflexivity. }
  assert (F : imageLayout
                (during (resize_onPanResponderMove SCREEN_WIDTH
                           SCREEN_HEIGHT l handle)
                   events (resize_onPanResponderGrant handle s))
              = imageLayout s).
  { rewrite during_layout.
    - destruct s; reflexivity.
    - intros dx dy s'. unfold resize_onPanResponderMove.
      match goal with
      | |- imageLayout (if ?g then _ else _) = _ => destruct g
      end; [reflexivity | apply publish_layout]. }
  destruct terminated;
    unfold resize_onPanResponderTerminate, resize_onPanResponderRelease;
    rewrite E; exact F.
Qed.

(** *** A drag depends on the last cumulative translation only *)

Lemma Dragging_move (l : Layout.t) (start : Rect)
    (last : option (number * number)) (dx dy : number) (s : State) :
  InDrag l start last s ->
  InDrag l start (Some (dx, dy))
    (drag_onPanResponderMove SCREEN_WIDTH SCREEN_HEIGHT l dx dy s).
Proof.
  intros (H1 & H3 & _). rewrite drag_onPanResponderMove_eq, H3.
  unfold publish, Dragging.
  destruct s as [cb l' ds ah dr rr cr af pc]. st. subst ds.
  destruct af; st; auto.
Qed.

Lemma Dragging_frame (l : Layout.t) (start : Rect)
    (last : option (number * number)) (s : State) :
  InDrag l start last s -> InDrag l start last (animationFrame s).
Proof.
  intros (H1 & H3 & H4). unfold animationFrame, setCropBox, Dragging.
  destruct s as [cb l' ds ah dr rr cr af pc]. st. subst ds rr.
  destruct af as [[ | b] | ]; st.
  - destruct pc as [p | ]; st.
    + destruct (negb dr); st;
        (repeat split; try reflexivity;
         destruct last as [[dx dy] | ]; [ | exact I];
         destruct H4 as [[= ->] | [[=] _]];
         right; repeat split; intros b; discriminate).
    + repeat split; try reflexivity.
      destruct last as [[dx dy] | ]; [ | exact I].
      destruct H4 as [[=] | (_ & E & _)].
      right; repeat split; [exact E | intros b; discriminate].
  - destruct (negb dr); st;
      (repeat split; try reflexivity;
       destruct last as [[dx dy] | ]; [ | exact I];
       destruct H4 as [E | (_ & _ & Hno)];
       [left; exact E | exfalso; exact (Hno b eq_refl)]).
  - repeat split; try reflexivity. exact H4.
Qed.

Lemma Dragging_during (l : Layout.t) (start : Rect)
    (events : list GestureEvent) (last : option (number * number))
    (s : State) :
  InDrag l start last s ->
  InDrag l start (lastMove events last)
    (during (drag_onPanResponderMove SCREEN_WIDTH SCREEN_HEIGHT l) events
       s).
Proof.
  revert last s. unfold during, lastMove.
  induction events as [ | e events IH]; intros last s HD; cbn [fold_left].
  - exact HD.
  - apply IH. destruct e as [dx dy | ].
    + exact (Dragging_move l start last dx dy s HD).
    + exact (Dragging_frame l start last s HD).
Qed.

(** The box committed by a drag, released or interrupted, is the box
    computed by the responder, with the layout it read, from the box at the
    grant and the last cumulative translation. *)
Lemma dragGesture_commits (l : Layout.t) (s : State)
    (events : list GestureEvent) (terminated : bool) (dx dy : number) :
  isResizingRef s = false ->
  lastMove events None = Some (dx, dy) ->
  cropBox (dragGesture SCREEN_WIDTH SCREEN_HEIGHT l events terminated s)
  = dragged l (cropBoxRef s) dx dy.
Proof.
  intros Hres Hlast. unfold dragGesture, drag_onStartShouldSetPanResponder.
  rewrite Hres. cbn [negb]. cbv zeta.
  assert (HD : InDrag l (cropBoxRef s) None (drag_onPanResponderGrant s)).
  { unfold Dragging, drag_onPanResponderGrant.
    destruct s as [cb l0 ds ah dr rr cr af pc]. st.
    rewrite Rect_eta. auto. }
  apply (Dragging_during _ _ events) in HD. rewrite Hlast in HD.
  revert HD.
  generalize (during (drag_onPanResponderMove SCREEN_WIDTH SCREEN_HEIGHT l)
                events (drag_onPanResponderGrant s)).
  intros s' (H1 & H3 & H4).
  assert (E : cropBox (flush (set_isDraggingRef false s'))
              = dragged l (cropBoxRef s) dx dy).
  { unfold flush, setCropBox.
    destruct s' as [cb l0 ds ah dr rr cr af pc]. st. subst rr.
    destruct H4 as [-> | (-> & E & _)]; st; [reflexivity | exact E]. }
  destruct terminated; exact E.
Qed.

End Preview.

(** ** The clamps in binary64 *)

Ltac pst :=
  cbn [PreviewScreen.cropBox PreviewScreen.imageLayout
       PreviewScreen.dragStartRef PreviewScreen.activeHandleRef
       PreviewScreen.isDraggingRef PreviewScreen.isResizingRef
       PreviewScreen.cropBoxRef PreviewScreen.animationFrameRef
       PreviewScreen.pendingCropRef
       PreviewScreen.set_cropBox PreviewScreen.set_imageLayout
       PreviewScreen.set_dragStartRef PreviewScreen.set_activeHandleRef
       PreviewScreen.set_isDraggingRef PreviewScreen.set_isResizingRef
       PreviewScreen.set_cropBoxRef PreviewScreen.set_animationFrameRef
       PreviewScreen.set_pendingCropRef
       x y width height negb andb orb] in *.

Section Overlay64.

Import AutoDetectionBox.

Variables containerWidth containerHeight : number.

Abbreviation clampBox64 :=
  (F64.AutoDetectionBox.clampBox containerWidth containerHeight).
Abbreviation panned64 := (pannedBox64 containerWidth containerHeight).

Lemma ratios64 :
  0 <= F64.AutoDetectionBox.MAX_BOX_WIDTH_RATIO <= 1
  /\ 0 <= F64.AutoDetectionBox.MAX_BOX_HEIGHT_RATIO <= 1.
Proof. repeat split; vm_compute; intro E; discriminate E. Qed.

(** The clamp enforces the minimum size and a non-negative origin. *)
Lemma clampBox64_min_size (bx by_ bw bh : number) :
  let r := clampBox64 bx by_ bw bh in
  F64.AutoDetectionBox.MIN_BOX_SIZE <= width r
  /\ F64.AutoDetectionBox.MIN_BOX_SIZE <= height r
  /\ 0 <= x r /\ 0 <= y r.
Proof.
  cbv zeta. unfold F64.AutoDetectionBox.clampBox; cbn [x y width height].
  repeat split; minmax; lra.
Qed.

(** The largest size the clamp returns fits a container that can hold the
    minimum size. *)
Lemma maximum_le (c ratio : number) :
  Binary64.double c -> F64.AutoDetectionBox.MIN_BOX_SIZE <= c ->
  0 <= ratio <= 1 ->
  Qmax F64.AutoDetectionBox.MIN_BOX_SIZE (Binary64.mul c ratio) <= c.
Proof.
  intros Dc Hc Hr. unfold F64.AutoDetectionBox.MIN_BOX_SIZE in *.
  assert (Hm : 0 <= Binary64.mul c ratio <= c)
    by (apply mul_ratio_le; [exact Dc | lra | exact Hr]).
  minmax; lra.
Qed.

(** A position clamped for a size [c] is clamped for every smaller size
    [w]: the far edge of a box of size [w] exceeds the container by at most
    one rounding. *)
Lemma clamped_origin (W c w p v : number) :
  w <= c -> c <= W ->
  p = Math.max 0 (Math.min v (Binary64.sub W c)) ->
  0 <= p /\ p <= Binary64.sub W w
  /\ p + w <= W + Binary64.ulpError (W - w).
Proof.
  intros Hw Hc ->.
  assert (S0 : 0 <= Binary64.sub W c) by (apply sub_nonneg; exact Hc).
  assert (S1 : Binary64.sub W c <= Binary64.sub W w)
    by (apply nearest_le; lra).
  assert (A : 0 <= Math.max 0 (Math.min v (Binary64.sub W c))
              <= Binary64.sub W w) by (split; minmax; lra).
  split; [apply A | ]. split; [apply A | ].
  apply far_edge; [lra | apply A].
Qed.

(** The clamped box is inside a container that can hold the minimum size,
    up to the rounding of the two differences. *)
Lemma clampBox64_inside (bx by_ bw bh : number) :
  Binary64.double containerWidth -> Binary64.double containerHeight ->
  F64.AutoDetectionBox.MIN_BOX_SIZE <= containerWidth ->
  F64.AutoDetectionBox.MIN_BOX_SIZE <= containerHeight ->
  insideRounded (clampBox64 bx by_ bw bh) containerWidth containerHeight.
Proof.
  intros DW DH HW HH. destruct ratios64 as [Rw Rh].
  pose proof (maximum_le _ _ DW HW Rw) as Mw.
  pose proof (maximum_le _ _ DH HH Rh) as Mh.
  unfold insideRounded, F64.AutoDetectionBox.clampBox;
    cbn [x y width height].
  set (cw := Math.max _ (Math.min bw _)).
  set (ch := Math.max _ (Math.min bh _)).
  assert (Cw : cw <= containerWidth) by (subst cw; minmax; lra).
  assert (Ch : ch <= containerHeight) by (subst ch; minmax; lra).
  destruct (clamped_origin containerWidth cw cw _ bx (Qle_refl _) Cw
              eq_refl) as (X0 & X1 & X2).
  destruct (clamped_origin containerHeight ch ch _ by_ (Qle_refl _) Ch
              eq_refl) as (Y0 & Y1 & Y2).
  repeat split; assumption.
Qed.

(** A resize update installs the clamped rectangle. *)
Lemma corner_onUpdate64_box (corner : Corner) (tx ty : number) (s : Shared) :
  exists bx by_ bw bh,
    box (F64.AutoDetectionBox.corner_onUpdate containerWidth
           containerHeight corner tx ty s)
    = let r := clampBox64 bx by_ bw bh in
      mkRect (x r) (y r) (width r) (height r).
Proof.
  unfold F64.AutoDetectionBox.corner_onUpdate.
  destruct corner; cbv beta iota zeta; unfold box;
    cbn [boxLeft boxTop boxWidth boxHeight]; do 4 eexists; reflexivity.
Qed.

Lemma cornerGesture64_commits
    (corner : Corner) (events : list (number * number))
    (e : number * number) (s : Shared) :
  exists bx by_ bw bh,
    snd (F64.AutoDetectionBox.cornerGesture containerWidth containerHeight
           corner (events ++ [e]) s)
    = [onInteractionStart; onInteractionEnd;
       onBoxChange
         (let r := clampBox64 bx by_ bw bh in
          mkRect (x r) (y r) (width r) (height r))].
Proof.
  unfold F64.AutoDetectionBox.cornerGesture.
  cbn [corner_onStart gesture_onEnd snd app].
  rewrite updates_snoc.
  destruct (corner_onUpdate64_box corner (fst e) (snd e)
              (updates (F64.AutoDetectionBox.corner_onUpdate containerWidth
                          containerHeight corner) events
                 (mkShared (boxLeft s) (boxTop s) (boxWidth s) (boxHeight s)
                    (boxLeft s) (boxTop s) (boxWidth s) (boxHeight s) true)))
    as (bx & by_ & bw & bh & E).
  exists bx, by_, bw, bh. rewrite E. reflexivity.
Qed.

Lemma pan_onUpdate64_start (tx ty : number) (s : Shared) :
  let s' :=
    F64.AutoDetectionBox.pan_onUpdate containerWidth containerHeight tx ty
      s in
  startLeft s' = startLeft s /\ startTop s' = startTop s
  /\ startWidth s' = startWidth s /\ startHeight s' = startHeight s.
Proof. repeat split. Qed.

Lemma pan_updates64_size (events : list (number * number)) (s : Shared) :
  let s' :=
    updates (F64.AutoDetectionBox.pan_onUpdate containerWidth
               containerHeight) events s in
  boxWidth s' = boxWidth s /\ boxHeight s' = boxHeight s.
Proof.
  cbv zeta. revert s. unfold updates.
  induction events as [ | e events IH]; intros s; cbn [fold_left].
  - split; reflexivity.
  - destruct (IH (F64.AutoDetectionBox.pan_onUpdate containerWidth
                    containerHeight (fst e) (snd e) s)) as [E1 E2].
    rewrite E1, E2. split; reflexivity.
Qed.

(** The box committed by a drag is a function of the box at the start of
    the gesture and of the last cumulative translation alone. *)
Lemma panGesture64_commits
    (events : list (number * number)) (tx ty : number) (s : Shared) :
  snd (F64.AutoDetectionBox.panGesture containerWidth containerHeight
         (events ++ [(tx, ty)]) s)
  = [onInteractionStart; onInteractionEnd;
     onBoxChange (panned64 (box s) tx ty)].
Proof.
  unfold F64.AutoDetectionBox.panGesture.
  cbn [pan_onStart gesture_onEnd snd app].
  rewrite updates_snoc. cbn [fst snd].
  set (s1 := mkShared _ _ _ _ _ _ _ _ true).
  destruct (updates_start _ events s1 pan_onUpdate64_start)
    as (E1 & E2 & _ & _).
  destruct (pan_updates64_size events s1) as [E3 E4].
  set (s2 := updates _ events s1) in *.
  unfold F64.AutoDetectionBox.pan_onUpdate, box, pannedBox64.
  cbn [boxLeft boxTop boxWidth boxHeight x y width height].
  rewrite E1, E2, E3, E4. reflexivity.
Qed.

(** The dragged box keeps its size and a non-negative origin; it is inside
    the container, up to the rounding of the two differences, when the
    container can hold the minimum size and the box is no larger than the
    largest size of the clamp. *)
Lemma pannedBox64_bounds (start : Rect) (tx ty : number) :
  let r := panned64 start tx ty in
  width r = width start /\ height r = height start
  /\ 0 <= x r /\ 0 <= y r.
Proof.
  cbv zeta. unfold pannedBox64, F64.AutoDetectionBox.clampBox;
    cbn [x y width height].
  repeat split; minmax; lra.
Qed.

Lemma pannedBox64_inside (start : Rect) (tx ty : number) :
  Binary64.double containerWidth -> Binary64.double containerHeight ->
  F64.AutoDetectionBox.MIN_BOX_SIZE <= containerWidth ->
  F64.AutoDetectionBox.MIN_BOX_SIZE <= containerHeight ->
  withinMaximum containerWidth containerHeight start ->
  insideRounded (panned64 start tx ty) containerWidth containerHeight.
Proof.
  intros DW DH HW HH [Mw Mh]. destruct ratios64 as [Rw Rh].
  pose proof (maximum_le _ _ DW HW Rw) as Lw.
  pose proof (maximum_le _ _ DH HH Rh) as Lh.
  unfold insideRounded, pannedBox64, F64.AutoDetectionBox.clampBox;
    cbn [x y width height].
  set (cw := Math.max _ (Math.min (width start) _)).
  set (ch := Math.max _ (Math.min (height start) _)).
  assert (Cw : width start <= cw /\ cw <= containerWidth)
    by (subst cw; split; minmax; lra).
  assert (Ch : height start <= ch /\ ch <= containerHeight)
    by (subst ch; split; minmax; lra).
  destruct (clamped_origin containerWidth cw (width start) _
              (Binary64.add (x start) tx) (proj1 Cw) (proj2 Cw) eq_refl)
    as (X0 & X1 & X2).
  destruct (clamped_origin containerHeight ch (height start) _
              (Binary64.add (y start) ty) (proj1 Ch) (proj2 Ch) eq_refl)
    as (Y0 & Y1 & Y2).
  repeat split; assumption.
Qed.

End Overlay64.

Section Preview64.

Import PreviewScreen.

Variables SCREEN_WIDTH SCREEN_HEIGHT : number.

Abbreviation cw64 l := (F64.PreviewScreen.containerWidth SCREEN_WIDTH l).
Abbreviation ch64 l := (F64.PreviewScreen.containerHeight SCREEN_HEIGHT l).
Abbreviation constrain64 :=
  (F64.PreviewScreen.constrainCropBox SCREEN_WIDTH SCREEN_HEIGHT).
Abbreviation dragged64 := (draggedBox64 SCREEN_WIDTH SCREEN_HEIGHT).
Abbreviation resized64 :=
  (F64.PreviewScreen.resizedBox SCREEN_WIDTH SCREEN_HEIGHT).
Abbreviation dragMove64 :=
  (F64.PreviewScreen.drag_onPanResponderMove SCREEN_WIDTH SCREEN_HEIGHT).
Abbreviation resizeMove64 :=
  (F64.PreviewScreen.resize_onPanResponderMove SCREEN_WIDTH SCREEN_HEIGHT).
Abbreviation InDrag64 := (Dragging64 SCREEN_WIDTH SCREEN_HEIGHT).

(** An origin clamped between 0 and the rounded difference [W - w]. *)
Lemma clamp_origin (W w v : number) :
  w <= W ->
  let p := clamp v 0 (Binary64.sub W w) in
  0 <= p /\ p <= Binary64.sub W w
  /\ p + w <= W + Binary64.ulpError (W - w).
Proof.
  intros Hw p. subst p.
  assert (S0 : 0 <= Binary64.sub W w) by (apply sub_nonneg; exact Hw).
  assert (A : 0 <= clamp v 0 (Binary64.sub W w) <= Binary64.sub W w)
    by (unfold clamp; split; minmax; lra).
  split; [apply A | ]. split; [apply A | ].
  apply far_edge; [exact Hw | apply A].
Qed.

(** The re-clamp enforces no minimum size, and keeps the box inside the
    container up to the rounding of the two differences. *)
Lemma constrainCropBox64_size (l : Layout.t) (b : Rect) :
  width (constrain64 l b) == Qmin (width b) (cw64 l)
  /\ height (constrain64 l b) == Qmin (height b) (ch64 l).
Proof. split; reflexivity. Qed.

Lemma constrainCropBox64_inside (l : Layout.t) (b : Rect) :
  insideRounded (constrain64 l b) (cw64 l) (ch64 l).
Proof.
  unfold insideRounded, F64.PreviewScreen.constrainCropBox;
    cbn [x y width height].
  generalize (cw64 l) (ch64 l). intros W H.
  assert (Hw : Math.min (width b) W <= W) by (minmax; lra).
  assert (Hh : Math.min (height b) H <= H) by (minmax; lra).
  destruct (clamp_origin W _ (x b) Hw) as (X0 & X1 & X2).
  destruct (clamp_origin H _ (y b) Hh) as (Y0 & Y1 & Y2).
  repeat split; assumption.
Qed.

Lemma insideRounded_Rect_eq (a b : Rect) (W H : number) :
  a =r= b -> insideRounded a W H -> insideRounded b W H.
Proof.
  unfold insideRounded.
  intros (E1 & E2 & E3 & E4) (H1 & H2 & H3 & H4 & H5 & H6).
  unfold Binary64.ulpError in *.
  rewrite <- E1, <- E2, <- E3, <- E4. auto 10.
Qed.

(** When the layout event changes the width or the height of the container
    to positive values, the crop box ends inside the new container, up to
    the rounding of the two differences. *)
Lemma onLayout64_inside (layout : Layout.t) (s : State) :
  0 < Layout.width layout -> 0 < Layout.height layout ->
  ~ (Layout.width (imageLayout s) == Layout.width layout
     /\ Layout.height (imageLayout s) == Layout.height layout) ->
  insideRounded
    (cropBox (F64.PreviewScreen.onLayout SCREEN_WIDTH SCREEN_HEIGHT layout
                s))
    (cw64 layout) (ch64 layout).
Proof.
  intros Hw Hh Hchanged. unfold F64.PreviewScreen.onLayout.
  assert (G : negb (Qeq_bool (Layout.width (imageLayout s))
                      (Layout.width layout))
              || negb (Qeq_bool (Layout.height (imageLayout s))
                         (Layout.height layout)) = true).
  { destruct (Qeq_bool (Layout.width (imageLayout s)) (Layout.width layout))
      eqn:E1; [ | reflexivity].
    destruct (Qeq_bool (Layout.height (imageLayout s))
                (Layout.height layout)) eqn:E2; [ | reflexivity].
    exfalso. apply Hchanged. split; apply Qeq_bool_eq; assumption. }
  cbv zeta. rewrite G.
  apply gtb_true in Hw, Hh.
  destruct s as [cb l ds ah dr rr cr af pc]. pst. rewrite Hw, Hh. pst.
  pose proof (constrainCropBox64_inside layout cb) as Hin.
  destruct (differs (constrain64 layout cb) cb) eqn:D.
  - rewrite cropBox_setCropBox. exact Hin.
  - pst. apply differs_false in D.
    exact (insideRounded_Rect_eq _ _ _ _ D Hin).
Qed.

(** *** Boxes of the machine *)

Section BoxInvariant.

Variable P : Rect -> Prop.

Abbreviation InGestureP := (GestureBoxes P).

Lemma Boxes_setCropBox (b : Rect) (s : State) :
  InGestureP s -> P b -> InGestureP (setCropBox b s).
Proof.
  intros [(H1 & H2 & H3 & H4) H5] Hb. unfold setCropBox.
  destruct s as [cb l ds ah dr rr cr af pc]. pst.
  destruct (negb dr && negb rr); unfold GestureBoxes, Boxes; pst; auto 10.
Qed.

Lemma Boxes_publish (b : Rect) (s : State) :
  InGestureP s -> P b -> InGestureP (publish b s).
Proof.
  intros [(H1 & H2 & H3 & H4) H5] Hb. unfold publish.
  destruct s as [cb l ds ah dr rr cr af pc]. pst.
  destruct af as [f | ]; unfold GestureBoxes, Boxes; pst;
    (split; [split; [assumption | split; [assumption | split]] | assumption]).
  - intros p [= <-]. assumption.
  - assumption.
  - intros p [= <-]. assumption.
  - intros b' [=].
Qed.

Lemma Boxes_flush (s : State) : InGestureP s -> InGestureP (flush s).
Proof.
  intros HJ. unfold flush.
  destruct (pendingCropRef s) as [p | ] eqn:E; [ | exact HJ].
  assert (Hp : P p) by exact (proj1 (proj2 (proj2 (proj1 HJ))) p E).
  pose proof (Boxes_setCropBox p s HJ Hp) as [(H1 & H2 & H3 & H4) H5].
  revert H1 H2 H3 H4 H5. generalize (setCropBox p s).
  intros [cb l ds ah dr rr cr af pc]. unfold GestureBoxes, Boxes. pst.
  intros H1 H2 H3 H4 H5.
  split; [split; [assumption | split; [assumption | split]] | assumption].
  - intros p' [=].
  - assumption.
Qed.

Lemma Boxes_animationFrame (s : State) :
  InGestureP s -> InGestureP (animationFrame s).
Proof.
  intros HJ. unfold animationFrame.
  destruct (animationFrameRef s) as [[ | b] | ] eqn:E; [ | | exact HJ].
  - apply Boxes_flush in HJ. fold (flush s).
    revert HJ. generalize (flush s).
    intros [cb l ds ah dr rr cr af pc]. unfold GestureBoxes, Boxes. pst.
    intros [(H1 & H2 & H3 & H4) H5].
    split; [split; [assumption | split; [assumption | split]] | assumption].
    + assumption.
    + intros b' [=].
  - assert (Hb : P b) by exact (proj2 (proj2 (proj2 (proj1 HJ))) b E).
    assert (HJ' : InGestureP (set_cropBoxRef b s)).
    { destruct HJ as [(H1 & H2 & H3 & H4) H5].
      destruct s as [cb l ds ah dr rr cr af pc].
      unfold GestureBoxes, Boxes in *. pst. auto 10. }
    pose proof (Boxes_setCropBox b _ HJ' Hb) as HJ''. revert HJ''.
    generalize (setCropBox b (set_cropBoxRef b s)).
    intros [cb l ds ah dr rr cr af pc]. unfold GestureBoxes, Boxes. pst.
    intros [(H1 & H2 & H3 & H4) H5].
    split; [split; [assumption | split; [assumption | split]] | assumption].
    + assumption.
    + intros b' [=].
Qed.

Lemma Boxes_during
    (onMove : number -> number -> State -> State)
    (events : list GestureEvent) (s : State) :
  (forall dx dy s, InGestureP s -> InGestureP (onMove dx dy s)) ->
  InGestureP s -> InGestureP (during onMove events s).
Proof.
  intros Hmove. revert s. unfold during.
  induction events as [ | e events IH]; intros s HJ; cbn [fold_left].
  - exact HJ.
  - destruct e as [dx dy | ].
    + exact (IH _ (Hmove dx dy s HJ)).
    + exact (IH _ (Boxes_animationFrame s HJ)).
Qed.

Lemma Boxes_grant (s : State) (dragging resizing : bool)
    (handle : option Handle) :
  Boxes P s ->
  InGestureP
    (set_dragStartRef
       (mkRect (x (cropBoxRef s)) (y (cropBoxRef s))
               (width (cropBoxRef s)) (height (cropBoxRef s)))
       (set_activeHandleRef handle
          (set_isResizingRef resizing (set_isDraggingRef dragging s)))).
Proof.
  intros (H1 & H2 & H3 & H4). rewrite Rect_eta.
  destruct s as [cb l ds ah dr rr cr af pc]. unfold GestureBoxes, Boxes. pst.
  auto 10.
Qed.

Lemma Boxes_release (s : State) (dragging resizing : bool)
    (handle : option Handle) :
  InGestureP s ->
  Boxes P (flush (set_activeHandleRef handle
                    (set_isResizingRef resizing
                       (set_isDraggingRef dragging s)))).
Proof.
  intros HJ.
  apply (Boxes_flush
           (set_activeHandleRef handle
              (set_isResizingRef resizing (set_isDraggingRef dragging s)))).
  destruct HJ as [(H1 & H2 & H3 & H4) H5].
  destruct s as [cb l ds ah dr rr cr af pc]. unfold GestureBoxes, Boxes. pst.
  auto 10.
Qed.

End BoxInvariant.

(** The boxes the two move handlers compute are at least 1 x 1 with a
    non-negative origin when the start box is, whatever the layout the
    responder read. *)
Lemma draggedBox64_atLeastUnit
    (l : Layout.t) (start : Rect) (dx dy : number) :
  atLeastUnit start -> atLeastUnit (dragged64 l start dx dy).
Proof.
  unfold atLeastUnit, draggedBox64, clamp; cbn [x y width height].
  intros (Hw & Hh & Hx & Hy). repeat split; try assumption; minmax; lra.
Qed.

Lemma resizedBox64_atLeastUnit
    (handle : Handle) (l : Layout.t) (start : Rect) (dx dy : number) :
  atLeastUnit start -> atLeastUnit (resized64 handle l start dx dy).
Proof.
  unfold atLeastUnit, F64.PreviewScreen.resizedBox, clamp.
  intros (Hw & Hh & Hx & Hy).
  destruct handle; cbv zeta.
  all: repeat match goal with
       | |- context [geb ?a ?b && geb ?c ?d] =>
           let G1 := fresh "G" in
           let G2 := fresh "G" in
           destruct (geb a b) eqn:G1;
           [apply geb_true in G1 | apply geb_false in G1];
           (destruct (geb c d) eqn:G2;
            [apply geb_true in G2 | apply geb_false in G2]);
           cbn [andb]; cbv beta iota
       end.
  all: cbn [x y width height].
  all: repeat split; try assumption; minmax; lra.
Qed.

Lemma dragMove64_eq (l : Layout.t) (dx dy : number) (s : State) :
  dragMove64 l dx dy s
  = if isResizingRef s then s
    else publish (dragged64 l (dragStartRef s) dx dy) s.
Proof. reflexivity. Qed.

(** Every drag and every resize, released or interrupted, with any moves
    and frames in between and whatever the layout the responder read, keeps
    the boxes of the machine at least 1 x 1 with a non-negative origin. *)
Lemma gestures64_keep_atLeastUnit
    (l : Layout.t) (s : State) (events : list GestureEvent)
    (terminated : bool) :
  Boxes atLeastUnit s ->
  Boxes atLeastUnit
    (F64.PreviewScreen.dragGesture SCREEN_WIDTH SCREEN_HEIGHT l events
       terminated s)
  /\ (forall handle,
        Boxes atLeastUnit
          (F64.PreviewScreen.resizeGesture SCREEN_WIDTH SCREEN_HEIGHT l
             handle events terminated s)).
Proof.
  intros HI. split; [ | intros handle].
  - unfold F64.PreviewScreen.dragGesture.
    destruct (drag_onStartShouldSetPanResponder s); [ | exact HI].
    cbv zeta.
    assert (HJ : GestureBoxes atLeastUnit (drag_onPanResponderGrant s)).
    { pose proof (Boxes_grant atLeastUnit s true (isResizingRef s)
                    (activeHandleRef s) HI) as HJ.
      destruct s; exact HJ. }
    apply (Boxes_during atLeastUnit (dragMove64 l) events) in HJ.
    + revert HJ.
      generalize (during (dragMove64 l) events (drag_onPanResponderGrant s)).
      intros s' HJ.
      pose proof (Boxes_release atLeastUnit s' false (isResizingRef s')
                    (activeHandleRef s') HJ) as HR.
      destruct terminated; destruct s'; exact HR.
    + intros dx dy s' HJ'. rewrite dragMove64_eq.
      destruct (isResizingRef s'); [exact HJ' | ].
      apply Boxes_publish; [exact HJ' | ].
      apply draggedBox64_atLeastUnit. exact (proj2 HJ').
  - unfold F64.PreviewScreen.resizeGesture.
    destruct (resize_onStartShouldSetPanResponder s); [ | exact HI].
    cbv zeta.
    assert (HJ : GestureBoxes atLeastUnit
                   (resize_onPanResponderGrant handle s)).
    { pose proof (Boxes_grant atLeastUnit s (isDraggingRef s) true
                    (Some handle) HI) as HJ.
      destruct s; exact HJ. }
    apply (Boxes_during atLeastUnit (resizeMove64 l handle) events) in HJ.
    + revert HJ.
      generalize (during (resizeMove64 l handle) events
                    (resize_onPanResponderGrant handle s)).
      intros s' HJ.
      pose proof (Boxes_release atLeastUnit s' (isDraggingRef s') false
                    None HJ) as HR.
      destruct terminated; destruct s'; exact HR.
    + intros dx dy s' HJ'.
      unfold F64.PreviewScreen.resize_onPanResponderMove.
      match goal with
      | |- GestureBoxes _ (if ?g then _ else _) => destruct g
      end; [exact HJ' | ].
      apply Boxes_publish; [exact HJ' | ].
      apply resizedBox64_atLeastUnit. exact (proj2 HJ').
Qed.

(** *** The box a drag commits *)

Lemma Dragging64_move (l : Layout.t) (start : Rect)
    (last : option (number * number)) (dx dy : number) (s : State) :
  InDrag64 l start last s ->
  InDrag64 l start (Some (dx, dy)) (dragMove64 l dx dy s).
Proof.
  intros (H1 & H3 & _). rewrite dragMove64_eq, H3.
  unfold publish, Dragging64.
  destruct s as [cb l' ds ah dr rr cr af pc]. pst. subst ds.
  destruct af; pst; auto.
Qed.

Lemma Dragging64_frame (l : Layout.t) (start : Rect)
    (last : option (number * number)) (s : State) :
  InDrag64 l start last s -> InDrag64 l start last (animationFrame s).
Proof.
  intros (H1 & H3 & H4). unfold animationFrame, setCropBox, Dragging64.
  destruct s as [cb l' ds ah dr rr cr af pc]. pst. subst ds rr.
  destruct af as [[ | b] | ]; pst.
  - destruct pc as [p | ]; pst.
    + destruct (negb dr); pst;
        (repeat split; try reflexivity;
         destruct last as [[dx dy] | ]; [ | exact I];
         destruct H4 as [[= ->] | [[=] _]];
         right; repeat split; intros b; discriminate).
    + repeat split; try reflexivity.
      destruct last as [[dx dy] | ]; [ | exact I].
      destruct H4 as [[=] | (_ & E & _)].
      right; repeat split; [exact E | intros b; discriminate].
  - destruct (negb dr); pst;
      (repeat split; try reflexivity;
       destruct last as [[dx dy] | ]; [ | exact I];
       destruct H4 as [E | (_ & _ & Hno)];
       [left; exact E | exfalso; exact (Hno b eq_refl)]).
  - repeat split; try reflexivity. exact H4.
Qed.

Lemma Dragging64_during (l : Layout.t) (start : Rect)
    (events : list GestureEvent) (last : option (number * number))
    (s : State) :
  InDrag64 l start last s ->
  InDrag64 l start (lastMove events last) (during (dragMove64 l) events s).
Proof.
  revert last s. unfold during, lastMove.
  induction events as [ | e events IH]; intros last s HD; cbn [fold_left].
  - exact HD.
  - apply IH. destruct e as [dx dy | ].
    + exact (Dragging64_move l start last dx dy s HD).
    + exact (Dragging64_frame l start last s HD).
Qed.

Lemma dragGesture64_commits (l : Layout.t) (s : State)
    (events : list GestureEvent) (terminated : bool) (dx dy : number) :
  isResizingRef s = false ->
  lastMove events None = Some (dx, dy) ->
  cropBox (F64.PreviewScreen.dragGesture SCREEN_WIDTH SCREEN_HEIGHT l events
             terminated s)
  = dragged64 l (cropBoxRef s) dx dy.
Proof.
  intros Hres Hlast.
  unfold F64.PreviewScreen.dragGesture, drag_onStartShouldSetPanResponder.
  rewrite Hres. cbn [negb]. cbv zeta.
  assert (HD : InDrag64 l (cropBoxRef s) None (drag_onPanResponderGrant s)).
  { unfold Dragging64, drag_onPanResponderGrant.
    destruct s as [cb l0 ds ah dr rr cr af pc]. pst.
    rewrite Rect_eta. auto. }
  apply (Dragging64_during _ _ events) in HD. rewrite Hlast in HD.
  revert HD.
  generalize (during (dragMove64 l) events (drag_onPanResponderGrant s)).
  intros s' (H1 & H3 & H4).
  assert (E : cropBox (flush (set_isDraggingRef false s'))
              = dragged64 l (cropBoxRef s) dx dy).
  { unfold flush, setCropBox.
    destruct s' as [cb l0 ds ah dr rr cr af pc]. pst. subst rr.
    destruct H4 as [-> | (-> & E & _)]; pst; [reflexivity | exact E]. }
  destruct terminated; exact E.
Qed.

(** The dragged box is inside the container of the layout the responder
    read, up to the rounding of the two differences, when the box fits in
    that container. *)
Lemma draggedBox64_inside (l : Layout.t) (start : Rect) (dx dy : number) :
  width start <= cw64 l -> height start <= ch64 l ->
  insideRounded (dragged64 l start dx dy) (cw64 l) (ch64 l).
Proof.
  unfold insideRounded, draggedBox64; cbn [x y width height].
  generalize (cw64 l) (ch64 l). intros W H Hw Hh.
  destruct (clamp_origin W _ (Binary64.add (x start) dx) Hw)
    as (X0 & X1 & X2).
  destruct (clamp_origin H _ (Binary64.add (y start) dy) Hh)
    as (Y0 & Y1 & Y2).
  repeat split; assumption.
Qed.

End Preview64.

Section Resize64.

Import PreviewScreen.

Variables SCREEN_WIDTH SCREEN_HEIGHT : number.

Abbreviation cw64 l := (F64.PreviewScreen.containerWidth SCREEN_WIDTH l).
Abbreviation ch64 l := (F64.PreviewScreen.containerHeight SCREEN_HEIGHT l).
Abbreviation resized64 :=
  (F64.PreviewScreen.resizedBox SCREEN_WIDTH SCREEN_HEIGHT).
Abbreviation resizeMove64 :=
  (F64.PreviewScreen.resize_onPanResponderMove SCREEN_WIDTH SCREEN_HEIGHT).
Abbreviation InResize64 := (Resizing64 SCREEN_WIDTH SCREEN_HEIGHT).

Lemma Handle_eqb_refl (h : Handle) : Handle_eqb h h = true.
Proof. destruct h; reflexivity. Qed.

Lemma Resizing64_move (handle : Handle) (l : Layout.t) (start : Rect)
    (last : option (number * number)) (dx dy : number) (s : State) :
  InResize64 handle l start last s ->
  InResize64 handle l start (Some (dx, dy)) (resizeMove64 l handle dx dy s).
Proof.
  intros (H1 & H3 & H4 & H5 & _).
  unfold F64.PreviewScreen.resize_onPanResponderMove.
  rewrite H3, H4, H5, Handle_eqb_refl. cbn [negb orb].
  unfold publish, Resizing64.
  destruct s as [cb l' ds ah dr rr cr af pc]. pst. subst ds.
  destruct af; pst; auto 10.
Qed.

Lemma Resizing64_frame (handle : Handle) (l : Layout.t) (start : Rect)
    (last : option (number * number)) (s : State) :
  InResize64 handle l start last s ->
  InResize64 handle l start last (animationFrame s).
Proof.
  intros (H1 & H3 & H4 & H5 & H6).
  unfold animationFrame, setCropBox, Resizing64.
  destruct s as [cb l' ds ah dr rr cr af pc]. pst. subst ds dr rr ah.
  destruct af as [[ | b] | ]; pst.
  - destruct pc as [p | ]; pst.
    + do 4 (split; [reflexivity | ]).
      destruct last as [[dx dy] | ]; [ | exact I].
      destruct H6 as [[= ->] | [[=] _]].
      right; repeat split; intros b; discriminate.
    + do 4 (split; [reflexivity | ]).
      destruct last as [[dx dy] | ]; [ | exact I].
      destruct H6 as [[=] | (_ & E & _)].
      right; repeat split; [exact E | intros b; discriminate].
  - do 4 (split; [reflexivity | ]).
    destruct last as [[dx dy] | ]; [ | exact I].
    destruct H6 as [E | (_ & _ & Hno)];
      [left; exact E | exfalso; exact (Hno b eq_refl)].
  - do 4 (split; [reflexivity | ]). exact H6.
Qed.

Lemma Resizing64_during (handle : Handle) (l : Layout.t) (start : Rect)
    (events : list GestureEvent) (last : option (number * number))
    (s : State) :
  InResize64 handle l start last s ->
  InResize64 handle l start (lastMove events last)
    (during (resizeMove64 l handle) events s).
Proof.
  revert last s. unfold during, lastMove.
  induction events as [ | e events IH]; intros last s HD; cbn [fold_left].
  - exact HD.
  - apply IH. destruct e as [dx dy | ].
    + exact (Resizing64_move handle l start last dx dy s HD).
    + exact (Resizing64_frame handle l start last s HD).
Qed.

(** The box committed by a resize, released or interrupted, is the box
    computed by the responder, with the layout it read, from the box at the
    grant and the last cumulative translation. *)
Lemma resizeGesture64_commits (l : Layout.t) (handle : Handle) (s : State)
    (events : list GestureEvent) (terminated : bool) (dx dy : number) :
  isDraggingRef s = false ->
  lastMove events None = Some (dx, dy) ->
  cropBox (F64.PreviewScreen.resizeGesture SCREEN_WIDTH SCREEN_HEIGHT l
             handle events terminated s)
  = resized64 handle l (cropBoxRef s) dx dy.
Proof.
  intros Hdrag Hlast.
  unfold F64.PreviewScreen.resizeGesture,
    resize_onStartShouldSetPanResponder.
  rewrite Hdrag. cbn [negb]. cbv zeta.
  assert (HD : InResize64 handle l (cropBoxRef s) None
                 (resize_onPanResponderGrant handle s)).
  { unfold Resizing64, resize_onPanResponderGrant.
    destruct s as [cb l0 ds ah dr rr cr af pc]. pst.
    rewrite Rect_eta. auto 10. }
  apply (Resizing64_during _ _ _ events) in HD. rewrite Hlast in HD.
  revert HD.
  generalize (during (resizeMove64 l handle) events
                (resize_onPanResponderGrant handle s)).
  intros s' (H1 & H3 & H4 & H5 & H6).
  assert (E : cropBox (flush (set_activeHandleRef None
                                (set_isResizingRef false s')))
              = resized64 handle l (cropBoxRef s) dx dy).
  { unfold flush, setCropBox.
    destruct s' as [cb l0 ds ah dr rr cr af pc]. pst. subst dr.
    destruct H6 as [-> | (-> & E & _)]; pst; auto. }
  destruct terminated; exact E.
Qed.

(** An edge moved by [d] on one side and the size reduced by [d] on the
    other: the far edge stays where it was, up to the two roundings. *)
Lemma anchored_edge (p size d : number) :
  Binary64.add p d + Binary64.sub size d
  <= p + size + Binary64.ulpError (p + d) + Binary64.ulpError (size - d).
Proof.
  pose proof (nearest_error (p + d)) as H1.
  pose proof (nearest_error (size - d)) as H2.
  unfold Binary64.add, Binary64.sub, Binary64.ulpError.
  apply Qabs_Qle_condition in H1, H2. lra.
Qed.

Lemma ulpError_nonneg (q : number) : 0 <= Binary64.ulpError q.
Proof.
  unfold Binary64.ulpError.
  pose proof (pow2_pos (-53)). pose proof (pow2_pos (-1075)).
  pose proof (Qabs_nonneg q). nra.
Qed.

(** A size clamped between 1 and the rounded difference [c - p]. *)
Lemma clamp_size (c p v : number) :
  1 <= Binary64.sub c p ->
  let n := clamp v 1 (Binary64.sub c p) in
  1 <= n /\ p + n <= c + Binary64.ulpError (c - p).
Proof.
  intros H1 n. subst n.
  assert (Hp : p <= c).
  { destruct (Qlt_le_dec c p) as [L | G]; [ | exact G].
    assert (Binary64.sub c p <= 0) by (apply nearest_nonpos; lra). lra. }
  assert (A : 1 <= clamp v 1 (Binary64.sub c p) <= Binary64.sub c p)
    by (unfold clamp; split; minmax; lra).
  split; [apply A | ].
  rewrite Qplus_comm. apply far_edge; [exact Hp | apply A].
Qed.

(** The far edges of a resized box. *)
Lemma resizedBox64_edges
    (handle : Handle) (l : Layout.t) (start : Rect) (dx dy : number) :
  1 <= Binary64.sub (cw64 l) (x start) ->
  1 <= Binary64.sub (ch64 l) (y start) ->
  let r := resized64 handle l start dx dy in
  x r + width r <= resizeEdge (cw64 l) (x start) (width start) dx
  /\ y r + height r <= resizeEdge (ch64 l) (y start) (height start) dy.
Proof.
  intros Hx Hy. cbv zeta.
  unfold resizeEdge, F64.PreviewScreen.resizedBox.
  revert Hx Hy. generalize (cw64 l) (ch64 l). intros W H Hx Hy.
  destruct (clamp_size W (x start) (Binary64.add (width start) dx) Hx)
    as [_ Cw].
  destruct (clamp_size H (y start) (Binary64.add (height start) dy) Hy)
    as [_ Ch].
  pose proof (anchored_edge (x start) (width start) dx) as Ax.
  pose proof (anchored_edge (y start) (height start) dy) as Ay.
  pose proof (ulpError_nonneg (x start + dx)) as N1.
  pose proof (ulpError_nonneg (width start - dx)) as N2.
  pose proof (ulpError_nonneg (y start + dy)) as N3.
  pose proof (ulpError_nonneg (height start - dy)) as N4.
  pose proof (ulpError_nonneg (W - x start)) as N5.
  pose proof (ulpError_nonneg (H - y start)) as N6.
  destruct handle; cbv zeta.
  all: repeat match goal with
       | |- context [geb ?a ?b && geb ?c ?d] =>
           destruct (geb a b && geb c d); cbv beta iota
       end.
  all: cbn [x y width height].
  all: revert Cw Ch Ax Ay N1 N2 N3 N4 N5 N6.
  all: generalize (Binary64.ulpError (x start + dx))
         (Binary64.ulpError (width start - dx))
         (Binary64.ulpError (y start + dy))
         (Binary64.ulpError (height start - dy))
         (Binary64.ulpError (W - x start))
         (Binary64.ulpError (H - y start)).
  all: intros e1 e2 e3 e4 e5 e6.
  all: generalize (clamp (Binary64.add (width start) dx) 1
                     (Binary64.sub W (x start)))
         (clamp (Binary64.add (height start) dy) 1
            (Binary64.sub H (y start)))
         (Binary64.add (x start) dx) (Binary64.sub (width start) dx)
         (Binary64.add (y start) dy) (Binary64.sub (height start) dy).
  all: intros nw nh px pw py ph Cw Ch Ax Ay N1 N2 N3 N4 N5 N6.
  all: split; minmax; lra.
Qed.

End Resize64.

(** ** The ticks of the detection loop *)

Section DetectionTicks.

Import CameraScreen.

Variables SCREEN_WIDTH SCREEN_HEIGHT : number.

Abbreviation tick := (runDetection SCREEN_WIDTH SCREEN_HEIGHT).
Abbreviation target := (detectionTarget SCREEN_WIDTH SCREEN_HEIGHT).

Lemma Qabs_self (a : number) : Qabs (a - a) == 0.
Proof.
  assert (E : a - a == 0) by ring. rewrite E. reflexivity.
Qed.

Lemma ltb_Qabs_self (a t : number) : 0 < t -> ltb (Math.abs (a - a)) t = true.
Proof.
  intros Ht. apply ltb_true. unfold Math.abs. rewrite Qabs_self. exact Ht.
Qed.

(** The first tick without history shows the target. *)
Lemma runDetection_fresh (d : option Rect) :
  tick (mkDetection d None None)
  = mkDetection (Some target) (Some target) None.
Proof. reflexivity. Qed.

(** A tick whose last box is the target changes nothing. *)
Lemma runDetection_settled (d : option Rect) :
  tick (mkDetection d (Some target) None)
  = mkDetection d (Some target) None.
Proof.
  unfold runDetection; cbn [manualBoxRef lastDetectedBoxRef].
  cbv zeta. fold target.
  rewrite !ltb_Qabs_self by reflexivity. reflexivity.
Qed.

(** Without a manual box every tick shows the target. *)
Lemma runDetection_shows_target (d : option Rect) (n : nat) :
  detectedBox (Nat.iter n tick (tick (mkDetection d None None)))
  = Some target.
Proof.
  rewrite runDetection_fresh.
  assert (E : Nat.iter n tick (mkDetection (Some target) (Some target) None)
              = mkDetection (Some target) (Some target) None).
  { induction n as [ | n IH]; [reflexivity | ].
    rewrite Nat.iter_succ, IH. apply runDetection_settled. }
  rewrite E. reflexivity.
Qed.

(** On a screen taller than its two bars the target has a positive size
    and lies inside the screen. *)
Lemma detectionTarget_inside :
  0 < SCREEN_WIDTH -> 220 < SCREEN_HEIGHT ->
  0 < width target /\ 0 < height target
  /\ inside target SCREEN_WIDTH SCREEN_HEIGHT.
Proof.
  intros HW HH.
  assert (Hin : inside
                  (RealtimeDetection.detectQuestionAreaFast SCREEN_WIDTH
                     (SCREEN_HEIGHT - 120 - 100)
                     (Some (RealtimeDetection.mkOptions
                              (Some 0.18) (Some 0.65) (Some 0.10))))
                  SCREEN_WIDTH (SCREEN_HEIGHT - 120 - 100)).
  { apply detectQuestionAreaFast_inside;
      try (unfold widthRatioOf, heightRatioOf; cbn; split);
      try lra; vm_compute; intro E; discriminate E. }
  destruct Hin as (Hx & Hy & Hxw & Hyh).
  unfold detectionTarget, inside in *; cbn [x y width height] in *.
  split; [ | split].
  - unfold RealtimeDetection.detectQuestionAreaFast;
      cbn [default RealtimeDetection.widthRatio width]. lra.
  - unfold RealtimeDetection.detectQuestionAreaFast;
      cbn [default RealtimeDetection.heightRatio height]. minmax; lra.
  - repeat split; try assumption; lra.
Qed.

End DetectionTicks.

(** ** The contracts of the gestures *)

(** C6 (violated by the preview screen): the drag responder is memoised on
    the height of the layout alone, so after a layout event that changes
    only the width its move handler still clamps against the old width.
    The screen is mounted with the crop box [{100, 200, 300, 150}], the
    container is laid out 1000 x 2000 and then 500 x 2000; the crop box
    fits the narrow container and stays.  A drag by [(600, 0)] then commits
    [{700, 200, 300, 150}], clamped to [1000 - 300] where the container
    ends at 500; [constrainCropBox], which depends on the width as well,
    brings the same box back to [x = 200].  With an up-to-date responder
    the scenario of the claim holds, on the preview screen and in the
    camera overlay: dragging [{100, 200, 300, 150}] by [(50, -20)] in a
    1000 x 2000 container gives [{150, 180, 300, 150}]. *)
Theorem drag_stale_container :
  let wide := Layout.mk 1000 2000 0 0 in
  let narrow := Layout.mk 500 2000 0 0 in
  let sc :=
    PreviewScreen.layoutEvent 400 800 narrow
      (PreviewScreen.layoutEvent 400 800 wide
         (PreviewScreen.mount 400 800 (Some scenarioBox))) in
  let committed :=
    PreviewScreen.cropBox
      (PreviewScreen.state
         (PreviewScreen.drag 400 800 [PreviewScreen.move 600 0] false sc)) in
  (PreviewScreen.imageLayout (PreviewScreen.state sc) = narrow
   /\ PreviewScreen.responderLayout sc = wide
   /\ PreviewScreen.cropBox (PreviewScreen.state sc) =r= scenarioBox
   /\ inside scenarioBox 500 2000)
  /\ committed =r= mkRect 700 200 300 150
  /\ ~ inside committed 500 2000
  /\ PreviewScreen.constrainCropBox 400 800 narrow committed
     =r= mkRect 200 200 300 150
  /\ PreviewScreen.cropBox
       (PreviewScreen.state
          (PreviewScreen.drag 400 800 [PreviewScreen.move 50 (-20)] false
             (PreviewScreen.layoutEvent 400 800 wide
                (PreviewScreen.mount 400 800 (Some scenarioBox)))))
     =r= mkRect 150 180 300 150
  /\ snd (AutoDetectionBox.panGesture 1000 2000 [(50, -20)] overlayScenario)
     = [AutoDetectionBox.onInteractionStart;
        AutoDetectionBox.onInteractionEnd;
        AutoDetectionBox.onBoxChange (mkRect 150 180 300 150)].
Proof.
  cbv zeta. split; [ | split; [ | split; [ | split; [ | split]]]].
  - split; [vm_compute; reflexivity | ].
    split; [vm_compute; reflexivity | ].
    split; [vm_compute; repeat split; reflexivity | ].
    repeat split; vm_compute; intro E; discriminate E.
  - vm_compute. repeat split; reflexivity.
  - intros (_ & _ & Hx & _). vm_compute in Hx. apply Hx. reflexivity.
  - vm_compute. repeat split; reflexivity.
  - vm_compute. repeat split; reflexivity.
  - vm_compute. reflexivity.
Qed.

(** The resize scenario holds in both components: the top-left handle
    dragged by [(20, 10)] from [{100, 200, 300, 150}] gives
    [{120, 210, 280, 140}], and the bottom-right corner stays at
    [(400, 350)]. *)
Lemma resize_scenario :
  PreviewScreen.cropBox
    (PreviewScreen.resizeGesture 400 800
       (PreviewScreen.imageLayout previewScenario) PreviewScreen.TL
       [PreviewScreen.move 20 10] false previewScenario)
  =r= mkRect 120 210 280 140
  /\ snd (AutoDetectionBox.cornerGesture 1000 2000 AutoDetectionBox.TL
            [(20, 10)] overlayScenario)
     = [AutoDetectionBox.onInteractionStart;
        AutoDetectionBox.onInteractionEnd;
        AutoDetectionBox.onBoxChange (mkRect 120 210 280 140)].
Proof.
  split.
  - vm_compute. repeat split; reflexivity.
  - vm_compute. reflexivity.
Qed.

(** C3 (violated by the camera overlay): a top-left resize by [(250, 0)] of
    [{100, 200, 300, 150}] in a 1000 x 2000 container asks for a width of
    50; the clamp raises the width to the minimum of 80 but keeps
    [x = 100 + 250], so the committed box is [{350, 200, 80, 150}] and its
    right edge, the anchor, has moved from 400 to 430.  The resize
    responder of the preview screen, given the same move, commits
    [{350, 200, 50, 150}] and keeps the anchor; it keeps it for every
    handle and translation ([resizedBox_keeps_anchor]). *)
Theorem cornerGesture_moves_anchor :
  let committed := mkRect 350 200 80 150 in
  snd (AutoDetectionBox.cornerGesture 1000 2000 AutoDetectionBox.TL
         [(250, 0)] overlayScenario)
  = [AutoDetectionBox.onInteractionStart;
     AutoDetectionBox.onInteractionEnd;
     AutoDetectionBox.onBoxChange committed]
  /\ fst (AutoDetectionBox.anchor AutoDetectionBox.TL
            (AutoDetectionBox.box overlayScenario)) == 400
  /\ fst (AutoDetectionBox.anchor AutoDetectionBox.TL committed) == 430
  /\ PreviewScreen.cropBox
       (PreviewScreen.resizeGesture 400 800
          (PreviewScreen.imageLayout previewScenario) PreviewScreen.TL
          [PreviewScreen.move 250 0] false previewScenario)
     =r= mkRect 350 200 50 150.
Proof.
  cbv zeta. split; [ | split; [ | split]].
  - vm_compute. reflexivity.
  - vm_compute. reflexivity.
  - vm_compute. reflexivity.
  - vm_compute. repeat split; reflexivity.
Qed.

(** C2, as stated, fails in two ways.  On the camera screen of a
    400 x 800 window the first detection tick shows a box 58 high, and a
    drag by [(10, 10)] commits it with that height, below the minimum of
    80.  And the clamps compare the origin with the difference
    [containerWidth - width] as binary64 rounds it.  In the overlay of a
    411.42857142857144 x 914.2857142857143 window, the bottom-right handle
    of the box [{320, 200, 80, 150}] dragged by [(20.4, 0)] commits a width
    of 100.4 at [x = 311.02857142857147], and [x + width] is above the
    container width.  On the preview screen, with the crop box
    [{100, 50, 117.0624, 35}] in a container 375.2 wide, a drag by
    [(200, 0)] commits [x = 258.1376] and [x + width] is above 375.2; the
    re-clamp of the container change returns the same position for a box
    at [x = 300]. *)
Lemma committed_box_out_of_bounds :
  (let shown :=
     AutoDetectionBox.onDetectedBox (Some (detectionTarget64 400 800))
       true false (AutoDetectionBox.initial 400 800) in
   exists committed,
     snd (F64.AutoDetectionBox.panGesture 400 800 [(10, 10)] shown)
     = [AutoDetectionBox.onInteractionStart;
        AutoDetectionBox.onInteractionEnd;
        AutoDetectionBox.onBoxChange committed]
     /\ height committed == 58
     /\ ~ F64.AutoDetectionBox.MIN_BOX_SIZE <= height committed)
  /\ (let W := Binary64.nearest (2880 # 7) in
      let H := Binary64.nearest (6400 # 7) in
      let start := AutoDetectionBox.mkShared 320 200 80 150 0 0 0 0 false in
      exists committed,
        snd (F64.AutoDetectionBox.cornerGesture W H AutoDetectionBox.BR
               [(Binary64.literal 20.4, 0)] start)
        = [AutoDetectionBox.onInteractionStart;
           AutoDetectionBox.onInteractionEnd;
           AutoDetectionBox.onBoxChange committed]
        /\ inside (AutoDetectionBox.box start) W H
        /\ width committed == Binary64.literal 100.4
        /\ W < x committed + width committed
        /\ ~ inside committed W H)
  /\ (let container := Layout.mk (Binary64.literal 375.2) 440 0 0 in
      let start := mkRect 100 50 (Binary64.literal 117.0624) 35 in
      let s :=
        F64.PreviewScreen.onLayout 400 800 container
          (PreviewScreen.initial 400 800 (Some start)) in
      let committed :=
        PreviewScreen.cropBox
          (F64.PreviewScreen.dragGesture 400 800 container
             [PreviewScreen.move 200 0] false s) in
      let W := F64.PreviewScreen.containerWidth 400 container in
      let H := F64.PreviewScreen.containerHeight 800 container in
      (PreviewScreen.imageLayout s = container
       /\ PreviewScreen.cropBox s = start /\ inside start W H)
      /\ width committed = width start
      /\ x committed == Binary64.literal 258.1376
      /\ W < x committed + width committed
      /\ ~ inside committed W H
      /\ F64.PreviewScreen.constrainCropBox 400 800 container
           (mkRect 300 50 (Binary64.literal 117.0624) 35)
         =r= committed).
Proof.
  cbv zeta. split; [ | split].
  - eexists. split; [vm_compute; reflexivity | ].
    split.
    + vm_compute. reflexivity.
    + intro H. vm_compute in H. apply H. reflexivity.
  - eexists. split; [vm_compute; reflexivity | ].
    split; [repeat split; vm_compute; intro E; discriminate E | ].
    split; [vm_compute; reflexivity | ].
    split; [vm_compute; reflexivity | ].
    intros (_ & _ & Hx & _). vm_compute in Hx. apply Hx. reflexivity.
  - split; [split; [vm_compute; reflexivity | split] | ].
    + vm_compute. reflexivity.
    + repeat split; vm_compute; intro E; discriminate E.
    + split; [vm_compute; reflexivity | ].
      split; [vm_compute; reflexivity | ].
      split; [vm_compute; reflexivity | ].
      split.
      * intros (_ & _ & Hx & _). vm_compute in Hx. apply Hx. reflexivity.
      * vm_compute. repeat split; reflexivity.
Qed.

(** C2 (amended): in the camera overlay a corner resize with at least one
    update commits a box of at least [MIN_BOX_SIZE] (80) in width and
    height, and a drag with at least one update commits the box with the
    size it had; both commit a non-negative origin, and the box lies inside
    a container of at least 80 x 80 up to the rounding of the clamps
    [containerWidth - width] and [containerHeight - height] (for a drag,
    when the box is no larger than the largest size of the clamp).  A
    detection tick outside an interaction shows the detected rectangle as
    it is; on the camera screen, taller than its two bars, that rectangle
    has a positive size and lies inside the screen.  On the preview screen
    the re-clamp [constrainCropBox] enforces no minimum size and returns a
    box inside the container up to the same rounding, and so does a layout
    event that changes the container to positive dimensions.  Drags and
    resizes, released or interrupted, keep the boxes of the machine, the
    committed [cropBox] among them, at least 1 x 1 with a non-negative
    origin, whatever layout their responder read; a drag with a move
    commits a box of the size at the grant, inside the container of the
    layout the responder read up to the rounding of the clamps when the box
    fits in it; a resize with a move commits a box whose far edges are the
    edges of that container, or those of the box at the grant, up to the
    roundings of the handler. *)
Theorem committed_box_bounds :
  (forall W H corner events e s,
      exists committed,
        snd (F64.AutoDetectionBox.cornerGesture W H corner (events ++ [e])
               s)
        = [AutoDetectionBox.onInteractionStart;
           AutoDetectionBox.onInteractionEnd;
           AutoDetectionBox.onBoxChange committed]
        /\ F64.AutoDetectionBox.MIN_BOX_SIZE <= width committed
        /\ F64.AutoDetectionBox.MIN_BOX_SIZE <= height committed
        /\ 0 <= x committed /\ 0 <= y committed
        /\ (Binary64.double W -> Binary64.double H
            -> F64.AutoDetectionBox.MIN_BOX_SIZE <= W
            -> F64.AutoDetectionBox.MIN_BOX_SIZE <= H
            -> insideRounded committed W H))
  /\ (forall W H events e s,
        exists committed,
          snd (F64.AutoDetectionBox.panGesture W H (events ++ [e]) s)
          = [AutoDetectionBox.onInteractionStart;
             AutoDetectionBox.onInteractionEnd;
             AutoDetectionBox.onBoxChange committed]
          /\ width committed = AutoDetectionBox.boxWidth s
          /\ height committed = AutoDetectionBox.boxHeight s
          /\ 0 <= x committed /\ 0 <= y committed
          /\ (Binary64.double W -> Binary64.double H
              -> F64.AutoDetectionBox.MIN_BOX_SIZE <= W
              -> F64.AutoDetectionBox.MIN_BOX_SIZE <= H
              -> withinMaximum W H (AutoDetectionBox.box s)
              -> insideRounded committed W H))
  /\ (forall d s,
        AutoDetectionBox.isInteracting s = false ->
        AutoDetectionBox.box
          (AutoDetectionBox.onDetectedBox (Some d) true false s)
        = d)
  /\ (forall SCREEN_WIDTH SCREEN_HEIGHT d n,
        0 < SCREEN_WIDTH -> 220 < SCREEN_HEIGHT ->
        exists shown,
          CameraScreen.detectedBox
            (Nat.iter n (CameraScreen.runDetection SCREEN_WIDTH SCREEN_HEIGHT)
               (CameraScreen.runDetection SCREEN_WIDTH SCREEN_HEIGHT
                  (CameraScreen.mkDetection d None None)))
          = Some shown
          /\ 0 < width shown /\ 0 < height shown
          /\ inside shown SCREEN_WIDTH SCREEN_HEIGHT)
  /\ (forall SCREEN_WIDTH SCREEN_HEIGHT l b,
        let r :=
          F64.PreviewScreen.constrainCropBox SCREEN_WIDTH SCREEN_HEIGHT l
            b in
        let W := F64.PreviewScreen.containerWidth SCREEN_WIDTH l in
        let H := F64.PreviewScreen.containerHeight SCREEN_HEIGHT l in
        insideRounded r W H
        /\ width r == Qmin (width b) W /\ height r == Qmin (height b) H)
  /\ (forall SCREEN_WIDTH SCREEN_HEIGHT layout s,
        0 < Layout.width layout -> 0 < Layout.height layout ->
        ~ (Layout.width (PreviewScreen.imageLayout s) == Layout.width layout
           /\ Layout.height (PreviewScreen.imageLayout s)
              == Layout.height layout) ->
        insideRounded
          (PreviewScreen.cropBox
             (F64.PreviewScreen.onLayout SCREEN_WIDTH SCREEN_HEIGHT layout
                s))
          (F64.PreviewScreen.containerWidth SCREEN_WIDTH layout)
          (F64.PreviewScreen.containerHeight SCREEN_HEIGHT layout))
  /\ (forall SCREEN_WIDTH SCREEN_HEIGHT l s events terminated,
        Boxes atLeastUnit s ->
        Boxes atLeastUnit
          (F64.PreviewScreen.dragGesture SCREEN_WIDTH SCREEN_HEIGHT l events
             terminated s)
        /\ forall handle,
             Boxes atLeastUnit
               (F64.PreviewScreen.resizeGesture SCREEN_WIDTH SCREEN_HEIGHT
                  l handle events terminated s))
  /\ (forall SCREEN_WIDTH SCREEN_HEIGHT l s events terminated dx dy,
        PreviewScreen.isResizingRef s = false ->
        lastMove events None = Some (dx, dy) ->
        let start := PreviewScreen.cropBoxRef s in
        let committed :=
          PreviewScreen.cropBox
            (F64.PreviewScreen.dragGesture SCREEN_WIDTH SCREEN_HEIGHT l
               events terminated s) in
        let W := F64.PreviewScreen.containerWidth SCREEN_WIDTH l in
        let H := F64.PreviewScreen.containerHeight SCREEN_HEIGHT l in
        width committed = width start /\ height committed = height start
        /\ 0 <= x committed /\ 0 <= y committed
        /\ (width start <= W -> height start <= H
            -> insideRounded committed W H))
  /\ (forall SCREEN_WIDTH SCREEN_HEIGHT l s events terminated dx dy handle,
        PreviewScreen.isDraggingRef s = false ->
        lastMove events None = Some (dx, dy) ->
        let start := PreviewScreen.cropBoxRef s in
        let committed :=
          PreviewScreen.cropBox
            (F64.PreviewScreen.resizeGesture SCREEN_WIDTH SCREEN_HEIGHT l
               handle events terminated s) in
        let W := F64.PreviewScreen.containerWidth SCREEN_WIDTH l in
        let H := F64.PreviewScreen.containerHeight SCREEN_HEIGHT l in
        atLeastUnit start ->
        1 <= Binary64.sub W (x start) -> 1 <= Binary64.sub H (y start) ->
        atLeastUnit committed
        /\ x committed + width committed
           <= resizeEdge W (x start) (width start) dx
        /\ y committed + height committed
           <= resizeEdge H (y start) (height start) dy).
Proof.
  split; [ | split; [ | split; [ | split; [ | split; [ | split;
    [ | split; [ | split]]]]]]].
  - intros W H corner events e s.
    destruct (cornerGesture64_commits W H corner events e s)
      as (bx & by_ & bw & bh & E).
    eexists. split; [exact E | ].
    destruct (clampBox64_min_size W H bx by_ bw bh) as (H1 & H2 & H3 & H4).
    split; [exact H1 | ]. split; [exact H2 | ].
    split; [exact H3 | ]. split; [exact H4 | ].
    intros DW DH HW HH.
    pose proof (clampBox64_inside W H bx by_ bw bh DW DH HW HH) as Hin.
    exact Hin.
  - intros W H events [tx ty] s.
    exists (pannedBox64 W H (AutoDetectionBox.box s) tx ty).
    split; [apply panGesture64_commits | ].
    destruct (pannedBox64_bounds W H (AutoDetectionBox.box s) tx ty)
      as (H1 & H2 & H3 & H4).
    split; [exact H1 | ]. split; [exact H2 | ].
    split; [exact H3 | ]. split; [exact H4 | ].
    intros DW DH HW HH HM.
    exact (pannedBox64_inside W H _ tx ty DW DH HW HH HM).
  - intros d s Hs. unfold AutoDetectionBox.onDetectedBox.
    rewrite Hs. destruct d; reflexivity.
  - intros SW SH d n HW HH.
    exists (detectionTarget SW SH).
    split; [apply runDetection_shows_target | ].
    exact (detectionTarget_inside SW SH HW HH).
  - intros SW SH l b r W H. split; [apply constrainCropBox64_inside | ].
    apply constrainCropBox64_size.
  - intros SW SH layout s. apply onLayout64_inside.
  - intros SW SH l s events terminated.
    apply gestures64_keep_atLeastUnit.
  - intros SW SH l s events terminated dx dy Hres Hlast start committed W H.
    subst committed.
    rewrite (dragGesture64_commits SW SH l s events terminated dx dy
               Hres Hlast).
    fold start.
    split; [reflexivity | ]. split; [reflexivity | ].
    split; [unfold draggedBox64, PreviewScreen.clamp; cbn [x]; minmax; lra
           | ].
    split; [unfold draggedBox64, PreviewScreen.clamp; cbn [y]; minmax; lra
           | ].
    intros Hw Hh. exact (draggedBox64_inside SW SH l start dx dy Hw Hh).
  - intros SW SH l s events terminated dx dy handle Hdrag Hlast start
      committed W H Hu Hx Hy.
    subst committed.
    rewrite (resizeGesture64_commits SW SH l handle s events terminated
               dx dy Hdrag Hlast).
    fold start.
    split; [exact (resizedBox64_atLeastUnit SW SH handle l start dx dy Hu)
           | ].
    exact (resizedBox64_edges SW SH handle l start dx dy Hx Hy).
Qed.

Lemma committed_box_bounds_witness :
  let layout := Layout.mk 1000 2000 0 0 in
  (Binary64.double 1000 /\ Binary64.double 2000
   /\ F64.AutoDetectionBox.MIN_BOX_SIZE <= 1000
   /\ F64.AutoDetectionBox.MIN_BOX_SIZE <= 2000
   /\ withinMaximum 1000 2000 (AutoDetectionBox.box overlayScenario)
   /\ AutoDetectionBox.isInteracting overlayScenario = false)
  /\ (0 < 400 /\ 220 < 800 /\ 0 < 300 /\ 0 < 200
      /\ ~ (Layout.width (PreviewScreen.imageLayout previewScenario) == 300
            /\ Layout.height (PreviewScreen.imageLayout previewScenario)
               == 200))
  /\ (Boxes atLeastUnit previewScenario
      /\ PreviewScreen.isResizingRef previewScenario = false
      /\ PreviewScreen.isDraggingRef previewScenario = false
      /\ lastMove [PreviewScreen.move 5000 5000] None = Some (5000, 5000)
      /\ width scenarioBox <= 1000 /\ height scenarioBox <= 2000
      /\ atLeastUnit scenarioBox
      /\ 1 <= Binary64.sub 1000 (x scenarioBox)
      /\ 1 <= Binary64.sub 2000 (y scenarioBox))
  /\ (exists committed,
        snd (F64.AutoDetectionBox.cornerGesture 1000 2000
               AutoDetectionBox.TL ([] ++ [(250, 0)]) overlayScenario)
        = [AutoDetectionBox.onInteractionStart;
           AutoDetectionBox.onInteractionEnd;
           AutoDetectionBox.onBoxChange committed]
        /\ insideRounded committed 1000 2000)
  /\ (exists committed,
        snd (F64.AutoDetectionBox.panGesture 1000 2000
               ([] ++ [(5000, 5000)]) overlayScenario)
        = [AutoDetectionBox.onInteractionStart;
           AutoDetectionBox.onInteractionEnd;
           AutoDetectionBox.onBoxChange committed]
        /\ insideRounded committed 1000 2000)
  /\ AutoDetectionBox.box
       (AutoDetectionBox.onDetectedBox (Some scenarioBox) true false
          overlayScenario)
     = scenarioBox
  /\ (exists shown,
        CameraScreen.detectedBox
          (Nat.iter 3 (CameraScreen.runDetection 400 800)
             (CameraScreen.runDetection 400 800
                (CameraScreen.mkDetection None None None)))
        = Some shown
        /\ inside shown 400 800)
  /\ insideRounded
       (PreviewScreen.cropBox
          (F64.PreviewScreen.onLayout 400 800 (Layout.mk 300 200 0 0)
             previewScenario))
       300 200
  /\ Boxes atLeastUnit
       (F64.PreviewScreen.resizeGesture 400 800 layout PreviewScreen.TL
          [PreviewScreen.move 5000 5000] true previewScenario)
  /\ insideRounded
       (PreviewScreen.cropBox
          (F64.PreviewScreen.dragGesture 400 800 layout
             [PreviewScreen.move 5000 5000] false previewScenario))
       1000 2000
  /\ x (PreviewScreen.cropBox
          (F64.PreviewScreen.resizeGesture 400 800 layout PreviewScreen.BR
             [PreviewScreen.move 5000 5000] false previewScenario))
     + width (PreviewScreen.cropBox
                (F64.PreviewScreen.resizeGesture 400 800 layout
                   PreviewScreen.BR [PreviewScreen.move 5000 5000] false
                   previewScenario))
     <= resizeEdge 1000 100 300 5000.
Proof.
  cbv zeta.
  assert (D1 : Binary64.double 1000)
    by (split; [vm_compute; reflexivity
               | vm_compute; intro E; discriminate E]).
  assert (D2 : Binary64.double 2000)
    by (split; [vm_compute; reflexivity
               | vm_compute; intro E; discriminate E]).
  assert (M1 : F64.AutoDetectionBox.MIN_BOX_SIZE <= 1000)
    by (vm_compute; intro E; discriminate E).
  assert (M2 : F64.AutoDetectionBox.MIN_BOX_SIZE <= 2000)
    by (vm_compute; intro E; discriminate E).
  assert (M3 : withinMaximum 1000 2000 (AutoDetectionBox.box overlayScenario))
    by (split; vm_compute; intro E; discriminate E).
  assert (I1 : AutoDetectionBox.isInteracting overlayScenario = false)
    by reflexivity.
  assert (P1 : 0 < 400) by reflexivity.
  assert (P2 : 220 < 800) by reflexivity.
  assert (P3 : 0 < 300) by reflexivity.
  assert (P4 : 0 < 200) by reflexivity.
  assert (Hchanged :
            ~ (Layout.width (PreviewScreen.imageLayout previewScenario) == 300
               /\ Layout.height (PreviewScreen.imageLayout previewScenario)
                  == 200)).
  { intros [E _]. vm_compute in E. discriminate E. }
  assert (U : atLeastUnit scenarioBox)
    by (repeat split; vm_compute; intro E; discriminate E).
  assert (B : Boxes atLeastUnit previewScenario).
  { split; [exact U | ]. split; [exact U | ].
    split; intros p E; discriminate E. }
  assert (F1 : PreviewScreen.isResizingRef previewScenario = false)
    by reflexivity.
  assert (F2 : PreviewScreen.isDraggingRef previewScenario = false)
    by reflexivity.
  assert (L : lastMove [PreviewScreen.move 5000 5000] None
              = Some (5000, 5000)) by reflexivity.
  assert (S1 : width scenarioBox <= 1000)
    by (vm_compute; intro E; discriminate E).
  assert (S2 : height scenarioBox <= 2000)
    by (vm_compute; intro E; discriminate E).
  assert (S3 : 1 <= Binary64.sub 1000 (x scenarioBox))
    by (vm_compute; intro E; discriminate E).
  assert (S4 : 1 <= Binary64.sub 2000 (y scenarioBox))
    by (vm_compute; intro E; discriminate E).
  destruct committed_box_bounds
    as (Hcorner & Hpan & Htick & Hloop & _ & Hlayout & Hboxes & Hdrag
        & Hresize).
  split; [auto 10 | ]. split; [auto 10 | ]. split; [auto 12 | ].
  split; [ | split; [ | split; [ | split; [ | split; [ | split;
    [ | split]]]]]].
  - destruct (Hcorner 1000 2000 AutoDetectionBox.TL [] (250, 0)
                overlayScenario) as (c & E & _ & _ & _ & _ & Hin).
    exists c. split; [exact E | exact (Hin D1 D2 M1 M2)].
  - destruct (Hpan 1000 2000 [] (5000, 5000) overlayScenario)
      as (c & E & _ & _ & _ & _ & Hin).
    exists c. split; [exact E | exact (Hin D1 D2 M1 M2 M3)].
  - exact (Htick scenarioBox overlayScenario I1).
  - destruct (Hloop 400 800 None 3%nat P1 P2) as (b & E & _ & _ & Hin).
    exists b. split; [exact E | exact Hin].
  - exact (Hlayout 400 800 (Layout.mk 300 200 0 0) previewScenario
             P3 P4 Hchanged).
  - exact (proj2 (Hboxes 400 800 (Layout.mk 1000 2000 0 0) previewScenario
                    [PreviewScreen.move 5000 5000] true B)
             PreviewScreen.TL).
  - destruct (Hdrag 400 800 (Layout.mk 1000 2000 0 0) previewScenario
                [PreviewScreen.move 5000 5000] false 5000 5000 F1 L)
      as (_ & _ & _ & _ & Hin).
    exact (Hin S1 S2).
  - destruct (Hresize 400 800 (Layout.mk 1000 2000 0 0) previewScenario
                [PreviewScreen.move 5000 5000] false 5000 5000
                PreviewScreen.BR F2 L U S3 S4) as (_ & Hx & _).
    exact Hx.
Defined.

(** * Further properties *)

(** ** The heuristic estimators *)

Section Heuristics.

Import ImageUtils ImageUtilsRefine.

(** A value between two bounds, moved part of the way to another, stays
    between them. *)
Lemma lerp_le (a b f M : number) :
  0 <= f <= 1 -> a <= M -> b <= M -> a + (b - a) * f <= M.
Proof. intros [Hf0 Hf1] Ha Hb. nra. Qed.

Lemma lerp_ge (a b f m : number) :
  0 <= f <= 1 -> m <= a -> m <= b -> m <= a + (b - a) * f.
Proof. intros [Hf0 Hf1] Ha Hb. nra. Qed.





End Heuristics.

(** ** The smoother and the detection loop *)

Section Smoothing.

Import RealtimeDetection.



End Smoothing.

Section DetectionLoop.

Import CameraScreen.

Variables SCREEN_WIDTH SCREEN_HEIGHT : number.

Abbreviation tick := (runDetection SCREEN_WIDTH SCREEN_HEIGHT).
Abbreviation target := (detectionTarget SCREEN_WIDTH SCREEN_HEIGHT).

(** X5: on a screen taller than its two bars, the first tick of the detection
    loop shows a box that lies between the top bar (120) and the bottom bar
    (100) and inside the screen width; every later tick leaves the state as
    it is. *)
Theorem runDetection_settles (d : option Rect) (n : nat) :
  0 < SCREEN_WIDTH -> 220 < SCREEN_HEIGHT ->
  let s1 := tick (mkDetection d None None) in
  detectedBox s1 = Some target
  /\ (120 <= y target /\ y target + height target <= SCREEN_HEIGHT - 100
      /\ 0 <= x target /\ x target + width target <= SCREEN_WIDTH)
  /\ Nat.iter n tick s1 = s1.
Proof.
  intros HW HH. cbv zeta. rewrite runDetection_fresh.
  split; [reflexivity | split].
  - assert (Hin : inside
                    (RealtimeDetection.detectQuestionAreaFast SCREEN_WIDTH
                       (SCREEN_HEIGHT - 120 - 100)
                       (Some (RealtimeDetection.mkOptions
                                (Some 0.18) (Some 0.65) (Some 0.10))))
                    SCREEN_WIDTH (SCREEN_HEIGHT - 120 - 100)).
    { apply detectQuestionAreaFast_inside;
        try (unfold widthRatioOf, heightRatioOf; cbn; split);
        try lra; vm_compute; intro E; discriminate E. }
    destruct Hin as (Hx & Hy & Hxw & Hyh).
    unfold detectionTarget; cbn [x y width height].
    repeat split; try assumption; lra.
  - induction n as [ | n IH]; [reflexivity | ].
    rewrite Nat.iter_succ, IH. apply runDetection_settled.
Qed.


(** X7: while a manual box is set, a tick shows the manual box and keeps the
    history; after the user has adjusted the box, turning auto-detection off
    and on again discards the manual box and the history, so that the next
    tick shows the target again. *)
Theorem manual_box_until_toggle (s : Detection) (manual : Rect) :
  let s1 := handleBoxChange manual s in
  tick s1 = s1
  /\ detectedBox s1 = Some manual
  /\ (let (off, s2) := CameraToggle.onPress true s1 in
      let (on, s3) := CameraToggle.onPress off s2 in
      off = false /\ s2 = s1 /\ on = true
      /\ tick s3 = mkDetection (Some target) (Some target) None).
Proof.
  cbv zeta. split; [reflexivity | split; [reflexivity | ]].
  cbn [CameraToggle.onPress negb handleBoxChange detectedBox].
  split; [reflexivity | split; [reflexivity | split; [reflexivity | ]]].
  apply runDetection_fresh.
Qed.

End DetectionLoop.

Lemma runDetection_settles_witness :
  (0 < 400 /\ 220 < 800)
  /\ CameraScreen.detectedBox
       (CameraScreen.runDetection 400 800
          (CameraScreen.mkDetection None None None))
     = Some (detectionTarget 400 800)
  /\ Nat.iter 3 (CameraScreen.runDetection 400 800)
       (CameraScreen.runDetection 400 800
          (CameraScreen.mkDetection None None None))
     = CameraScreen.runDetection 400 800
         (CameraScreen.mkDetection None None None).
Proof.
  split; [split; reflexivity | ].
  destruct (runDetection_settles 400 800 None 3) as (E1 & _ & E3);
    [reflexivity | reflexivity | ].
  split; [exact E1 | exact E3].
Defined.


(** ** The coordinate mapper, continued *)

Section MapperMore.

Lemma Qfloor_half (z : Z) : Qfloor (inject_Z z + 0.5) = z.
Proof.
  pose proof (Qfloor_le (inject_Z z + 0.5)) as Hle.
  pose proof (Qlt_floor (inject_Z z + 0.5)) as Hlt.
  set (F := Qfloor (inject_Z z + 0.5)) in *.
  assert (H1 : inject_Z F < inject_Z (z + 1)).
  { rewrite inject_Z_plus. change (inject_Z 1) with 1. lra. }
  assert (H2 : inject_Z z < inject_Z (F + 1)) by lra.
  rewrite <- Zlt_Qlt in H1, H2. lia.
Qed.

(** Rounding leaves an integer as it is. *)
Lemma round_integer (a : number) : is_integer a -> Math.round a == a.
Proof.
  intros [z E]. unfold Math.round.
  assert (E' : a + 0.5 == inject_Z z + 0.5) by (rewrite E; reflexivity).
  rewrite (Qfloor_comp _ _ E'), Qfloor_half. symmetry. exact E.
Qed.

(** X8: mapping between two spaces of the same positive dimensions rounds
    every field to the nearest integer; a rectangle with integer fields is
    mapped to itself, by either mapper. *)
Theorem mapRect_same_space (mapRect : Mapper) (r : Rect) (W H : number) :
  In mapRect mappers -> 0 < W -> 0 < H ->
  is_integer (x r) -> is_integer (y r) ->
  is_integer (width r) -> is_integer (height r) ->
  Crop.toRect (mapRect r W H W H) =r= r.
Proof.
  intros Hin HW HH Ix Iy Iw Ih.
  assert (E : mapRect = ImageUtils.mapScreenRectToImage).
  { destruct Hin as [<- | [<- | []]]; reflexivity. }
  subst mapRect.
  unfold ImageUtils.mapScreenRectToImage, Crop.toRect, Rect_eq;
    cbn [x y width height Crop.originX Crop.originY Crop.width Crop.height].
  assert (EW : W / W == 1) by (field; lra).
  assert (EH : H / H == 1) by (field; lra).
  assert (R : forall v s, s == 1 -> is_integer v -> Math.round (v * s) == v).
  { intros v s Es Iv.
    assert (Ev : v * s == v) by (rewrite Es; ring).
    unfold Math.round.
    assert (Ev' : v * s + 0.5 == v + 0.5) by (rewrite Ev; reflexivity).
    rewrite (Qfloor_comp _ _ Ev'). exact (round_integer v Iv). }
  repeat split; apply R; assumption.
Qed.

Lemma mapRect_same_space_witness :
  let r := mkRect 12 34 56 78 in
  (In ImageUtils.mapScreenRectToImage mappers /\ 0 < 400 /\ 0 < 800
   /\ is_integer (x r) /\ is_integer (y r)
   /\ is_integer (width r) /\ is_integer (height r))
  /\ Crop.toRect (ImageUtils.mapScreenRectToImage r 400 800 400 800) =r= r.
Proof.
  cbv zeta.
  assert (I : forall z : Z, is_integer (inject_Z z))
    by (intros z; exists z; reflexivity).
  split.
  - split; [left; reflexivity | ].
    split; [reflexivity | split; [reflexivity | ]].
    split; [exact (I 12%Z) | split; [exact (I 34%Z) | ]].
    split; [exact (I 56%Z) | exact (I 78%Z)].
  - apply (mapRect_same_space ImageUtils.mapScreenRectToImage
             (mkRect 12 34 56 78) 400 800);
      [left; reflexivity | reflexivity | reflexivity
       | exact (I 12%Z) | exact (I 34%Z) | exact (I 56%Z) | exact (I 78%Z)].
Defined.

End MapperMore.

(** ** Failures of the capture and of the crop *)

Section Failures.

Variables SCREEN_WIDTH SCREEN_HEIGHT : number.
Variables Uri ImageResult Camera : Type.
Variable manipulateAsync : Uri -> Action -> result ImageResult.

Section OnCapture.

Variable uriOf : ImageResult -> Uri.
Variable takePictureAsync : Camera -> result (Photo.t Uri).
Variable android : bool.

Abbreviation capture :=
  (CameraScreen.capture Uri ImageResult Camera manipulateAsync uriOf
     takePictureAsync android).
Abbreviation onCapture :=
  (CameraScreen.onCapture SCREEN_WIDTH SCREEN_HEIGHT Uri ImageResult Camera
     manipulateAsync uriOf takePictureAsync android).

(** X10: the capture handler of the camera screen returns at once without a
    camera and alerts when the picture (or its flip) fails; once the picture
    is taken it always navigates, with the dimensions of the photo and no
    crop left to do.  The photo it passes is the uncropped one unless a crop
    was requested and succeeded; it is the uncropped one when auto-detection
    is off, when there is no box, and when the crop throws. *)
Theorem onCapture_degrades
    (camera : Camera) (s : CameraScreen.Detection) (isAutoDetecting : bool) :
  onCapture None s isAutoDetecting = CameraScreen.returned Uri
  /\ (capture camera = Thrown ->
      onCapture (Some camera) s isAutoDetecting = CameraScreen.alerted Uri)
  /\ (forall photo,
         capture camera = Ok photo ->
         let boxToUse :=
           match CameraScreen.manualBoxRef s with
           | Some manual => Some manual
           | None => CameraScreen.detectedBox s
           end in
         let request :=
           CameraScreen.cropCall SCREEN_WIDTH SCREEN_HEIGHT boxToUse
             isAutoDetecting (Photo.width photo) (Photo.height photo) in
         exists uri,
           onCapture (Some camera) s isAutoDetecting
           = CameraScreen.navigated Uri
               (Photo.mk uri (Photo.width photo) (Photo.height photo)) None
           /\ (isAutoDetecting = false -> uri = Photo.uri photo)
           /\ (boxToUse = None -> uri = Photo.uri photo)
           /\ (forall c,
                  request = Some c ->
                  manipulateAsync (Photo.uri photo) (CropTo c) = Thrown ->
                  uri = Photo.uri photo)
           /\ (forall c res,
                  request = Some c ->
                  manipulateAsync (Photo.uri photo) (CropTo c) = Ok res ->
                  uri = uriOf res)).
Proof.
  split; [reflexivity | split].
  - intros E. unfold CameraScreen.onCapture. rewrite E. reflexivity.
  - intros photo E boxToUse request.
    assert (Hoff : isAutoDetecting = false -> request = None).
    { intros ->. subst request. unfold CameraScreen.cropCall,
        CameraScreen.cropRect. destruct boxToUse; reflexivity. }
    assert (Hnone : boxToUse = None -> request = None).
    { intros En. subst request. rewrite En. reflexivity. }
    unfold CameraScreen.onCapture. rewrite E. cbn [bind CameraScreen.outcome].
    fold boxToUse. fold request.
    destruct request as [c | ].
    + destruct (manipulateAsync (Photo.uri photo) (CropTo c)) as [res | ]
        eqn:Em.
      * exists (uriOf res). split; [reflexivity | ].
        split; [intros Ha; discriminate (Hoff Ha) | ].
        split; [intros En; discriminate (Hnone En) | ].
        split; [intros c' [= <-] Em'; congruence | ].
        intros c' res' [= <-] Em'. congruence.
      * exists (Photo.uri photo). split; [reflexivity | ].
        split; [reflexivity | ]. split; [reflexivity | ].
        split; [reflexivity | ].
        intros c' res' [= <-] Em'. congruence.
    + exists (Photo.uri photo). split; [reflexivity | ].
      split; [reflexivity | ]. split; [reflexivity | ].
      split; [reflexivity | ]. intros c res [=].
Qed.

End OnCapture.

Section CropAsync.

Variable uriOf : ImageResult -> option Uri.

Abbreviation cropAsync :=
  (PreviewCrop.cropAsync Uri ImageResult manipulateAsync uriOf).

(** X11: [cropAsync] of the preview screen does nothing while the layout is
    unknown; once it is known it always sets the preview image: to the
    result of the manipulator when the crop rectangle passes the validation
    and the manipulator returns an image with a uri, and to the uncropped
    photo in every other case. *)
Theorem cropAsync_falls_back
    (cropBox : Rect) (imageLayout : Layout.t) (photo : Photo.t Uri) :
  let request :=
    PreviewCrop.cropRect cropBox imageLayout
      (Photo.width photo) (Photo.height photo) in
  (Layout.width imageLayout == 0 \/ Layout.height imageLayout == 0 ->
   cropAsync cropBox imageLayout photo = None)
  /\ (~ Layout.width imageLayout == 0 -> ~ Layout.height imageLayout == 0 ->
      (request = Thrown ->
       cropAsync cropBox imageLayout photo = Some (Photo.uri photo))
      /\ (forall c,
             request = Ok c ->
             manipulateAsync (Photo.uri photo) (CropTo c) = Thrown ->
             cropAsync cropBox imageLayout photo = Some (Photo.uri photo))
      /\ (forall c res,
             request = Ok c ->
             manipulateAsync (Photo.uri photo) (CropTo c) = Ok res ->
             cropAsync cropBox imageLayout photo
             = Some (default (Photo.uri photo) (uriOf res)))).
Proof.
  cbv zeta. unfold PreviewCrop.cropAsync. split.
  - intros [E | E]; apply Qeq_bool_iff in E; rewrite E;
      [reflexivity | rewrite orb_true_r; reflexivity].
  - intros Hw Hh.
    assert (Ew : Qeq_bool (Layout.width imageLayout) 0 = false).
    { destruct (Qeq_bool (Layout.width imageLayout) 0) eqn:E;
        [ | reflexivity].
      exfalso. apply Hw. apply Qeq_bool_iff. exact E. }
    assert (Eh : Qeq_bool (Layout.height imageLayout) 0 = false).
    { destruct (Qeq_bool (Layout.height imageLayout) 0) eqn:E;
        [ | reflexivity].
      exfalso. apply Hh. apply Qeq_bool_iff. exact E. }
    rewrite Ew, Eh. cbn [orb].
    split; [ | split].
    + intros ->. reflexivity.
    + intros c -> Em. cbn [bind]. rewrite Em. reflexivity.
    + intros c res -> Em. cbn [bind]. rewrite Em. cbn [bind].
      destruct (uriOf res); reflexivity.
Qed.

End CropAsync.

End Failures.

Lemma cropAsync_falls_back_witness :
  let manipulateAsync := fun (_ : nat) (_ : Action) => @Thrown nat in
  let uriOf := fun n : nat => Some n in
  let photo := Photo.mk 5%nat 3000 4000 in
  let cropBox := mkRect 40 66 120 35 in
  let layout := Layout.mk 400 440 0 0 in
  (~ Layout.width layout == 0 /\ ~ Layout.height layout == 0
   /\ PreviewCrop.cropRect cropBox layout 3000 4000
      = Ok (Crop.mk (inject_Z 45) (inject_Z 600)
                    (inject_Z 1091) (inject_Z 318)))
  /\ PreviewCrop.cropAsync nat nat manipulateAsync uriOf cropBox layout photo
     = Some 5%nat.
Proof.
  cbv zeta.
  assert (Hw : ~ Layout.width (Layout.mk 400 440 0 0) == 0)
    by (intro E; vm_compute in E; discriminate E).
  assert (Hh : ~ Layout.height (Layout.mk 400 440 0 0) == 0)
    by (intro E; vm_compute in E; discriminate E).
  assert (Hr : PreviewCrop.cropRect (mkRect 40 66 120 35)
                 (Layout.mk 400 440 0 0) 3000 4000
               = Ok (Crop.mk (inject_Z 45) (inject_Z 600)
                             (inject_Z 1091) (inject_Z 318)))
    by (vm_compute; reflexivity).
  split; [split; [exact Hw | split; [exact Hh | exact Hr]] | ].
  destruct (cropAsync_falls_back nat nat (fun _ _ => Thrown)
              (fun n => Some n) (mkRect 40 66 120 35)
              (Layout.mk 400 440 0 0) (Photo.mk 5%nat 3000 4000))
    as [_ Hready].
  destruct (Hready Hw Hh) as (_ & Hthrown & _).
  exact (Hthrown _ Hr eq_refl).
Defined.

Lemma onCapture_degrades_witness :
  let manipulateAsync := fun (_ : nat) (_ : Action) => @Thrown nat in
  let uriOf := fun n : nat => n in
  let photo := Photo.mk 5%nat 3000 4000 in
  let takePictureAsync := fun _ : unit => Ok photo in
  let s := CameraScreen.mkDetection (Some (mkRect 70 195 260 58)) None None in
  (CameraScreen.capture nat nat unit manipulateAsync uriOf takePictureAsync
     false tt = Ok photo
   /\ CameraScreen.cropCall 400 800 (Some (mkRect 70 195 260 58)) true
        3000 4000
      = Some (Crop.mk (inject_Z 850) (inject_Z 975)
                      (inject_Z 1300) (inject_Z 290)))
  /\ CameraScreen.onCapture 400 800 nat nat unit manipulateAsync uriOf
       takePictureAsync false (Some tt) s true
     = CameraScreen.navigated nat photo None.
Proof.
  cbv zeta.
  assert (Hr : CameraScreen.cropCall 400 800 (Some (mkRect 70 195 260 58))
                 true 3000 4000
               = Some (Crop.mk (inject_Z 850) (inject_Z 975)
                               (inject_Z 1300) (inject_Z 290)))
    by (vm_compute; reflexivity).
  split; [split; [reflexivity | exact Hr] | ].
  destruct (onCapture_degrades 400 800 nat nat unit (fun _ _ => Thrown)
              (fun n => n) (fun _ => Ok (Photo.mk 5%nat 3000 4000)) false tt
              (CameraScreen.mkDetection (Some (mkRect 70 195 260 58))
                 None None) true)
    as (_ & _ & Hnav).
  destruct (Hnav (Photo.mk 5%nat 3000 4000) eq_refl)
    as (uri & E & _ & _ & Hthrown & _).
  rewrite E. rewrite (Hthrown _ Hr eq_refl). reflexivity.
Defined.

(** ** The crop overlay *)

Section CropOverlayDrag.

Import CropOverlay.

Variables SCREEN_WIDTH SCREEN_HEIGHT : number.
Variable box : Rect.
Variable boundsPadding : number.

Abbreviation moveTo :=
  (onPanResponderMove SCREEN_WIDTH SCREEN_HEIGHT box boundsPadding).

Lemma overlay_moves_size (moves : list (number * number)) (b : Rect) :
  width (fold_left (fun b e => moveTo (fst e) (snd e) b) moves b) = width b
  /\ height (fold_left (fun b e => moveTo (fst e) (snd e) b) moves b)
     = height b.
Proof.
  revert b. induction moves as [ | e moves IH]; intros b; cbn [fold_left].
  - split; reflexivity.
  - destruct (IH (moveTo (fst e) (snd e) b)) as [E1 E2].
    rewrite E1, E2. split; reflexivity.
Qed.


End CropOverlayDrag.


(** ** Detections that arrive during a gesture of the camera overlay *)

Section DetectionDuringGesture.

Import AutoDetectionBox.

Variables containerWidth containerHeight : number.

Lemma updatesWith_ignores_detections
    (onUpdate : number -> number -> Shared -> Shared)
    (events : list AutoDetectionEvents.Event) (s : Shared) :
  (forall tx ty s, isInteracting (onUpdate tx ty s) = isInteracting s) ->
  isInteracting s = true ->
  AutoDetectionEvents.updatesWith onUpdate events s
  = updates onUpdate (AutoDetectionEvents.translations events) s.
Proof.
  intros Hkeep. revert s.
  unfold AutoDetectionEvents.updatesWith, updates.
  induction events as [ | e events IH]; intros s Hs; [reflexivity | ].
  destruct e as [tx ty | d a l];
    cbn [fold_left AutoDetectionEvents.translations fst snd].
  - apply IH. rewrite Hkeep. exact Hs.
  - assert (E : onDetectedBox d a l s = s).
    { unfold onDetectedBox. rewrite Hs.
      destruct d; [ | reflexivity].
      rewrite andb_false_r. reflexivity. }
    rewrite E. apply IH. exact Hs.
Qed.

(** X13: detections that reach the overlay between the start and the end of
    a drag or of a corner resize are discarded: the gesture ends in the
    same state and reports the same box as the gesture with the same
    translations and no detection in between. *)
Theorem gesture_ignores_detections
    (events : list AutoDetectionEvents.Event) (s : Shared) :
  AutoDetectionEvents.panGesture containerWidth containerHeight events s
  = panGesture containerWidth containerHeight
      (AutoDetectionEvents.translations events) s
  /\ (forall corner,
         AutoDetectionEvents.cornerGesture containerWidth containerHeight
           corner events s
         = cornerGesture containerWidth containerHeight corner
             (AutoDetectionEvents.translations events) s).
Proof.
  split; [ | intros corner].
  - unfold AutoDetectionEvents.panGesture, panGesture.
    cbn [pan_onStart].
    rewrite updatesWith_ignores_detections; reflexivity.
  - unfold AutoDetectionEvents.cornerGesture, cornerGesture.
    cbn [corner_onStart].
    rewrite updatesWith_ignores_detections;
      [reflexivity | intros tx ty s'; destruct corner; reflexivity
       | reflexivity].
Qed.

End DetectionDuringGesture.

(** ** The rectangle of the density estimator *)

Section DensityClosedForm.

Import ImageUtils.

Lemma round_ge_1 (v : number) : 0.5 <= v -> 1 <= Math.round v.
Proof.
  intros Hv. unfold Math.round.
  assert (H : (1 <= Qfloor (v + 0.5))%Z).
  { rewrite <- (Qfloor_Z 1). apply Qfloor_resp_le.
    change (inject_Z 1) with 1. lra. }
  rewrite Zle_Qle in H. exact H.
Qed.

(** The rectangle in target coordinates, as fractions of the target. *)
Lemma screenRect_closed_form (iw ih sw sh : number) :
  0 < iw -> 0 < ih -> iw <= 400 * ih ->
  let r := screenRect iw ih sw sh in
  x r == 0.294 * sw /\ y r == 0.2735 * sh /\ width r == 0.312 * sw
  /\ height r == 35.
Proof.
  intros Hiw Hih Hratio. cbv zeta.
  destruct grid_boundaries as (Et & Eb & El & Er).
  unfold screenRect. rewrite Et, Eb, El, Er.
  assert (HA : 1 <= Math.round (ih / iw * 200)).
  { apply round_ge_1.
    assert (E : ih / iw * 200 == (200 * ih) / iw) by (field; lra).
    rewrite E. apply Qle_shift_div_l; lra. }
  revert HA. generalize (Math.round (ih / iw * 200)). intros A HA.
  cbv zeta. cbn [x y width height].
  change (inject_Z gridCols) with 30. change (inject_Z gridRows) with 40.
  change (inject_Z 9) with 9. change (inject_Z 11) with 11.
  change (inject_Z (18 - 9)) with 9. change (inject_Z (14 - 11)) with 3.
  assert (EX : 9 * (200 / 30) * (iw / 200) == 0.3 * iw) by field.
  assert (EY : 11 * (A / 40) * (ih / A) == 0.275 * ih) by (field; lra).
  assert (EH : 3 * (A / 40) * (ih / A) == 0.075 * ih) by (field; lra).
  revert EX EY EH.
  generalize (9 * (200 / 30) * (iw / 200)) (11 * (A / 40) * (ih / A))
    (3 * (A / 40) * (ih / A)).
  intros X Y H EX EY EH.
  split; [ | split; [ | split; [ | reflexivity]]].
  - match goal with
    | |- ?t * _ == _ => assert (E : t == 0.294 * iw) by (minmax; lra)
    end.
    rewrite E. field. lra.
  - match goal with
    | |- ?t * _ == _ => assert (E : t == 0.2735 * ih) by (minmax; lra)
    end.
    rewrite E. field. lra.
  - match goal with
    | |- ?t * _ == _ => assert (E : t == 0.312 * iw) by (minmax; lra)
    end.
    rewrite E. field. lra.
Qed.

Variables Uri ImageResult : Type.
Variable manipulateAsync : Uri -> Action -> result ImageResult.

Lemma near_eq (a b scale : number) : a == b -> near a b scale.
Proof.
  intros E. unfold near.
  assert (Z : a - b == 0) by (rewrite E; ring).
  rewrite Z. change (Qabs 0) with 0.
  pose proof (Qabs_nonneg scale). lra.
Qed.

(** X14: when the resize of the image succeeds, the density estimator
    returns the same band of the target, up to a billionth of the target
    dimensions, for every image and target of at least a pixel each way
    where the image is not more than 400 times wider than high: its left
    edge at 29.4% of the target width, its top at 27.35% of the target
    height, 31.2% of the target width wide and 35 high; this is a valid box
    of any target at least 49 high. *)
Theorem analyzeTextDensity_band
    (imageUri : Uri) (iw ih sw sh : number) (processed : ImageResult) :
  1 <= iw -> 1 <= ih -> iw <= 400 * ih -> 1 <= sw -> 1 <= sh ->
  manipulateAsync imageUri (Resize 200 (Math.round ((ih / iw) * 200)))
  = Ok processed ->
  exists r,
    analyzeTextDensity manipulateAsync imageUri iw ih sw sh = Ok (Some r)
    /\ near (x r) (0.294 * sw) sw /\ near (y r) (0.2735 * sh) sh
    /\ near (width r) (0.312 * sw) sw /\ height r = 35
    /\ (49 <= sh -> RealtimeDetection.isValidBox r sw sh = true).
Proof.
  intros Hiw Hih Hratio Hsw Hsh Hok.
  exists (screenRect iw ih sw sh).
  split; [rewrite analyzeTextDensity_cases, Hok; reflexivity | ].
  assert (Piw : 0 < iw) by lra. assert (Pih : 0 < ih) by lra.
  destruct (screenRect_closed_form iw ih sw sh Piw Pih Hratio)
    as (Ex & Ey & Ew & Eh).
  split; [exact (near_eq _ _ sw Ex) | ].
  split; [exact (near_eq _ _ sh Ey) | ].
  split; [exact (near_eq _ _ sw Ew) | ].
  split; [reflexivity | ].
  intros Hsh'. apply isValidBox_spec. unfold inside.
  rewrite Ex, Ey, Ew, Eh. repeat split; lra.
Qed.

End DensityClosedForm.

Lemma analyzeTextDensity_band_witness :
  let manipulateAsync := fun (_ : nat) (_ : Action) => Ok 1%nat in
  (1 <= 3000 /\ 1 <= 4000 /\ 3000 <= 400 * 4000 /\ 1 <= 400 /\ 1 <= 800
   /\ manipulateAsync 7%nat (Resize 200 (Math.round ((4000 / 3000) * 200)))
      = Ok 1%nat /\ 49 <= 800)
  /\ exists r,
       ImageUtils.analyzeTextDensity manipulateAsync 7%nat 3000 4000 400 800
       = Ok (Some r)
       /\ near (x r) (0.294 * 400) 400 /\ near (y r) (0.2735 * 800) 800
       /\ RealtimeDetection.isValidBox r 400 800 = true.
Proof.
  cbv zeta.
  assert (H1 : 1 <= 3000) by (vm_compute; intro E; discriminate E).
  assert (H2 : 1 <= 4000) by (vm_compute; intro E; discriminate E).
  assert (H3 : 3000 <= 400 * 4000) by (vm_compute; intro E; discriminate E).
  assert (H4 : 1 <= 400) by (vm_compute; intro E; discriminate E).
  assert (H5 : 1 <= 800) by (vm_compute; intro E; discriminate E).
  assert (H6 : 49 <= 800) by (vm_compute; intro E; discriminate E).
  split; [repeat (split; [assumption || reflexivity | ]); assumption | ].
  destruct (analyzeTextDensity_band nat nat (fun _ _ => Ok 1%nat) 7%nat
              3000 4000 400 800 1%nat H1 H2 H3 H4 H5 eq_refl)
    as (r & E & Ex & Ey & _ & _ & Hvalid).
  exists r. split; [exact E | ].
  split; [exact Ex | split; [exact Ey | exact (Hvalid H6)]].
Defined.

(** ** The letterboxed image of the preview screen *)

Section Letterbox.

Import PreviewDetection.

Lemma Qdiv_lt_cross (a b c d : number) :
  0 < b -> 0 < d -> (a / b < c / d <-> a * d < c * b).
Proof.
  intros Hb Hd. split; intros H.
  - assert (E1 : a * d == (a / b) * (b * d)) by (field; lra).
    assert (E2 : c * b == (c / d) * (b * d)) by (field; lra).
    rewrite E1, E2. apply Qmult_lt_compat_r; [ | exact H].
    apply Qmult_lt_0_compat; assumption.
  - assert (E1 : a / b == (a * d) / (b * d)) by (field; lra).
    assert (E2 : c / d == (c * b) / (b * d)) by (field; lra).
    rewrite E1, E2. unfold Qdiv. apply Qmult_lt_compat_r; [ | exact H].
    apply Qinv_lt_0_compat. apply Qmult_lt_0_compat; assumption.
Qed.

(** Both dimensions of the displayed image are positive. *)
Lemma displayed_positive (l : Layout.t) (photoW photoH : number) :
  0 < photoW -> 0 < photoH -> 0 < Layout.width l -> 0 < Layout.height l ->
  0 < displayedImageWidth (displayed l photoW photoH)
  /\ 0 < displayedImageHeight (displayed l photoW photoH).
Proof.
  intros Hpw Hph Hlw Hlh. unfold displayed.
  assert (Hr : 0 < photoW / photoH)
    by (apply Qlt_shift_div_l; [assumption | lra]).
  destruct (gtb (photoW / photoH) (Layout.width l / Layout.height l));
    cbn [displayedImageWidth displayedImageHeight]; split;
    try assumption.
  - apply Qlt_shift_div_l; [assumption | lra].
  - apply Qmult_lt_0_compat; assumption.
Qed.

(** The displayed image lies inside the container. *)
Lemma displayed_inside (l : Layout.t) (photoW photoH : number) :
  0 < photoW -> 0 < photoH -> 0 < Layout.width l -> 0 < Layout.height l ->
  let d := displayed l photoW photoH in
  inside (mkRect (imageOffsetX d) (imageOffsetY d) (displayedImageWidth d)
                 (displayedImageHeight d))
         (Layout.width l) (Layout.height l).
Proof.
  intros Hpw Hph Hlw Hlh. cbv zeta. unfold displayed, inside.
  generalize (Layout.width l) (Layout.height l) Hlw Hlh.
  clear Hlw Hlh. intros lw lh Hlw Hlh.
  destruct (gtb (photoW / photoH) (lw / lh)) eqn:G;
    cbn [displayedImageWidth displayedImageHeight imageOffsetX
         imageOffsetY x y width height].
  - apply gtb_true in G.
    apply (proj1 (Qdiv_lt_cross lw lh photoW photoH Hlh Hph)) in G.
    assert (E : lw / (photoW / photoH) == lw * photoH / photoW)
      by (field; split; lra).
    assert (Hle : lw * photoH / photoW <= lh).
    { apply Qle_shift_div_r; [assumption | ]. nra. }
    revert E Hle.
    generalize (lw / (photoW / photoH)) (lw * photoH / photoW).
    intros dh q E Hle.
    assert (Eo : (lh - dh) / 2 == 0.5 * lh - 0.5 * dh) by field.
    rewrite Eo. repeat split; lra.
  - apply gtb_false in G.
    assert (G' : photoW * lh <= lw * photoH).
    { destruct (Qlt_le_dec (lw * photoH) (photoW * lh)) as [Hlt | Hle];
        [ | exact Hle].
      apply (proj2 (Qdiv_lt_cross lw lh photoW photoH Hlh Hph)) in Hlt.
      lra. }
    assert (E : lh * (photoW / photoH) == lh * photoW / photoH)
      by (field; lra).
    assert (Hle : lh * photoW / photoH <= lw).
    { apply Qle_shift_div_r; [assumption | ]. nra. }
    revert E Hle.
    generalize (lh * (photoW / photoH)) (lh * photoW / photoH).
    intros dw q E Hle.
    assert (Eo : (lw - dw) / 2 == 0.5 * lw - 0.5 * dw) by field.
    rewrite Eo. repeat split; lra.
Qed.


End Letterbox.


(** ** The crop of the whole image *)

Section WholeImage.
Import PreviewDetection.

(** Rounding a number that equals an integer gives that integer. *)
Lemma round_eq (t : number) (z : Z) :
  t == inject_Z z -> Math.round t = inject_Z z.
Proof.
  intros E. unfold Math.round.
  assert (E' : t + 0.5 == inject_Z z + 0.5) by (rewrite E; reflexivity).
  rewrite (Qfloor_comp _ _ E'), Qfloor_half. reflexivity.
Qed.

(** X16: selecting the whole displayed image crops the whole photo: for the
    crop box that coincides with the letterboxed image, [cropAsync] requests
    the rectangle at origin (0, 0) with the pixel dimensions of the
    photo. *)
Theorem cropRect_whole_image (l : Layout.t) (photoW photoH : Z) :
  (0 < photoW)%Z -> (0 < photoH)%Z ->
  0 < Layout.width l -> 0 < Layout.height l ->
  let d := displayed l (inject_Z photoW) (inject_Z photoH) in
  let cropBox :=
    mkRect (imageOffsetX d) (imageOffsetY d)
           (displayedImageWidth d) (displayedImageHeight d) in
  exists c,
    PreviewCrop.cropRect cropBox l (inject_Z photoW) (inject_Z photoH) = Ok c
    /\ Crop.originX c == 0 /\ Crop.originY c == 0
    /\ Crop.width c == inject_Z photoW /\ Crop.height c == inject_Z photoH.
Proof.
  intros HpW HpH Hlw Hlh.
  assert (Hpw : 1 <= inject_Z photoW)
    by (change 1 with (inject_Z 1); rewrite <- Zle_Qle; lia).
  assert (Hph : 1 <= inject_Z photoH)
    by (change 1 with (inject_Z 1); rewrite <- Zle_Qle; lia).
  destruct (displayed_positive l (inject_Z photoW) (inject_Z photoH))
    as (Hdw & Hdh); try lra.
  cbv zeta. revert Hdw Hdh.
  unfold PreviewCrop.cropRect, displayed.
  destruct (gtb (inject_Z photoW / inject_Z photoH)
              (Layout.width l / Layout.height l));
    cbn [displayedImageWidth displayedImageHeight imageOffsetX imageOffsetY
         x y width height]; cbv zeta beta iota; intros Hdw Hdh.
  all: repeat match goal with
       | |- context [Math.round ?t] =>
           first
             [ rewrite (round_eq t 0) by (change (inject_Z 0) with 0; ring)
             | rewrite (round_eq t photoW) by (field; repeat split; lra)
             | rewrite (round_eq t photoH) by (field; repeat split; lra) ]
       end.
  all: change (inject_Z 0) with 0.
  all: clear Hdw Hdh; revert Hpw Hph;
    generalize (inject_Z photoW) (inject_Z photoH); intros P Q HP HQ.
  all: match goal with
       | |- context [gtb ?a ?b || gtb ?c ?d] =>
           assert (G1 : gtb a b = false) by (apply gtb_false; minmax; lra);
           assert (G2 : gtb c d = false) by (apply gtb_false; minmax; lra);
           rewrite G1; rewrite ?G2
       end; cbn [orb]; cbv beta iota;
       cbn [Crop.originX Crop.originY Crop.width Crop.height].
  all: match goal with
       | |- context [leb ?a ?b || leb ?c ?d] =>
           assert (G3 : leb a b = false)
             by (apply not_true_is_false; intros G; apply leb_true in G;
                 revert G; minmax; lra);
           assert (G4 : leb c d = false)
             by (apply not_true_is_false; intros G; apply leb_true in G;
                 revert G; minmax; lra);
           rewrite G3; rewrite ?G4
       end; cbn [orb].
  all: match goal with
       | |- context [ltb ?a ?b || ltb ?c ?d] =>
           assert (G5 : ltb a b = false)
             by (apply not_true_is_false; intros G; apply ltb_true in G;
                 revert G; minmax; lra);
           assert (G6 : ltb c d = false)
             by (apply not_true_is_false; intros G; apply ltb_true in G;
                 revert G; minmax; lra);
           rewrite G5; rewrite ?G6
       end; cbn [orb].
  all: eexists; split; [reflexivity | ].
  all: cbn [Crop.originX Crop.originY Crop.width Crop.height].
  all: repeat split; minmax; lra.
Qed.
End WholeImage.

Lemma cropRect_whole_image_witness :
  ((0 < 3000)%Z /\ (0 < 4000)%Z /\ 0 < 400 /\ 0 < 440)
  /\ exists c,
       PreviewCrop.cropRect (mkRect 35 0 330 440) (Layout.mk 400 440 0 0)
         (inject_Z 3000) (inject_Z 4000) = Ok c
       /\ Crop.originX c == 0 /\ Crop.originY c == 0
       /\ Crop.width c == inject_Z 3000 /\ Crop.height c == inject_Z 4000.
Proof.
  split; [repeat split | ].
  destruct (cropRect_whole_image (Layout.mk 400 440 0 0) 3000 4000)
    as (c & E & H); try reflexivity.
  exists c. split; [ | exact H].
  rewrite <- E. vm_compute. reflexivity.
Defined.

(** ** Boxes the clamps leave alone *)

Section Fixpoints.

Variables SCREEN_WIDTH SCREEN_HEIGHT : number.

Lemma Rect_eq_differs (a b : Rect) :
  a =r= b -> PreviewScreen.differs a b = false.
Proof.
  intros (E1 & E2 & E3 & E4). unfold PreviewScreen.differs.
  apply Qeq_bool_iff in E1, E2, E3, E4. rewrite E1, E2, E3, E4. reflexivity.
Qed.

(** A box inside the container is left where it is by the re-clamp. *)
Lemma constrainCropBox_id (l : Layout.t) (b : Rect) :
  inside b (PreviewScreen.containerWidth SCREEN_WIDTH l)
           (PreviewScreen.containerHeight SCREEN_HEIGHT l) ->
  PreviewScreen.constrainCropBox SCREEN_WIDTH SCREEN_HEIGHT l b =r= b.
Proof.
  unfold inside, PreviewScreen.constrainCropBox, PreviewScreen.clamp,
    Rect_eq; cbn [x y width height].
  generalize (PreviewScreen.containerWidth SCREEN_WIDTH l)
             (PreviewScreen.containerHeight SCREEN_HEIGHT l).
  intros W H (Hx & Hy & Hxw & Hyh).
  repeat split; minmax; lra.
Qed.

(** X17: the re-clamp of the preview screen leaves a box that is inside the
    container where it is, so that clamping twice is clamping once; and a
    layout event for a container that holds the crop box changes nothing
    but the layout. *)
Theorem constrainCropBox_fixpoint (l : Layout.t) :
  (forall b,
      inside b (PreviewScreen.containerWidth SCREEN_WIDTH l)
               (PreviewScreen.containerHeight SCREEN_HEIGHT l) ->
      PreviewScreen.constrainCropBox SCREEN_WIDTH SCREEN_HEIGHT l b =r= b)
  /\ (forall b,
         PreviewScreen.constrainCropBox SCREEN_WIDTH SCREEN_HEIGHT l
           (PreviewScreen.constrainCropBox SCREEN_WIDTH SCREEN_HEIGHT l b)
         =r= PreviewScreen.constrainCropBox SCREEN_WIDTH SCREEN_HEIGHT l b)
  /\ (forall s,
         inside (PreviewScreen.cropBox s)
                (PreviewScreen.containerWidth SCREEN_WIDTH l)
                (PreviewScreen.containerHeight SCREEN_HEIGHT l) ->
         PreviewScreen.onLayout SCREEN_WIDTH SCREEN_HEIGHT l s
         = PreviewScreen.set_imageLayout l s).
Proof.
  pose proof (constrainCropBox_id l) as Hfix.
  split; [exact Hfix | split].
  - intros b. apply Hfix. apply constrainCropBox_inside.
  - intros s Hin. unfold PreviewScreen.onLayout. cbv zeta.
    destruct s as [cb l0 ds ah dr rr cr af pc].
    cbn [PreviewScreen.imageLayout PreviewScreen.cropBox
         PreviewScreen.set_imageLayout] in *.
    rewrite (Rect_eq_differs _ _ (Hfix cb Hin)).
    destruct (negb _ || negb _); [ | reflexivity].
    destruct (gtb _ _ && gtb _ _); reflexivity.
Qed.


End Fixpoints.

Lemma constrainCropBox_fixpoint_witness :
  let l := Layout.mk 1000 2000 0 0 in
  inside scenarioBox (PreviewScreen.containerWidth 400 l)
                     (PreviewScreen.containerHeight 800 l)
  /\ PreviewScreen.constrainCropBox 400 800 l scenarioBox =r= scenarioBox
  /\ PreviewScreen.onLayout 400 800 l previewScenario
     = PreviewScreen.set_imageLayout l previewScenario.
Proof.
  cbv zeta.
  assert (Hin : inside scenarioBox
                  (PreviewScreen.containerWidth 400 (Layout.mk 1000 2000 0 0))
                  (PreviewScreen.containerHeight 800
                     (Layout.mk 1000 2000 0 0)))
    by (repeat split; vm_compute; intro E; discriminate E).
  destruct (constrainCropBox_fixpoint 400 800 (Layout.mk 1000 2000 0 0))
    as (Hfix & _ & Hlayout).
  split; [exact Hin | split].
  - exact (Hfix scenarioBox Hin).
  - exact (Hlayout previewScenario Hin).
Defined.


(** ** Resizes and stuck gestures of the preview screen *)

Section ResizeCommit.

Import PreviewScreen.

Variables SCREEN_WIDTH SCREEN_HEIGHT : number.

Abbreviation InResize := (Resizing SCREEN_WIDTH SCREEN_HEIGHT).
Abbreviation resized := (resizedBox SCREEN_WIDTH SCREEN_HEIGHT).

Lemma Resizing_move (handle : Handle) (l : Layout.t) (start : Rect)
    (last : option (number * number)) (dx dy : number) (s : State) :
  InResize handle l start last s ->
  InResize handle l start (Some (dx, dy))
    (resize_onPanResponderMove SCREEN_WIDTH SCREEN_HEIGHT l handle dx dy s).
Proof.
  intros (H1 & H3 & H4 & H5 & _). unfold resize_onPanResponderMove.
  rewrite H3, H4, H5, Handle_eqb_refl. cbn [negb orb].
  unfold publish, Resizing.
  destruct s as [cb l' ds ah dr rr cr af pc]. pst. subst ds.
  destruct af; pst; auto 10.
Qed.

Lemma Resizing_frame (handle : Handle) (l : Layout.t) (start : Rect)
    (last : option (number * number)) (s : State) :
  InResize handle l start last s ->
  InResize handle l start last (animationFrame s).
Proof.
  intros (H1 & H3 & H4 & H5 & H6).
  unfold animationFrame, setCropBox, Resizing.
  destruct s as [cb l' ds ah dr rr cr af pc]. pst. subst ds dr rr ah.
  destruct af as [[ | b] | ]; pst.
  - destruct pc as [p | ]; pst.
    + do 4 (split; [reflexivity | ]).
      destruct last as [[dx dy] | ]; [ | exact I].
      destruct H6 as [[= ->] | [[=] _]].
      right; repeat split; intros b; discriminate.
    + do 4 (split; [reflexivity | ]).
      destruct last as [[dx dy] | ]; [ | exact I].
      destruct H6 as [[=] | (_ & E & _)].
      right; repeat split; [exact E | intros b; discriminate].
  - do 4 (split; [reflexivity | ]).
    destruct last as [[dx dy] | ]; [ | exact I].
    destruct H6 as [E | (_ & _ & Hno)];
      [left; exact E | exfalso; exact (Hno b eq_refl)].
  - do 4 (split; [reflexivity | ]). exact H6.
Qed.

Lemma Resizing_during (handle : Handle) (l : Layout.t) (start : Rect)
    (events : list GestureEvent) (last : option (number * number))
    (s : State) :
  InResize handle l start last s ->
  InResize handle l start (lastMove events last)
    (during (resize_onPanResponderMove SCREEN_WIDTH SCREEN_HEIGHT l handle)
       events s).
Proof.
  revert last s. unfold during, lastMove.
  induction events as [ | e events IH]; intros last s HD; cbn [fold_left].
  - exact HD.
  - apply IH. destruct e as [dx dy | ].
    + exact (Resizing_move handle l start last dx dy s HD).
    + exact (Resizing_frame handle l start last s HD).
Qed.

Lemma Resizing_grant (handle : Handle) (l : Layout.t) (s : State) :
  isDraggingRef s = false ->
  InResize handle l (cropBoxRef s) None
    (resize_onPanResponderGrant handle s).
Proof.
  intros Hdrag. unfold Resizing, resize_onPanResponderGrant.
  destruct s as [cb l0 ds ah dr rr cr af pc]. pst.
  rewrite Rect_eta. auto 10.
Qed.

Lemma Dragging_grant (l : Layout.t) (s : State) :
  isResizingRef s = false ->
  Dragging SCREEN_WIDTH SCREEN_HEIGHT l (cropBoxRef s) None
    (drag_onPanResponderGrant s).
Proof.
  intros Hres. unfold Dragging, drag_onPanResponderGrant.
  destruct s as [cb l0 ds ah dr rr cr af pc]. pst.
  rewrite Rect_eta. auto.
Qed.

(** What a resize leaves behind: the box its last move computed, and no
    flag, handle or pending box. *)
Lemma resizeGesture_result (l : Layout.t) (handle : Handle) (s : State)
    (events : list GestureEvent) (terminated : bool) (dx dy : number) :
  isDraggingRef s = false ->
  lastMove events None = Some (dx, dy) ->
  let s' :=
    resizeGesture SCREEN_WIDTH SCREEN_HEIGHT l handle events terminated s in
  cropBox s' = resized handle l (cropBoxRef s) dx dy
  /\ isResizingRef s' = false /\ activeHandleRef s' = None
  /\ pendingCropRef s' = None.
Proof.
  intros Hdrag Hlast. cbv zeta.
  unfold resizeGesture, resize_onStartShouldSetPanResponder.
  rewrite Hdrag. cbn [negb]. cbv zeta.
  pose proof (Resizing_grant handle l s Hdrag) as HD.
  apply (Resizing_during _ _ _ events) in HD. rewrite Hlast in HD.
  revert HD.
  generalize (during
                (resize_onPanResponderMove SCREEN_WIDTH SCREEN_HEIGHT l
                   handle)
                events (resize_onPanResponderGrant handle s)).
  intros s' (H1 & H3 & H4 & H5 & H6).
  assert (E : let t := flush (set_activeHandleRef None
                                (set_isResizingRef false s')) in
              cropBox t = resized handle l (cropBoxRef s) dx dy
              /\ isResizingRef t = false /\ activeHandleRef t = None
              /\ pendingCropRef t = None).
  { cbv zeta. unfold flush, setCropBox.
    destruct s' as [cb l0 ds ah dr rr cr af pc]. pst. subst dr.
    destruct H6 as [-> | (-> & E & _)]; pst; auto. }
  destruct terminated; exact E.
Qed.

(** The fields of the start box a handle does not touch. *)
Lemma resizedBox_untouched
    (handle : Handle) (l : Layout.t) (start : Rect) (dx dy : number) :
  let r := resized handle l start dx dy in
  match handle with
  | BR => x r = x start /\ y r = y start
  | TR => x r = x start
  | BL => y r = y start
  | TL => True
  end.
Proof.
  cbv zeta. unfold resizedBox. destruct handle; cbv zeta.
  all: repeat match goal with
       | |- context [geb ?a ?b && geb ?c ?d] =>
           destruct (geb a b && geb c d); cbv beta iota
       end.
  all: cbn [x y]; auto.
Qed.

(** X19: a gesture of the preview screen commits what its last move alone
    would have committed, whatever moves and animation frames came before
    and whether it is released or interrupted: a drag or a resize with any
    events ending in a move by [(dx, dy)] leaves the crop box of the
    gesture made of that one move.  A drag leaves the size of the box as
    it was at the grant; a resize leaves the fields its handle does not
    touch (x and y for the bottom-right handle, x for the top-right, y for
    the bottom-left) and ends with no flag, handle or pending box. *)
Theorem resizeGesture_commits (l : Layout.t) (s : State)
    (events : list GestureEvent) (terminated : bool) (dx dy : number) :
  lastMove events None = Some (dx, dy) ->
  (isResizingRef s = false ->
   let s' := dragGesture SCREEN_WIDTH SCREEN_HEIGHT l events terminated s in
   cropBox s'
   = cropBox (dragGesture SCREEN_WIDTH SCREEN_HEIGHT l [move dx dy] false s)
   /\ width (cropBox s') = width (cropBoxRef s)
   /\ height (cropBox s') = height (cropBoxRef s))
  /\ (isDraggingRef s = false ->
      forall handle,
        let s' :=
          resizeGesture SCREEN_WIDTH SCREEN_HEIGHT l handle events
            terminated s in
        cropBox s'
        = cropBox (resizeGesture SCREEN_WIDTH SCREEN_HEIGHT l handle
                     [move dx dy] false s)
        /\ match handle with
           | BR => x (cropBox s') = x (cropBoxRef s)
                   /\ y (cropBox s') = y (cropBoxRef s)
           | TR => x (cropBox s') = x (cropBoxRef s)
           | BL => y (cropBox s') = y (cropBoxRef s)
           | TL => True
           end
        /\ isResizingRef s' = false /\ activeHandleRef s' = None
        /\ pendingCropRef s' = None).
Proof.
  intros Hlast. split.
  - intros Hres. cbv zeta.
    rewrite (dragGesture_commits SCREEN_WIDTH SCREEN_HEIGHT l s events
               terminated dx dy Hres Hlast).
    rewrite (dragGesture_commits SCREEN_WIDTH SCREEN_HEIGHT l s
               [move dx dy] false dx dy Hres eq_refl).
    split; [reflexivity | split; reflexivity].
  - intros Hdrag handle. cbv zeta.
    destruct (resizeGesture_result l handle s events terminated dx dy
                Hdrag Hlast) as (E & F1 & F2 & F3).
    destruct (resizeGesture_result l handle s [move dx dy] false dx dy
                Hdrag eq_refl) as (E1 & _).
    cbv zeta in E, E1, F1, F2, F3.
    rewrite E, E1.
    split; [reflexivity | ].
    split; [ | auto].
    exact (resizedBox_untouched handle l (cropBoxRef s) dx dy).
Qed.

(** X20: the recovery from a gesture that never ended.  [clearGestureStates]
    leaves no gesture flag, no active handle and no pending box, so that
    both responders accept the next touch, and it commits the crop box that
    the release of a drag or of a resize would commit in the same state;
    fired in the middle of a drag or of a resize, after a last move by
    [(dx, dy)], it leaves the crop box that the completed gesture of that
    one move leaves. *)
Theorem clearGestureStates_recovers (l : Layout.t) (s : State)
    (events : list GestureEvent) (dx dy : number) :
  lastMove events None = Some (dx, dy) ->
  (forall s0,
      let s' := PreviewDetection.clearGestureStates s0 in
      (isDraggingRef s' = false /\ isResizingRef s' = false
       /\ activeHandleRef s' = None /\ pendingCropRef s' = None
       /\ drag_onStartShouldSetPanResponder s' = true
       /\ resize_onStartShouldSetPanResponder s' = true)
      /\ cropBox s' = cropBox (drag_onPanResponderRelease s0)
      /\ cropBox s' = cropBox (resize_onPanResponderRelease s0))
  /\ (isResizingRef s = false ->
      cropBox
        (PreviewDetection.clearGestureStates
           (during (drag_onPanResponderMove SCREEN_WIDTH SCREEN_HEIGHT l)
              events (drag_onPanResponderGrant s)))
      = cropBox
          (dragGesture SCREEN_WIDTH SCREEN_HEIGHT l [move dx dy] false s))
  /\ (forall handle,
         isDraggingRef s = false ->
         cropBox
           (PreviewDetection.clearGestureStates
              (during
                 (resize_onPanResponderMove SCREEN_WIDTH SCREEN_HEIGHT l
                    handle)
                 events (resize_onPanResponderGrant handle s)))
         = cropBox
             (resizeGesture SCREEN_WIDTH SCREEN_HEIGHT l handle
                [move dx dy] false s)).
Proof.
  intros Hlast. split; [ | split].
  - intros s0. cbv zeta.
    unfold PreviewDetection.clearGestureStates, drag_onPanResponderRelease,
      resize_onPanResponderRelease, flush, setCropBox,
      drag_onStartShouldSetPanResponder, resize_onStartShouldSetPanResponder.
    destruct s0 as [cb l0 ds ah dr rr cr af pc]. pst.
    destruct pc; pst; [ | auto 10].
    destruct rr, dr; pst; auto 10.
  - intros Hres.
    rewrite (dragGesture_commits SCREEN_WIDTH SCREEN_HEIGHT l s
               [move dx dy] false dx dy Hres eq_refl).
    pose proof (Dragging_grant l s Hres) as HD.
    apply (Dragging_during _ _ _ _ events) in HD. rewrite Hlast in HD.
    revert HD.
    generalize (during (drag_onPanResponderMove SCREEN_WIDTH SCREEN_HEIGHT l)
                  events (drag_onPanResponderGrant s)).
    intros s' (H1 & H3 & H4).
    unfold PreviewDetection.clearGestureStates, flush, setCropBox.
    destruct s' as [cb l0 ds ah dr rr cr af pc]. pst.
    destruct H4 as [-> | (-> & E & _)]; pst; [reflexivity | exact E].
  - intros handle Hdrag.
    destruct (resizeGesture_result l handle s [move dx dy] false dx dy
                Hdrag eq_refl) as (E1 & _).
    cbv zeta in E1. rewrite E1.
    pose proof (Resizing_grant handle l s Hdrag) as HD.
    apply (Resizing_during _ _ _ events) in HD. rewrite Hlast in HD.
    revert HD.
    generalize (during
                  (resize_onPanResponderMove SCREEN_WIDTH SCREEN_HEIGHT l
                     handle)
                  events (resize_onPanResponderGrant handle s)).
    intros s' (H1 & H3 & H4 & H5 & H6).
    unfold PreviewDetection.clearGestureStates, flush, setCropBox.
    destruct s' as [cb l0 ds ah dr rr cr af pc]. pst.
    destruct H6 as [-> | (-> & E & _)]; pst; [reflexivity | exact E].
Qed.

End ResizeCommit.

Lemma resizeGesture_commits_witness :
  let events :=
    [PreviewScreen.move 5 5; PreviewScreen.frame; PreviewScreen.move 20 10] in
  let l := Layout.mk 1000 2000 0 0 in
  (lastMove events None = Some (20, 10)
   /\ PreviewScreen.isDraggingRef previewScenario = false)
  /\ PreviewScreen.cropBox
       (PreviewScreen.resizeGesture 400 800 l PreviewScreen.TL events true
          previewScenario)
     = PreviewScreen.cropBox
         (PreviewScreen.resizeGesture 400 800 l PreviewScreen.TL
            [PreviewScreen.move 20 10] false previewScenario).
Proof.
  cbv zeta. split; [split; reflexivity | ].
  exact (proj1 (proj2 (resizeGesture_commits 400 800
                         (Layout.mk 1000 2000 0 0) previewScenario
                         [PreviewScreen.move 5 5; PreviewScreen.frame;
                          PreviewScreen.move 20 10]
                         true 20 10 eq_refl)
                  eq_refl PreviewScreen.TL)).
Defined.

Lemma clearGestureStates_recovers_witness :
  let events := [PreviewScreen.move 50 (-20); PreviewScreen.frame] in
  let l := Layout.mk 1000 2000 0 0 in
  (lastMove events None = Some (50, -20)
   /\ PreviewScreen.isResizingRef previewScenario = false)
  /\ PreviewScreen.cropBox
       (PreviewDetection.clearGestureStates
          (PreviewScreen.during
             (PreviewScreen.drag_onPanResponderMove 400 800 l)
             events (PreviewScreen.drag_onPanResponderGrant previewScenario)))
     = PreviewScreen.cropBox
         (PreviewScreen.dragGesture 400 800 l [PreviewScreen.move 50 (-20)]
            false previewScenario).
Proof.
  cbv zeta. split; [split; reflexivity | ].
  exact (proj1 (proj2 (clearGestureStates_recovers 400 800
                         (Layout.mk 1000 2000 0 0) previewScenario
                         [PreviewScreen.move 50 (-20); PreviewScreen.frame]
                         50 (-20) eq_refl))
           eq_refl).
Defined.

(** ** The automatic detection of the preview screen *)

Section AutoDetection.

Import PreviewScreen PreviewDetection.

Variables SCREEN_WIDTH SCREEN_HEIGHT : number.
Variables Uri ImageResult : Type.
Variable manipulateAsync : Uri -> Action -> result ImageResult.

Abbreviation detect :=
  (performAutoDetection SCREEN_WIDTH SCREEN_HEIGHT Uri ImageResult
     manipulateAsync).

Lemma Qeq_bool_pos (a : number) : 0 < a -> Qeq_bool a 0 = false.
Proof.
  intros Ha. destruct (Qeq_bool a 0) eqn:E; [ | reflexivity].
  apply Qeq_bool_eq in E. lra.
Qed.

Lemma or_else_pos (a b : number) : 0 < a -> or_else a b = a.
Proof. intros Ha. unfold or_else. rewrite (Qeq_bool_pos a Ha). reflexivity. Qed.

(** The frame scheduled by [updateCropBox] commits the re-clamped box. *)
Lemma updateCropBox_frame (newBox : Rect) (s : State) :
  cropBox (animationFrame (updateCropBox SCREEN_WIDTH SCREEN_HEIGHT newBox s))
  = constrainCropBox SCREEN_WIDTH SCREEN_HEIGHT (imageLayout s) newBox.
Proof.
  unfold updateCropBox, animationFrame.
  destruct s as [cb l ds ah dr rr cr af pc]. pst.
  apply cropBox_setCropBox.
Qed.

(** X21: the automatic detection of the preview screen, run without a crop
    from the route on a known layout, for a photo that is not more than 400
    times wider than high and whose resize succeeds.  It marks the
    detection complete, so that a second run does nothing; and once the
    scheduled frame has fired, the crop box lies within the displayed
    image, not in the bars around it, when the displayed image is at least
    49 high. *)
Theorem performAutoDetection_box
    (photo : Photo.t Uri) (s : State) (processed : ImageResult) :
  let l := imageLayout s in
  let d := displayed l (Photo.width photo) (Photo.height photo) in
  0 < Photo.width photo -> 0 < Photo.height photo ->
  Photo.width photo <= 400 * Photo.height photo ->
  0 < Layout.width l -> 0 < Layout.height l ->
  49 <= displayedImageHeight d ->
  manipulateAsync (Photo.uri photo)
    (Resize 200
       (Math.round ((Photo.height photo / Photo.width photo) * 200)))
  = Ok processed ->
  let r := detect photo None false s in
  let box := cropBox (animationFrame (fst r)) in
  snd r = true
  /\ detect photo None (snd r) (fst r) = r
  /\ (imageOffsetX d <= x box
      /\ x box + width box <= imageOffsetX d + displayedImageWidth d
      /\ imageOffsetY d <= y box
      /\ y box + height box <= imageOffsetY d + displayedImageHeight d).
Proof.
  cbv zeta. intros Hpw Hph Hratio Hlw Hlh Hdh Hok.
  set (d := displayed (imageLayout s) (Photo.width photo)
              (Photo.height photo)) in *.
  set (r0 := ImageUtils.screenRect (Photo.width photo) (Photo.height photo)
               (displayedImageWidth d) (displayedImageHeight d)).
  set (adj := mkRect (x r0 + imageOffsetX d) (y r0 + imageOffsetY d)
                (width r0) (height r0)).
  assert (E : detect photo None false s
              = (updateCropBox SCREEN_WIDTH SCREEN_HEIGHT adj s, true)).
  { unfold performAutoDetection.
    rewrite (Qeq_bool_pos _ Hlw), (Qeq_bool_pos _ Hlh). cbn [orb]. cbv zeta.
    rewrite analyzeTextDensity_cases. cbv zeta. rewrite Hok. reflexivity. }
  rewrite E. cbn [fst snd]. rewrite updateCropBox_frame.
  split; [reflexivity | split; [reflexivity | ]].
  destruct (screenRect_closed_form (Photo.width photo) (Photo.height photo)
              (displayedImageWidth d) (displayedImageHeight d)
              Hpw Hph Hratio) as (Ex & Ey & Ew & Eh).
  fold r0 in Ex, Ey, Ew, Eh.
  destruct (displayed_positive (imageLayout s) (Photo.width photo)
              (Photo.height photo) Hpw Hph Hlw Hlh) as (Hdw & Hdh0).
  destruct (displayed_inside (imageLayout s) (Photo.width photo)
              (Photo.height photo) Hpw Hph Hlw Hlh) as (Ix & Iy & Ixw & Iyh).
  fold d in Hdw, Hdh0, Ix, Iy, Ixw, Iyh.
  cbn [x y width height] in Ix, Iy, Ixw, Iyh.
  clearbody r0 d.
  assert (Hin : inside adj
                  (containerWidth SCREEN_WIDTH (imageLayout s))
                  (containerHeight SCREEN_HEIGHT (imageLayout s))).
  { unfold containerWidth, containerHeight.
    rewrite (or_else_pos _ _ Hlw), (or_else_pos _ _ Hlh).
    unfold inside, adj; cbn [x y width height].
    rewrite Ex, Ey, Ew, Eh. repeat split; lra. }
  destruct (constrainCropBox_id SCREEN_WIDTH SCREEN_HEIGHT (imageLayout s)
              adj Hin) as (Cx & Cy & Cw & Ch).
  assert (Ax : x adj == imageOffsetX d + 0.294 * displayedImageWidth d)
    by (unfold adj; cbn [x]; rewrite Ex; ring).
  assert (Ay : y adj == imageOffsetY d + 0.2735 * displayedImageHeight d)
    by (unfold adj; cbn [y]; rewrite Ey; ring).
  pose proof (Qeq_trans _ _ _ Cx Ax) as Bx.
  pose proof (Qeq_trans _ _ _ Cy Ay) as By.
  pose proof (Qeq_trans _ _ _ Cw Ew) as Bw.
  pose proof (Qeq_trans _ _ _ Ch Eh) as Bh.
  rewrite Bx, By, Bw, Bh. repeat split; lra.
Qed.

End AutoDetection.

Lemma performAutoDetection_box_witness :
  let manipulateAsync := fun (_ : nat) (_ : Action) => Ok 1%nat in
  let photo := Photo.mk 7%nat 3000 4000 in
  let r :=
    PreviewDetection.performAutoDetection 400 800 nat nat manipulateAsync
      photo None false previewScenario in
  (0 < 3000 /\ 0 < 4000 /\ 3000 <= 400 * 4000 /\ 0 < 1000 /\ 0 < 2000
   /\ 49 <= PreviewDetection.displayedImageHeight
              (PreviewDetection.displayed (Layout.mk 1000 2000 0 0)
                 3000 4000))
  /\ snd r = true
  /\ PreviewDetection.performAutoDetection 400 800 nat nat manipulateAsync
       photo None (snd r) (fst r) = r.
Proof.
  cbv zeta.
  assert (H1 : 0 < 3000) by reflexivity.
  assert (H2 : 0 < 4000) by reflexivity.
  assert (H3 : 3000 <= 400 * 4000) by (vm_compute; intro E; discriminate E).
  assert (H4 : 0 < 1000) by reflexivity.
  assert (H5 : 0 < 2000) by reflexivity.
  assert (H6 : 49 <= PreviewDetection.displayedImageHeight
                       (PreviewDetection.displayed (Layout.mk 1000 2000 0 0)
                          3000 4000))
    by (vm_compute; intro E; discriminate E).
  split; [repeat (split; [assumption | ]); exact H6 | ].
  destruct (performAutoDetection_box 400 800 nat nat (fun _ _ => Ok 1%nat)
              (Photo.mk 7%nat 3000 4000) previewScenario 1%nat
              H1 H2 H3 H4 H5 H6 eq_refl) as (F1 & F2 & _).
  split; [exact F1 | exact F2].
Defined.

(** ** Sessions on the preview screen *)

Section Sessions.

Import PreviewScreen.

Variables SCREEN_WIDTH SCREEN_HEIGHT : number.

Abbreviation Good' := (good SCREEN_WIDTH SCREEN_HEIGHT).
Abbreviation Inv' := (Inv SCREEN_WIDTH SCREEN_HEIGHT).

Lemma good_Rect_eq (l : Layout.t) (a b : Rect) :
  a =r= b -> Good' l a -> Good' l b.
Proof.
  unfold good, inside. intros (E1 & E2 & E3 & E4).
  rewrite E1, E2, E3, E4. auto.
Qed.

Lemma Inv_flush (s : State) : Inv' s -> Inv' (flush s).
Proof.
  intros (H1 & H2 & H3 & H4). unfold flush, setCropBox, Inv.
  destruct s as [cb l ds ah dr rr cr af pc]. pst.
  destruct pc as [p | ]; pst; [ | auto].
  assert (Hp : Good' l p) by (apply H3; reflexivity).
  destruct (negb dr && negb rr); pst;
    (split; [exact Hp | split; [first [exact Hp | exact H2] | split]];
     [intros p' [=] | exact H4]).
Qed.

Lemma Inv_animationFrame (s : State) : Inv' s -> Inv' (animationFrame s).
Proof.
  intros HI. unfold animationFrame.
  destruct (animationFrameRef s) as [[ | b] | ] eqn:E; [ | | exact HI].
  - apply Inv_flush in HI. fold (flush s). revert HI. generalize (flush s).
    intros [cb l ds ah dr rr cr af pc]. unfold Inv. pst.
    intros (H1 & H2 & H3 & H4).
    split; [exact H1 | split; [exact H2 | split; [exact H3 | ]]].
    intros b' [=].
  - destruct HI as (H1 & H2 & H3 & H4).
    assert (Hb : Good' (imageLayout s) b) by (apply H4; exact E).
    unfold setCropBox, Inv. clear E H4.
    destruct s as [cb l ds ah dr rr cr af pc]. pst.
    destruct (negb dr && negb rr); pst;
      (split; [exact Hb | split; [exact Hb | split]];
       [exact H3 | intros b' [=]]).
Qed.

Lemma Inv_clearGestureStates (s : State) :
  Inv' s -> Inv' (PreviewDetection.clearGestureStates s).
Proof.
  intros HI. unfold PreviewDetection.clearGestureStates. cbv zeta.
  apply Inv_flush.
  destruct s as [cb l ds ah dr rr cr af pc]. exact HI.
Qed.

Lemma clearGestureStates_layout (s : State) :
  imageLayout (PreviewDetection.clearGestureStates s) = imageLayout s.
Proof.
  unfold PreviewDetection.clearGestureStates. cbv zeta.
  rewrite flush_layout. destruct s; reflexivity.
Qed.

(** The default crop box and a crop box of at least 1 x 1 from the route
    are at least 1 x 1. *)
Lemma getInitialCropBox_size (crop : option Rect) :
  2.5 <= SCREEN_WIDTH -> 5.2 <= SCREEN_HEIGHT ->
  (forall c, crop = Some c -> 1 <= width c /\ 1 <= height c) ->
  1 <= width (getInitialCropBox SCREEN_WIDTH SCREEN_HEIGHT crop)
  /\ 1 <= height (getInitialCropBox SCREEN_WIDTH SCREEN_HEIGHT crop).
Proof.
  intros HW HH Hc. destruct crop as [c | ].
  - exact (Hc c eq_refl).
  - unfold getInitialCropBox. cbv zeta. cbn [width height].
    split; minmax; lra.
Qed.

Lemma Inv_mounted (crop : option Rect) (l : Layout.t) :
  3 <= SCREEN_WIDTH -> 6 <= SCREEN_HEIGHT ->
  1 <= Layout.width l -> 1 <= Layout.height l ->
  (forall c, crop = Some c -> 1 <= width c /\ 1 <= height c) ->
  let sc := PreviewSession.mounted SCREEN_WIDTH SCREEN_HEIGHT crop l in
  Inv' (state sc) /\ imageLayout (state sc) = l /\ responderLayout sc = l.
Proof.
  intros HW HH Hlw Hlh Hc. cbv zeta.
  assert (HW' : 2.5 <= SCREEN_WIDTH) by lra.
  assert (HH' : 5.2 <= SCREEN_HEIGHT) by lra.
  destruct (getInitialCropBox_size crop HW' HH' Hc) as (Hbw & Hbh).
  unfold PreviewSession.mounted, layoutEvent, mount, initial. cbv zeta.
  cbn [state responderLayout].
  revert Hbw Hbh.
  generalize (getInitialCropBox SCREEN_WIDTH SCREEN_HEIGHT crop).
  intros box Hbw Hbh.
  assert (Hcw : 1 <= containerWidth SCREEN_WIDTH l).
  { unfold containerWidth, or_else.
    destruct (Qeq_bool (Layout.width l) 0) eqn:E; [ | exact Hlw].
    apply Qeq_bool_eq in E. lra. }
  assert (Hch : 1 <= containerHeight SCREEN_HEIGHT l).
  { unfold containerHeight, or_else.
    destruct (Qeq_bool (Layout.height l) 0) eqn:E; [ | exact Hlh].
    apply Qeq_bool_eq in E. lra. }
  pose proof (constrainCropBox_good SCREEN_WIDTH SCREEN_HEIGHT l box
                Hcw Hch Hbw Hbh) as Hgood.
  assert (G0 : Qeq_bool 0 (Layout.height l) = false).
  { destruct (Qeq_bool 0 (Layout.height l)) eqn:E; [ | reflexivity].
    apply Qeq_bool_eq in E. lra. }
  pst. cbn [Layout.width Layout.height]. rewrite G0.
  split; [ | split; [ | reflexivity]].
  - unfold onLayout. cbv zeta. pst. cbn [Layout.width Layout.height].
    assert (G1 : Qeq_bool 0 (Layout.width l) = false).
    { destruct (Qeq_bool 0 (Layout.width l)) eqn:E; [ | reflexivity].
      apply Qeq_bool_eq in E. lra. }
    assert (G2 : gtb (Layout.width l) 0 = true) by (apply gtb_true; lra).
    assert (G3 : gtb (Layout.height l) 0 = true) by (apply gtb_true; lra).
    rewrite G1, G2, G3. cbn [negb orb andb].
    destruct (differs (constrainCropBox SCREEN_WIDTH SCREEN_HEIGHT l box)
                box) eqn:D.
    + unfold setCropBox, Inv. pst.
      split; [exact Hgood | split; [exact Hgood | split]];
        [intros p [=] | intros b [=]].
    + apply differs_false in D.
      pose proof (good_Rect_eq l _ _ D Hgood) as Hbox.
      unfold Inv. pst.
      split; [exact Hbox | split; [exact Hbox | split]];
        [intros p [=] | intros b [=]].
  - unfold onLayout. cbv zeta. pst. cbn [Layout.width Layout.height].
    destruct (negb _ || negb _); [ | reflexivity].
    destruct (gtb _ _ && gtb _ _); [ | reflexivity].
    destruct (differs _ _); [ | reflexivity].
    apply setCropBox_layout.
Qed.

Lemma Inv_step (l : Layout.t) (sc : Screen) (e : PreviewSession.Event) :
  Inv' (state sc) /\ imageLayout (state sc) = l /\ responderLayout sc = l ->
  let sc' := PreviewSession.step SCREEN_WIDTH SCREEN_HEIGHT sc e in
  Inv' (state sc') /\ imageLayout (state sc') = l
  /\ responderLayout sc' = l.
Proof.
  intros (HI & Hl & Hr). cbv zeta.
  destruct sc as [s r]. cbn [state responderLayout] in *. subst r.
  destruct e as [events terminated | handle events terminated | | ];
    cbn [PreviewSession.step drag resize state responderLayout].
  - split; [ | split; [ | reflexivity]].
    + rewrite <- Hl.
      exact (proj1 (gestures_keep_Inv SCREEN_WIDTH SCREEN_HEIGHT s events
                      terminated HI)).
    + rewrite dragGesture_layout. exact Hl.
  - split; [ | split; [ | reflexivity]].
    + rewrite <- Hl.
      exact (proj2 (gestures_keep_Inv SCREEN_WIDTH SCREEN_HEIGHT s events
                      terminated HI) handle).
    + rewrite resizeGesture_layout. exact Hl.
  - split; [exact (Inv_animationFrame s HI) | split; [ | reflexivity]].
    rewrite animationFrame_layout. exact Hl.
  - split; [exact (Inv_clearGestureStates s HI) | split; [ | reflexivity]].
    rewrite clearGestureStates_layout. exact Hl.
Qed.

(** X22: on a screen of at least 3 x 6, once the screen is mounted, with the
    default crop box or with a crop box of at least 1 x 1 from the route,
    and the image container has reported a layout of at least 1 x 1, the
    crop box is at least 1 x 1 and has a non-negative origin after every
    sequence of drags, resizes (released or interrupted, with any moves),
    animation frames and gesture timeouts; none of them changes the layout
    or the layout the responders read. *)
Theorem session_crop_box_bounds
    (crop : option Rect) (l : Layout.t)
    (events : list PreviewSession.Event) :
  3 <= SCREEN_WIDTH -> 6 <= SCREEN_HEIGHT ->
  1 <= Layout.width l -> 1 <= Layout.height l ->
  (forall c, crop = Some c -> 1 <= width c /\ 1 <= height c) ->
  let sc :=
    PreviewSession.run SCREEN_WIDTH SCREEN_HEIGHT events
      (PreviewSession.mounted SCREEN_WIDTH SCREEN_HEIGHT crop l) in
  (imageLayout (state sc) = l /\ responderLayout sc = l)
  /\ 1 <= width (cropBox (state sc)) /\ 1 <= height (cropBox (state sc))
  /\ 0 <= x (cropBox (state sc)) /\ 0 <= y (cropBox (state sc)).
Proof.
  intros HW HH Hlw Hlh Hc. cbv zeta.
  pose proof (Inv_mounted crop l HW HH Hlw Hlh Hc) as H0. cbv zeta in H0.
  revert H0.
  generalize (PreviewSession.mounted SCREEN_WIDTH SCREEN_HEIGHT crop l).
  unfold PreviewSession.run.
  induction events as [ | e events IH]; intros sc H0; cbn [fold_left].
  - destruct H0 as (((Hw & Hh & Hx & Hy & _) & _) & Hl & Hr).
    split; [split; [exact Hl | exact Hr] | ].
    split; [exact Hw | split; [exact Hh | split; [exact Hx | exact Hy]]].
  - apply IH. exact (Inv_step l sc e H0).
Qed.

End Sessions.

Lemma session_crop_box_bounds_witness :
  let events :=
    [PreviewSession.drag
       [PreviewScreen.move 50 (-20); PreviewScreen.frame] false;
     PreviewSession.resize PreviewScreen.BR [PreviewScreen.move 900 10] true;
     PreviewSession.animationFrame; PreviewSession.gestureTimeout] in
  let l := Layout.mk 400 440 0 0 in
  (3 <= 400 /\ 6 <= 800 /\ 1 <= Layout.width l /\ 1 <= Layout.height l)
  /\ 1 <= width
            (PreviewScreen.cropBox
               (PreviewScreen.state
                  (PreviewSession.run 400 800 events
                     (PreviewSession.mounted 400 800 None l)))).
Proof.
  cbv zeta.
  assert (H1 : 3 <= 400) by (vm_compute; intro E; discriminate E).
  assert (H2 : 6 <= 800) by (vm_compute; intro E; discriminate E).
  assert (H3 : 1 <= Layout.width (Layout.mk 400 440 0 0))
    by (vm_compute; intro E; discriminate E).
  assert (H4 : 1 <= Layout.height (Layout.mk 400 440 0 0))
    by (vm_compute; intro E; discriminate E).
  split; [exact (conj H1 (conj H2 (conj H3 H4))) | ].
  assert (H5 : forall c : Rect,
             @None Rect = Some c -> 1 <= width c /\ 1 <= height c)
    by (intros c E; discriminate E).
  exact (proj1 (proj2
           (session_crop_box_bounds 400 800 None (Layout.mk 400 440 0 0)
              [PreviewSession.drag
                 [PreviewScreen.move 50 (-20); PreviewScreen.frame] false;
               PreviewSession.resize PreviewScreen.BR
                 [PreviewScreen.move 900 10] true;
               PreviewSession.animationFrame; PreviewSession.gestureTimeout]
              H1 H2 H3 H4 H5))).
Defined.
